(** * Oscilloscope acquisition scripts: frame decoding, scaling and capture loops

    A shallow embedding of the three acquisition scripts of the repository:
    - [acquire.py]        (Tektronix, python-usbtmc, sequential loop),
    - [acquire_pyvisa.py] (Tektronix, PyVISA, sequential loop, header stripping),
    - [acquire_ag.py]     (Agilent, python-usbtmc, timer-driven [update] callback).

    The instrument session, the file system behind [np.savetxt] and the
    arithmetic of Python and NumPy are external to the scripts; they are
    taken through interfaces.  Wall-clock timing ([time.time],
    [time.perf_counter]) and the derived rate figures are left out of the
    model, and the plotting calls are taken not to raise. *)

From Stdlib Require Import String Ascii Strings.Byte.
From Stdlib Require Import List ZArith Bool Lia QArith Qabs.
From Stdlib Require Import Sorting.Permutation Sorting.Sorted.
From Stdlib Require Import Floats.SpecFloat.
Import ListNotations.

Local Open Scope Z_scope.

(** ** Python primitives used by the scripts *)

Module Py.

Definition bytes := list byte.

(** An exception object: the handlers of the scripts only look at [str(e)].
    A [str] is modelled as a [string] whose characters are code points below
    256. *)
Record exn := mkExn { exn_type : string; exn_args : string }.

Definition str (e : exn) : string := exn_args e.

Inductive result (A : Type) : Type :=
| Ok (a : A)
| Raise (e : exn).
Arguments Ok {A} a.
Arguments Raise {A} e.

(** The [IndexError] of [bytes] and the one of [list]. *)
Definition IndexError : exn := mkExn "IndexError" "index out of range".
Definition ListIndexError : exn := mkExn "IndexError" "list index out of range".
Definition ValueError (msg : string) : exn := mkExn "ValueError" msg.
Definition OverflowError (msg : string) : exn := mkExn "OverflowError" msg.

(** [needle in s] on strings. *)
Fixpoint contains (needle s : string) : bool :=
  String.prefix needle s ||
  match s with
  | EmptyString => false
  | String _ s' => contains needle s'
  end.

(** Normalisation of one slice bound against a sequence of length [len]:
    a negative bound counts from the end, and the result is clamped. *)
Definition clamp (len i : Z) : Z :=
  let j := if i <? 0 then i + len else i in
  Z.max 0 (Z.min len j).

(** [l[start:stop]] with unit step; [None] is an omitted bound. *)
Definition slice {A : Type} (start stop : option Z) (l : list A) : list A :=
  let len := Z.of_nat (length l) in
  let lo := match start with None => 0 | Some i => clamp len i end in
  let hi := match stop with None => len | Some j => clamp len j end in
  firstn (Z.to_nat (hi - lo)) (skipn (Z.to_nat lo) l).

Definition index {A : Type} (err : exn) (l : list A) (i : nat) : result A :=
  match nth_error l i with
  | Some a => Ok a
  | None => Raise err
  end.

(** [b[i]] on [bytes] and [l[i]] on a list, for a non-negative index. *)
Definition getitem (b : bytes) (i : nat) : result byte := index IndexError b i.

Definition list_getitem {A : Type} (l : list A) (i : nat) : result A :=
  index ListIndexError l i.

Fixpoint is_prefix (p l : bytes) : bool :=
  match p, l with
  | [], _ => true
  | _ :: _, [] => false
  | a :: p', b :: l' => Byte.eqb a b && is_prefix p' l'
  end.

Fixpoint bytes_eqb (a b : bytes) : bool :=
  match a, b with
  | [], [] => true
  | x :: a', y :: b' => Byte.eqb x y && bytes_eqb a' b'
  | _, _ => false
  end.

Fixpoint find_from (needle hay : bytes) (k : Z) : Z :=
  if is_prefix needle hay then k
  else match hay with
       | [] => -1
       | _ :: hay' => find_from needle hay' (k + 1)
       end.

(** [hay.find(needle)]: lowest index of an occurrence, or -1. *)
Definition find (hay needle : bytes) : Z := find_from needle hay 0.

Definition ord (b : byte) : Z := Z.of_N (Byte.to_N b).

(** [chr(b)] for a byte value. *)
Definition chr (b : byte) : string := String (ascii_of_byte b) EmptyString.

(** *** [repr] of a [str] *)

Definition SQUOTE : ascii := "039"%char.
Definition DQUOTE : ascii := "034"%char.
Definition BACKSLASH : ascii := "092"%char.

Definition hex_digit (n : N) : ascii :=
  ascii_of_N (if (n <? 10)%N then 48 + n else 87 + n).

(** [str.isprintable] on one code point below 256. *)
Definition printable (c : ascii) : bool :=
  let n := N_of_ascii c in
  (((32 <=? n) && (n <? 127)) || ((161 <=? n) && negb (n =? 173)))%N.

Definition repr_char (quote c : ascii) : string :=
  let n := N_of_ascii c in
  if Ascii.eqb c quote || Ascii.eqb c BACKSLASH
  then String BACKSLASH (String c EmptyString)
  else if (n =? 9)%N then String BACKSLASH "t"
  else if (n =? 10)%N then String BACKSLASH "n"
  else if (n =? 13)%N then String BACKSLASH "r"
  else if printable c then String c EmptyString
  else String BACKSLASH
         (String "x" (String (hex_digit (n / 16))
                        (String (hex_digit (n mod 16)) EmptyString))).

Fixpoint occurs (c : ascii) (s : string) : bool :=
  match s with
  | EmptyString => false
  | String d s' => Ascii.eqb c d || occurs c s'
  end.

(** Single quotes, unless the text has a single quote and no double one. *)
Definition repr_quote (s : string) : ascii :=
  if occurs SQUOTE s && negb (occurs DQUOTE s) then DQUOTE else SQUOTE.

Fixpoint repr_body (quote : ascii) (s : string) : string :=
  match s with
  | EmptyString => EmptyString
  | String c s' => String.append (repr_char quote c) (repr_body quote s')
  end.

Definition repr (s : string) : string :=
  let q := repr_quote s in
  String q (String.append (repr_body q s) (String q EmptyString)).

(** [int(chr(b))] for a byte value [b]: among the code points below 256 only
    the ASCII digits are accepted by [int]; the message of the [ValueError]
    ends with the [repr] of the character. *)
Definition int_of_chr (b : byte) : result Z :=
  let n := ord b in
  if (48 <=? n) && (n <=? 57) then Ok (n - 48)
  else Raise (ValueError (String.append "invalid literal for int() with base 10: "
                                        (repr (chr b)))).

(** One element of [np.frombuffer(buf, dtype=np.int8)]: the byte read as a
    two's complement 8-bit integer. *)
Definition int8_of_byte (b : byte) : Z :=
  let n := ord b in
  if n <? 128 then n else n - 256.

Definition frombuffer_int8 (buf : bytes) : list Z := map int8_of_byte buf.

(** [s.split(',')]. *)
Fixpoint split_on (sep : ascii) (s : string) : list string :=
  match s with
  | EmptyString => [EmptyString]
  | String c s' =>
      match split_on sep s' with
      | [] => [EmptyString]
      | w :: ws => if Ascii.eqb c sep then EmptyString :: w :: ws
                   else String c w :: ws
      end
  end.

(** *** The literals of [int(s)] and [float(s)] *)

(** The blanks removed at both ends of the text: the ASCII ones, and NEL and
    NBSP, which the conversions turn into spaces first. *)
Definition is_space (c : ascii) : bool :=
  let n := N_of_ascii c in
  (((9 <=? n) && (n <=? 13)) || (n =? 32) || (n =? 133) || (n =? 160))%N.

Fixpoint lstrip (l : list ascii) : list ascii :=
  match l with
  | c :: l' => if is_space c then lstrip l' else l
  | [] => []
  end.

Definition strip (l : list ascii) : list ascii := rev (lstrip (rev (lstrip l))).

Definition digit_of (c : ascii) : option Z :=
  let n := Z.of_N (N_of_ascii c) in
  if (48 <=? n) && (n <=? 57) then Some (n - 48) else None.

Definition is_digit (c : ascii) : bool :=
  match digit_of c with Some _ => true | None => false end.

Definition UNDERSCORE : ascii := "_"%char.

Definition take_sign (l : list ascii) : bool * list ascii :=
  match l with
  | c :: l' =>
      if Ascii.eqb c "-" then (true, l')
      else if Ascii.eqb c "+" then (false, l')
      else (false, l)
  | [] => (false, [])
  end.

Definition signed (neg : bool) (z : Z) : Z := if neg then - z else z.

(** The digits of an [int] literal, with single underscores between them:
    the value read, the number of digits and the rest of the text.  Two
    underscores in a row and an underscore that ends the run are refused. *)
Fixpoint scan_int (l : list ascii) (after_underscore : bool) (acc : Z) (n : nat)
  : option (Z * nat * list ascii) :=
  match l with
  | c :: l' =>
      if Ascii.eqb c UNDERSCORE
      then if after_underscore then None else scan_int l' true acc n
      else match digit_of c with
           | Some d => scan_int l' false (10 * acc + d) (S n)
           | None => if after_underscore then None else Some (acc, n, l)
           end
  | [] => if after_underscore then None else Some (acc, n, [])
  end.

Inductive int_literal : Type :=
| IntValue (z : Z)
| IntTooLong (digits : nat)
| IntInvalid.

(** [sys.get_int_max_str_digits()], as Python sets it. *)
Definition MAX_STR_DIGITS : nat := 4300.

(** The length of the run of digits is checked before what follows it. *)
Definition read_int (s : string) : int_literal :=
  let (neg, l1) := take_sign (strip (list_ascii_of_string s)) in
  match l1 with
  | c :: _ =>
      if Ascii.eqb c UNDERSCORE then IntInvalid
      else match scan_int l1 false 0 0 with
           | Some (v, n, rest) =>
               if (MAX_STR_DIGITS <? n)%nat then IntTooLong n
               else match n, rest with
                    | S _, [] => IntValue (signed neg v)
                    | _, _ => IntInvalid
                    end
           | None => IntInvalid
           end
  | [] => IntInvalid
  end.

Fixpoint decimal_digits (fuel n : nat) (acc : string) : string :=
  match fuel with
  | O => acc
  | S fuel' =>
      let acc' := String (ascii_of_nat (48 + n mod 10)) acc in
      if (n / 10 =? 0)%nat then acc' else decimal_digits fuel' (n / 10) acc'
  end.

(** [str(n)] for a natural number. *)
Definition str_of_nat (n : nat) : string := decimal_digits (S n) n EmptyString.

(** [int(s)] on a [str], in base 10.  The message of an invalid literal shows
    at most 200 characters of the [repr]. *)
Definition int_ (s : string) : result Z :=
  match read_int s with
  | IntValue z => Ok z
  | IntTooLong n =>
      Raise (ValueError
               (String.append
                  "Exceeds the limit (4300 digits) for integer string conversion: value has "
                  (String.append (str_of_nat n)
                     " digits; use sys.set_int_max_str_digits() to increase the limit")))
  | IntInvalid =>
      Raise (ValueError (String.append "invalid literal for int() with base 10: "
                                       (String.substring 0 200 (repr s))))
  end.

(** In a [float] literal an underscore must stand between two digits;
    [prev] is the character before. *)
Fixpoint drop_underscores (prev : option ascii) (l : list ascii) : option (list ascii) :=
  match l with
  | c :: l' =>
      if Ascii.eqb c UNDERSCORE then
        match prev with
        | Some p => if is_digit p then drop_underscores (Some c) l' else None
        | None => None
        end
      else
        match prev with
        | Some p =>
            if Ascii.eqb p UNDERSCORE && negb (is_digit c) then None
            else option_map (cons c) (drop_underscores (Some c) l')
        | None => option_map (cons c) (drop_underscores (Some c) l')
        end
  | [] =>
      match prev with
      | Some p => if Ascii.eqb p UNDERSCORE then None else Some []
      | None => Some []
      end
  end.

(** Reads the longest run of digits: the value accumulated on [acc], the
    number of digits read and the rest. *)
Fixpoint take_digits (l : list ascii) (acc : Z) (n : nat) : Z * nat * list ascii :=
  match l with
  | c :: l' =>
      match digit_of c with
      | Some d => take_digits l' (10 * acc + d) (S n)
      | None => (acc, n, l)
      end
  | [] => (acc, n, [])
  end.

Definition take_fraction (l : list ascii) (acc : Z) : Z * nat * list ascii :=
  match l with
  | c :: l' => if Ascii.eqb c "." then take_digits l' acc 0 else (acc, 0%nat, l)
  | [] => (acc, 0%nat, [])
  end.

Definition take_exponent (l : list ascii) : option (Z * list ascii) :=
  match l with
  | c :: l' =>
      if Ascii.eqb c "e" || Ascii.eqb c "E" then
        let (neg, l1) := take_sign l' in
        let '(v, n, rest) := take_digits l1 0 0 in
        match n with
        | O => None
        | S _ => Some (signed neg v, rest)
        end
      else Some (0, l)
  | [] => Some (0, [])
  end.

Definition lower (c : ascii) : ascii :=
  let n := N_of_ascii c in
  if ((65 <=? n) && (n <=? 90))%N then ascii_of_N (n + 32) else c.

Definition word_eqb (l : list ascii) (w : string) : bool :=
  String.eqb (string_of_list_ascii (map lower l)) w.

(** What a [float] literal denotes: an infinity, a NaN, or the decimal
    [m * 10^e] with [m >= 0] and a sign. *)
Inductive float_literal : Type :=
| FloatInf (neg : bool)
| FloatNan
| FloatDec (neg : bool) (m e : Z).

Definition read_float (s : string) : option float_literal :=
  match drop_underscores None (strip (list_ascii_of_string s)) with
  | None => None
  | Some l =>
      let (neg, l1) := take_sign l in
      if word_eqb l1 "inf" || word_eqb l1 "infinity" then Some (FloatInf neg)
      else if word_eqb l1 "nan" then Some FloatNan
      else
        let '(ip, n1, l2) := take_digits l1 0 0 in
        let '(m, n2, l3) := take_fraction l2 ip in
        match (n1 + n2)%nat, take_exponent l3 with
        | S _, Some (e, []) => Some (FloatDec neg m (e - Z.of_nat n2))
        | _, _ => None
        end
  end.

Definition float_error (s : string) : exn :=
  ValueError (String.append "could not convert string to float: " (repr s)).

End Py.

Import Py.

Definition NEWLINE : byte := x0a.
Definition HASH : byte := x23.

(** ** Frame decoders *)

(** [acquire_pyvisa.py], lines 134-139: when the block starts with the marker,
    the digit after it gives the width of the length field, and the slice
    [header_len:-1] drops the header and the last byte. *)
Definition tek_header_len (waveform_bytes : bytes) : result Z :=
  match getitem waveform_bytes 1 with
  | Raise e => Raise e
  | Ok b =>
      match int_of_chr b with
      | Raise e => Raise e
      | Ok len_digits => Ok (2 + len_digits)
      end
  end.

Definition strip_tek_header (waveform_bytes : bytes) : result bytes :=
  if bytes_eqb (slice (Some 0) (Some 1) waveform_bytes) [HASH]
  then
    match tek_header_len waveform_bytes with
    | Raise e => Raise e
    | Ok header_len => Ok (slice (Some header_len) (Some (-1)) waveform_bytes)
    end
  else Ok waveform_bytes.

(** [acquire_pyvisa.py], lines 150-152. *)
Definition reconcile {A : Type} (raw_waveform : list A) (num_points : Z) : list A :=
  if negb (Z.of_nat (length raw_waveform) =? num_points)
  then slice None (Some num_points) raw_waveform
  else raw_waveform.

(** [acquire_ag.py], lines 116-117. *)
Definition header_end_index (waveform_bytes : bytes) : Z :=
  find waveform_bytes [NEWLINE] + 1.

Definition ag_payload (waveform_bytes : bytes) : bytes :=
  slice (Some (header_end_index waveform_bytes)) None waveform_bytes.

(** ** Arithmetic interface

    [F64] is the Python [float]; [F32] is the element type of the arrays
    produced by [astype(np.float32)].  A Python scalar combined with a float32
    array is converted to float32 first; [np.arange] yields integers that are
    promoted to [F64] when combined with a Python float.  [py_float], [py_int]
    and [int_of_float] are the builtins [float(s)], [int(s)] and [int(x)]. *)
Class Numeric : Type := {
  F64 : Type;
  F32 : Type;
  f32_of_int : Z -> F32;
  f32_of_f64 : F64 -> F32;
  f32_add : F32 -> F32 -> F32;
  f32_sub : F32 -> F32 -> F32;
  f32_mul : F32 -> F32 -> F32;
  f64_of_int : Z -> F64;
  f64_add : F64 -> F64 -> F64;
  f64_mul : F64 -> F64 -> F64;
  py_float : string -> result F64;
  py_int : string -> result Z;
  int_of_float : F64 -> result Z
}.

(** ** Scaling engine *)

Section Scaling.
Context {num : Numeric}.

(** [np.arange(0, n)]. *)
Definition arange (n : nat) : list Z := map Z.of_nat (seq 0 n).

(** [np.arange(0, len(raw_waveform)) * x_increment + x_origin]
    ([acquire.py] 114, [acquire_pyvisa.py] 155, [acquire_ag.py] 120). *)
Definition scale_times {A : Type} (raw_waveform : list A) (x_increment x_origin : F64)
  : list F64 :=
  map (fun k => f64_add (f64_mul (f64_of_int k) x_increment) x_origin)
      (arange (length raw_waveform)).

(** [(raw_waveform.astype(np.float32) - y_zero + y_offset) * y_multiplier]
    ([acquire.py] 113, [acquire_pyvisa.py] 154). *)
Definition scale_voltages_tek (raw_waveform : list Z) (y_zero y_offset y_multiplier : F64)
  : list F32 :=
  map (fun c => f32_mul (f32_add (f32_sub (f32_of_int c) (f32_of_f64 y_zero))
                                 (f32_of_f64 y_offset))
                        (f32_of_f64 y_multiplier))
      raw_waveform.

(** [(raw_waveform.astype(np.float32) - y_reference) * y_increment + y_origin]
    ([acquire_ag.py] 119); [y_reference] is a Python [int]. *)
Definition scale_voltages_ag (raw_waveform : list Z) (y_reference : Z)
           (y_increment y_origin : F64) : list F32 :=
  map (fun c => f32_add (f32_mul (f32_sub (f32_of_int c) (f32_of_int y_reference))
                                 (f32_of_f64 y_increment))
                        (f32_of_f64 y_origin))
      raw_waveform.

End Scaling.

(** ** Instrument session, observable effects and the script monad *)

Inductive call : Type :=
| Write (cmd : string)
| Ask (cmd : string)
| ReadRaw
| Close
| RmClose.

Definition call_eqb (a b : call) : bool :=
  match a, b with
  | Write s, Write t => String.eqb s t
  | Ask s, Ask t => String.eqb s t
  | ReadRaw, ReadRaw => true
  | Close, Close => true
  | RmClose, RmClose => true
  | _, _ => false
  end.

(** A deterministic instrument: each reply may depend on every call made so
    far (oldest first).  [close()] has no result. *)
Record Session : Type := {
  on_write : list call -> string -> result unit;
  on_ask : list call -> string -> result string;
  on_read_raw : list call -> result bytes
}.

Section Runtime.
Context {num : Numeric}.

(** What a sink receives: the two parallel arrays. *)
Record Capture : Type := { cap_times : list F64; cap_voltages : list F32 }.

Record World : Type := {
  trace : list call;               (* calls on the session, oldest first *)
  setup_errors : list exn;         (* logging.error of the setup handlers *)
  errors : list (nat * exn);       (* logging.error of the capture handlers:
                                      capture number [i+1] and exception *)
  warnings : nat;                  (* logging.warning records *)
  plotted : list (nat * Capture);  (* plot updates, by capture number *)
  saved : list (nat * Capture);    (* CSV files written, by capture number *)
  timer_active : bool;             (* the QTimer of [acquire_ag.py] *)
  uncaught : list exn              (* exceptions that left a callback *)
}.

Definition init_world : World :=
  {| trace := []; setup_errors := []; errors := []; warnings := 0%nat;
     plotted := []; saved := []; timer_active := false; uncaught := [] |}.

Definition add_call (c : call) (w : World) : World :=
  {| trace := trace w ++ [c]; setup_errors := setup_errors w; errors := errors w;
     warnings := warnings w; plotted := plotted w; saved := saved w;
     timer_active := timer_active w; uncaught := uncaught w |}.

Definition add_setup_error (e : exn) (w : World) : World :=
  {| trace := trace w; setup_errors := setup_errors w ++ [e]; errors := errors w;
     warnings := warnings w; plotted := plotted w; saved := saved w;
     timer_active := timer_active w; uncaught := uncaught w |}.

Definition add_error (k : nat) (e : exn) (w : World) : World :=
  {| trace := trace w; setup_errors := setup_errors w; errors := errors w ++ [(k, e)];
     warnings := warnings w; plotted := plotted w; saved := saved w;
     timer_active := timer_active w; uncaught := uncaught w |}.

Definition add_warning (w : World) : World :=
  {| trace := trace w; setup_errors := setup_errors w; errors := errors w;
     warnings := S (warnings w); plotted := plotted w; saved := saved w;
     timer_active := timer_active w; uncaught := uncaught w |}.

Definition add_plot (k : nat) (c : Capture) (w : World) : World :=
  {| trace := trace w; setup_errors := setup_errors w; errors := errors w;
     warnings := warnings w; plotted := plotted w ++ [(k, c)]; saved := saved w;
     timer_active := timer_active w; uncaught := uncaught w |}.

Definition add_file (k : nat) (c : Capture) (w : World) : World :=
  {| trace := trace w; setup_errors := setup_errors w; errors := errors w;
     warnings := warnings w; plotted := plotted w; saved := saved w ++ [(k, c)];
     timer_active := timer_active w; uncaught := uncaught w |}.

Definition set_timer (b : bool) (w : World) : World :=
  {| trace := trace w; setup_errors := setup_errors w; errors := errors w;
     warnings := warnings w; plotted := plotted w; saved := saved w;
     timer_active := b; uncaught := uncaught w |}.

Definition add_uncaught (e : exn) (w : World) : World :=
  {| trace := trace w; setup_errors := setup_errors w; errors := errors w;
     warnings := warnings w; plotted := plotted w; saved := saved w;
     timer_active := timer_active w; uncaught := uncaught w ++ [e] |}.

(** Script state: the module-level variables [V] and the world. *)
Record St (V : Type) : Type := mkSt { vars : V; world : World }.
Arguments mkSt {V} vars world.
Arguments vars {V} s.
Arguments world {V} s.

(** A statement: it runs to a value or raises, and the state reached when an
    exception is raised is kept. *)
Definition M (V A : Type) : Type := St V -> result A * St V.

Definition ret {V A : Type} (a : A) : M V A := fun st => (Ok a, st).

Definition bind {V A B : Type} (m : M V A) (k : A -> M V B) : M V B :=
  fun st =>
    match m st with
    | (Ok a, st') => k a st'
    | (Raise e, st') => (Raise e, st')
    end.

Definition lift {V A : Type} (r : result A) : M V A := fun st => (r, st).

Definition effect {V : Type} (f : World -> World) : M V unit :=
  fun st => (Ok tt, mkSt (vars st) (f (world st))).

Definition assign {V : Type} (f : V -> V) : M V unit :=
  fun st => (Ok tt, mkSt (f (vars st)) (world st)).

Definition read {V A : Type} (f : V -> A) : M V A :=
  fun st => (Ok (f (vars st)), st).

Variable scope : Session.

Definition write {V : Type} (cmd : string) : M V unit :=
  fun st =>
    (on_write scope (trace (world st)) cmd,
     mkSt (vars st) (add_call (Write cmd) (world st))).

Definition ask {V : Type} (cmd : string) : M V string :=
  fun st =>
    (on_ask scope (trace (world st)) cmd,
     mkSt (vars st) (add_call (Ask cmd) (world st))).

Definition read_raw {V : Type} : M V bytes :=
  fun st =>
    (on_read_raw scope (trace (world st)),
     mkSt (vars st) (add_call ReadRaw (world st))).

Definition close {V : Type} : M V unit := effect (add_call Close).

(** The file system as [np.savetxt] meets it: the outcome of writing the CSV
    file of capture number [k] that holds [c].  The file is counted in
    [saved] when the call returns. *)
Definition Disk : Type := nat -> Capture -> result unit.

Definition savetxt {V : Type} (disk : Disk) (k : nat) (c : Capture) : M V unit :=
  fun st =>
    match disk k c with
    | Ok _ => (Ok tt, mkSt (vars st) (add_file k c (world st)))
    | Raise e => (Raise e, st)
    end.

(** Control leaving one pass of a [for] body wrapped in its handler. *)
Inductive ctl : Type := Next | Break.

Fixpoint for_loop {V : Type} (iteration : nat -> St V -> ctl * St V)
         (rng : list nat) (st : St V) : ctl * St V :=
  match rng with
  | [] => (Next, st)
  | i :: rest =>
      match iteration i st with
      | (Break, st') => (Break, st')
      | (Next, st') => for_loop iteration rest st'
      end
  end.

End Runtime.

Arguments mkSt {num V} vars world.
Arguments vars {num V} s.
Arguments world {num V} s.

Declare Scope script_scope.
Delimit Scope script_scope with script.
Notation "x <- m ;; k" := (bind m (fun x => k))
  (at level 61, m at next level, right associativity) : script_scope.
Notation "m ;;; k" := (bind m (fun _ => k))
  (at level 61, right associativity) : script_scope.

Local Open Scope script_scope.
Local Open Scope string_scope.

(** ** Observations on a trace *)

Definition count_call (c : call) (t : list call) : nat :=
  length (filter (call_eqb c) t).

Definition closes {num : Numeric} (w : World) : nat := count_call Close (trace w).

(** Terminal states of a run. *)
Inductive stage : Type := InSetup | InLoop.
Inductive terminal : Type := COMPLETE | ABORTED (s : stage).

(** ** The two Tektronix scripts: shared configuration and error handler *)

Module Tek.
Section Tek.
Context {num : Numeric}.
Variable scope : Session.

Definition WAVEFORM_SOURCE : string := "CH2".
Definition NUM_CAPTURES : nat := 100.

(** The first call of every capture, the calls that follow it, and the six
    preamble queries. *)
Definition TRIGGER : call := Write "ACQUIRE:STATE ON".
Definition fetch_calls : list call := [Ask "*OPC?"; Write "CURVE?"; ReadRaw].
Definition preamble_queries : list call :=
  [Ask "WFMPRE:NR_PT?"; Ask "WFMPRE:XINCR?"; Ask "WFMPRE:XZERO?";
   Ask "WFMPRE:YMULT?"; Ask "WFMPRE:YOFF?"; Ask "WFMPRE:YZERO?"].

(** Captures attempted so far. *)
Definition attempts (w : World) : nat := count_call TRIGGER (trace w).

Record Preamble : Type := {
  num_points : Z;
  x_increment : F64;
  x_origin : F64;
  y_multiplier : F64;
  y_offset : F64;
  y_zero : F64
}.

Record Vars : Type := {
  pre : Preamble;
  waveform_bytes : bytes;
  raw_waveform : list Z;
  voltages : list F32;
  times : list F64
}.

Definition init_vars (p : Preamble) : Vars :=
  {| pre := p; waveform_bytes := []; raw_waveform := []; voltages := []; times := [] |}.

Definition set_waveform_bytes (b : bytes) (v : Vars) : Vars :=
  {| pre := pre v; waveform_bytes := b; raw_waveform := raw_waveform v;
     voltages := voltages v; times := times v |}.

Definition set_raw_waveform (r : list Z) (v : Vars) : Vars :=
  {| pre := pre v; waveform_bytes := waveform_bytes v; raw_waveform := r;
     voltages := voltages v; times := times v |}.

Definition set_voltages (x : list F32) (v : Vars) : Vars :=
  {| pre := pre v; waveform_bytes := waveform_bytes v; raw_waveform := raw_waveform v;
     voltages := x; times := times v |}.

Definition set_times (x : list F64) (v : Vars) : Vars :=
  {| pre := pre v; waveform_bytes := waveform_bytes v; raw_waveform := raw_waveform v;
     voltages := voltages v; times := x |}.

(** [acquire.py] 48-66, [acquire_pyvisa.py] 69-88 (there [ask] is [query]). *)
Definition configure : M unit Preamble :=
  _ <- ask scope "*IDN?" ;;
  write scope ("DATA:SOURCE " ++ WAVEFORM_SOURCE) ;;;
  write scope "DATA:ENCDG RIBinary" ;;;
  write scope "DATA:WIDTH 1" ;;;
  write scope "HEADER OFF" ;;;
  write scope "ACQUIRE:STOPAFTER SEQUENCE" ;;;
  s1 <- ask scope "WFMPRE:NR_PT?" ;; np <- lift (py_int s1) ;;
  s2 <- ask scope "WFMPRE:XINCR?" ;; xi <- lift (py_float s2) ;;
  s3 <- ask scope "WFMPRE:XZERO?" ;; xo <- lift (py_float s3) ;;
  s4 <- ask scope "WFMPRE:YMULT?" ;; ym <- lift (py_float s4) ;;
  s5 <- ask scope "WFMPRE:YOFF?" ;; yo <- lift (py_float s5) ;;
  s6 <- ask scope "WFMPRE:YZERO?" ;; yz <- lift (py_float s6) ;;
  ret {| num_points := np; x_increment := xi; x_origin := xo;
         y_multiplier := ym; y_offset := yo; y_zero := yz |}.

(** The scaling statements shared by both loops. *)
Definition process : M Vars unit :=
  assign (fun v => set_voltages
            (scale_voltages_tek (raw_waveform v) (y_zero (pre v)) (y_offset (pre v))
                                (y_multiplier (pre v))) v) ;;;
  assign (fun v => set_times
            (scale_times (raw_waveform v) (x_increment (pre v)) (x_origin (pre v))) v).

Definition current_capture (v : Vars) : Capture :=
  {| cap_times := times v; cap_voltages := voltages v |}.

(** One pass of the [for] body inside its [try]/[except] ([acquire.py]
    139-144, [acquire_pyvisa.py] 172-177): every exception is logged; the
    loop is left when the message contains the word, otherwise it goes on. *)
Definition guarded (body : nat -> M Vars unit) (i : nat) (st : St Vars)
  : ctl * St Vars :=
  match body i st with
  | (Ok _, st') => (Next, st')
  | (Raise e, st') =>
      let st1 := mkSt (vars st') (add_error (S i) e (world st')) in
      if contains "Timeout" (str e)
      then (Break, mkSt (vars st1) (add_warning (world st1)))
      else (Next, st1)
  end.

End Tek.
End Tek.

(** What a run leaves behind. *)
Record Final {num : Numeric} : Type := { status : terminal; final : World }.

(** ** [acquire.py] *)

Module Acquire.
Section Acquire.
Context {num : Numeric}.
Variable scope : Session.
Variable disk : Disk.

Import Tek.

(** Lines 94-128 of the loop body; [i] counts from 0.  The plot is updated
    (lines 117-122) before the file is written (lines 126-128). *)
Definition capture (i : nat) : M Vars unit :=
  write scope "ACQUIRE:STATE ON" ;;;
  _ <- ask scope "*OPC?" ;;
  write scope "CURVE?" ;;;
  b <- read_raw scope ;;
  assign (set_waveform_bytes b) ;;;
  assign (fun v => set_raw_waveform (frombuffer_int8 (waveform_bytes v)) v) ;;;
  process ;;;
  v <- read (fun v => v) ;;
  effect (add_plot (S i) (current_capture v)) ;;;
  savetxt disk (S i) (current_capture v).

Definition capture_loop (n : nat) (st : St Vars) : ctl * St Vars :=
  for_loop (guarded capture) (seq 0 n) st.

(** The script after the connection is made, for [n] captures. *)
Definition main (n : nat) : Final :=
  match configure scope (mkSt tt init_world) with
  | (Raise e, st) =>
      {| status := ABORTED InSetup;
         final := add_call Close (add_setup_error e (world st)) |}
  | (Ok p, st) =>
      let '(c, st') := capture_loop n (mkSt (init_vars p) (world st)) in
      {| status := match c with Break => ABORTED InLoop | Next => COMPLETE end;
         final := add_call Close (world st') |}
  end.

End Acquire.
End Acquire.

(** ** [acquire_pyvisa.py] *)

Module AcquirePyvisa.
Section AcquirePyvisa.
Context {num : Numeric}.
Variable scope : Session.

Import Tek.

(** Lines 134-152 read as one function of the block and of [num_points]:
    header stripping, reinterpretation as int8 and length reconciliation. *)
Definition decode (num_points : Z) (waveform_bytes : bytes) : result (list Z) :=
  match strip_tek_header waveform_bytes with
  | Raise e => Raise e
  | Ok b => Ok (reconcile (frombuffer_int8 b) num_points)
  end.

(** Lines 114-163 of the loop body. *)
Definition capture (i : nat) : M Vars unit :=
  write scope "ACQUIRE:STATE ON" ;;;
  _ <- ask scope "*OPC?" ;;
  write scope "CURVE?" ;;;
  b <- read_raw scope ;;
  assign (set_waveform_bytes b) ;;;
  b' <- lift (strip_tek_header b) ;;
  assign (set_waveform_bytes b') ;;;
  assign (fun v => set_raw_waveform (frombuffer_int8 (waveform_bytes v)) v) ;;;
  assign (fun v => set_raw_waveform
            (reconcile (raw_waveform v) (num_points (pre v))) v) ;;;
  process ;;;
  v <- read (fun v => v) ;;
  effect (add_plot (S i) (current_capture v)).

Definition capture_loop (n : nat) (st : St Vars) : ctl * St Vars :=
  for_loop (guarded capture) (seq 0 n) st.

Definition main (n : nat) : Final :=
  match configure scope (mkSt tt init_world) with
  | (Raise e, st) =>
      {| status := ABORTED InSetup;
         final := add_call Close (add_setup_error e (world st)) |}
  | (Ok p, st) =>
      let '(c, st') := capture_loop n (mkSt (init_vars p) (world st)) in
      {| status := match c with Break => ABORTED InLoop | Next => COMPLETE end;
         final := add_call RmClose (add_call Close (world st')) |}
  end.

End AcquirePyvisa.
End AcquirePyvisa.

(** ** [acquire_ag.py] *)

Module AcquireAg.
Section AcquireAg.
Context {num : Numeric}.
Variable scope : Session.
Variable disk : Disk.

Definition WAVEFORM_SOURCE : string := "CHAN4".
Definition NUM_CAPTURES : nat := 300.
Definition ACQUISITION_POINTS : string := "1000".
Definition PLOT_EVERY_N_FRAMES : nat := 5.

(** The first call of every capture, the calls that follow it, and the
    preamble query. *)
Definition TRIGGER : call := Write ":DIGITIZE CHAN4".
Definition fetch_calls : list call := [Write ":WAVEFORM:DATA?"; ReadRaw].
Definition preamble_query : call := Ask ":WAVEFORM:PREAMBLE?".

(** Captures attempted so far. *)
Definition attempts (w : World) : nat := count_call TRIGGER (trace w).

Record Preamble : Type := {
  x_increment : F64;
  x_origin : F64;
  y_increment : F64;
  y_origin : F64;
  y_reference : Z
}.

Record Vars : Type := {
  pre : Preamble;
  i : nat;
  waveform_bytes : bytes;
  raw_waveform : list Z;
  voltages : list F32;
  times : list F64
}.

Definition init_vars (p : Preamble) : Vars :=
  {| pre := p; i := 0; waveform_bytes := []; raw_waveform := [];
     voltages := []; times := [] |}.

Definition set_i (k : nat) (v : Vars) : Vars :=
  {| pre := pre v; i := k; waveform_bytes := waveform_bytes v;
     raw_waveform := raw_waveform v; voltages := voltages v; times := times v |}.

Definition set_waveform_bytes (b : bytes) (v : Vars) : Vars :=
  {| pre := pre v; i := i v; waveform_bytes := b;
     raw_waveform := raw_waveform v; voltages := voltages v; times := times v |}.

Definition set_raw_waveform (r : list Z) (v : Vars) : Vars :=
  {| pre := pre v; i := i v; waveform_bytes := waveform_bytes v;
     raw_waveform := r; voltages := voltages v; times := times v |}.

Definition set_voltages (x : list F32) (v : Vars) : Vars :=
  {| pre := pre v; i := i v; waveform_bytes := waveform_bytes v;
     raw_waveform := raw_waveform v; voltages := x; times := times v |}.

Definition set_times (x : list F64) (v : Vars) : Vars :=
  {| pre := pre v; i := i v; waveform_bytes := waveform_bytes v;
     raw_waveform := raw_waveform v; voltages := voltages v; times := x |}.

(** Lines 57-79: the reply to the preamble query is split at the commas and
    fields 4, 5, 7, 8 and 9 are converted. *)
Definition setup : M unit Preamble :=
  _ <- ask scope "*IDN?" ;;
  write scope ":STOP" ;;;
  write scope (":WAVEFORM:SOURCE " ++ WAVEFORM_SOURCE) ;;;
  write scope ":WAVEFORM:FORMAT BYTE" ;;;
  write scope ":WAVEFORM:UNSIGNED OFF" ;;;
  write scope (":ACQUIRE:POINTS " ++ ACQUISITION_POINTS) ;;;
  write scope ":ACQUIRE:TYPE NORMAL" ;;;
  r <- ask scope ":WAVEFORM:PREAMBLE?" ;;
  let preamble := split_on "," r in
  s4 <- lift (list_getitem preamble 4) ;; xi <- lift (py_float s4) ;;
  s5 <- lift (list_getitem preamble 5) ;; xo <- lift (py_float s5) ;;
  s7 <- lift (list_getitem preamble 7) ;; yi <- lift (py_float s7) ;;
  s8 <- lift (list_getitem preamble 8) ;; yo <- lift (py_float s8) ;;
  s9 <- lift (list_getitem preamble 9) ;; f9 <- lift (py_float s9) ;;
  yr <- lift (int_of_float f9) ;;
  ret {| x_increment := xi; x_origin := xo; y_increment := yi;
         y_origin := yo; y_reference := yr |}.

Definition current_capture (v : Vars) : Capture :=
  {| cap_times := times v; cap_voltages := voltages v |}.

(** Lines 119-120: the scaling statements. *)
Definition process : M Vars unit :=
  assign (fun v => set_voltages
            (scale_voltages_ag (raw_waveform v) (y_reference (pre v))
                               (y_increment (pre v)) (y_origin (pre v))) v) ;;;
  assign (fun v => set_times
            (scale_times (raw_waveform v) (x_increment (pre v)) (x_origin (pre v))) v).

(** Lines 108-129: the [try] block of [update].  The file is written (lines
    122-124) before the plot is updated (lines 127-129). *)
Definition capture : M Vars unit :=
  write scope (":DIGITIZE " ++ WAVEFORM_SOURCE) ;;;
  write scope ":WAVEFORM:DATA?" ;;;
  b <- read_raw scope ;;
  assign (set_waveform_bytes b) ;;;
  assign (fun v => set_raw_waveform
            (frombuffer_int8 (ag_payload (waveform_bytes v))) v) ;;;
  process ;;;
  v <- read (fun v => v) ;;
  savetxt disk (S (i v)) (current_capture v) ;;;
  (if (S (i v) mod PLOT_EVERY_N_FRAMES =? 0)%nat
   then effect (add_plot (S (i v)) (current_capture v))
   else ret tt).

(** Lines 90-142: the timer callback for [n] captures. *)
Definition update (n : nat) : M Vars unit :=
  k <- read i ;;
  if (n <=? k)%nat then
    effect (set_timer false) ;;;
    write scope ":RUN" ;;;
    close
  else
    (fun st =>
       match capture st with
       | (Ok _, st') => (Ok tt, st')
       | (Raise e, st') =>
           (Ok tt, mkSt (vars st')
                        (add_call Close
                           (set_timer false (add_error (S (i (vars st'))) e (world st')))))
       end) ;;;
    assign (fun v => set_i (S (i v)) v).

(** The event loop: while the timer is running its timeout calls [update];
    an exception that leaves the callback is reported and the loop goes on. *)
Fixpoint exec_ (fuel n : nat) (st : St Vars) : St Vars :=
  match fuel with
  | O => st
  | S fuel' =>
      if timer_active (world st) then
        match update n st with
        | (Ok _, st') => exec_ fuel' n st'
        | (Raise e, st') => exec_ fuel' n (mkSt (vars st') (add_uncaught e (world st')))
        end
      else st
  end.

(** The script after the connection is made, for [n] captures.  The setup
    handler (lines 82-84) logs and exits. *)
Definition main (n : nat) : Final :=
  match setup (mkSt tt init_world) with
  | (Raise e, st) =>
      {| status := ABORTED InSetup; final := add_setup_error e (world st) |}
  | (Ok p, st) =>
      let st' := exec_ (S n) n (mkSt (init_vars p) (set_timer true (world st))) in
      {| status := match errors (world st') with
                   | [] => COMPLETE
                   | _ :: _ => ABORTED InLoop
                   end;
         final := world st' |}
  end.

End AcquireAg.
End AcquireAg.

(** ** IEEE 754 arithmetic

    The arithmetic of the scripts: a Python [float] is a binary64 number and
    an element of an [astype(np.float32)] array a binary32 number, both with
    rounding to nearest, ties to even.  The operations are those of the
    specification of floating-point numbers of the Standard Library
    ([SFadd], [SFmul], ...); [float(s)] rounds the decimal it reads
    once. *)

Module IEEE.

Local Open Scope Z_scope.

Section Format.
Variables prec emax : Z.

(** The integer [z] in the format. *)
Definition of_Z (z : Z) : spec_float := binary_normalize prec emax z 0 false.

(** A number of a wider format rounded to this one. *)
Definition round (x : spec_float) : spec_float :=
  match x with
  | S754_finite s m e => binary_round prec emax s m e
  | _ => x
  end.

(** The quotient [n / d] of two positive integers, rounded once. *)
Definition of_ratio (s : bool) (n d : positive) : spec_float :=
  let '(q, e, l) := SFdiv_core_binary prec emax (Zpos n) 0 (Zpos d) 0 in
  binary_round_aux prec emax s q e l.

(** The decimal [m * 10^e], [m >= 0], with sign [s], rounded once. *)
Definition of_decimal (s : bool) (m e : Z) : spec_float :=
  match m with
  | Zpos p =>
      if 0 <=? e then binary_round prec emax s (p * Z.to_pos (10 ^ e)) 0
      else of_ratio s p (Z.to_pos (10 ^ (- e)))
  | _ => S754_zero s
  end.

End Format.

Definition binary64 : Type := spec_float.
Definition binary32 : Type := spec_float.

(** [float(s)]. *)
Definition float_ (s : string) : result binary64 :=
  match read_float s with
  | Some (FloatDec neg m e) => Ok (of_decimal 53 1024 neg m e)
  | Some (FloatInf neg) => Ok (S754_infinity neg)
  | Some FloatNan => Ok S754_nan
  | None => Raise (float_error s)
  end.

(** [int(x)] on a [float]: rounding towards zero. *)
Definition trunc (x : binary64) : result Z :=
  match x with
  | S754_zero _ => Ok 0
  | S754_finite s m e =>
      Ok (signed s (if 0 <=? e then Zpos m * 2 ^ e else Zpos m / 2 ^ (- e)))
  | S754_infinity _ => Raise (OverflowError "cannot convert float infinity to integer")
  | S754_nan => Raise (ValueError "cannot convert float NaN to integer")
  end.

#[export] Instance numeric : Numeric := {|
  F64 := binary64;
  F32 := binary32;
  f32_of_int := of_Z 24 128;
  f32_of_f64 := round 24 128;
  f32_add := SFadd 24 128;
  f32_sub := SFsub 24 128;
  f32_mul := SFmul 24 128;
  f64_of_int := of_Z 53 1024;
  f64_add := SFadd 53 1024;
  f64_mul := SFmul 53 1024;
  py_float := float_;
  py_int := int_;
  int_of_float := trunc
|}.

(** The rational a finite number stands for. *)
Definition to_Q (x : spec_float) : Q :=
  match x with
  | S754_finite s m e =>
      let q := if 0 <=? e then inject_Z (Zpos m * 2 ^ e)
               else Qmake (Zpos m) (Z.to_pos (2 ^ (- e))) in
      if s then Qopp q else q
  | _ => 0%Q
  end.

(** [x] is within the relative distance [tol] of the rational [d]. *)
Definition near (tol d : Q) (x : spec_float) : Prop :=
  Qle (Qabs (Qminus (to_Q x) d)) (Qmult tol (Qabs d)).

End IEEE.

(** ** Exact arithmetic

    A reference implementation of the arithmetic interface without
    rounding: both float types are the rationals in lowest terms.  It is
    used to run the scripts on scripted instruments whose numbers are
    computed exactly.  It has no infinity and no NaN: the literals [inf] and
    [nan], which [float] accepts, are refused here, and [int(x)] never
    raises. *)

Module Exact.

Local Open Scope Z_scope.

(** [m * 10^e] in lowest terms. *)
Definition decimal (m e : Z) : Q :=
  if 0 <=? e then Qred (inject_Z (m * 10 ^ e))
  else Qred (Qmake m (Z.to_pos (10 ^ (- e)))).

Definition float_ (s : string) : result Q :=
  match read_float s with
  | Some (FloatDec neg m e) => Ok (decimal (signed neg m) e)
  | _ => Raise (float_error s)
  end.

(** [int(x)] rounds towards zero. *)
Definition trunc (q : Q) : result Z := Ok (Z.quot (Qnum q) (Zpos (Qden q))).

#[export] Instance numeric : Numeric := {|
  F64 := Q;
  F32 := Q;
  f32_of_int := inject_Z;
  f32_of_f64 := fun q => q;
  f32_add := fun a b => Qred (Qplus a b);
  f32_sub := fun a b => Qred (Qminus a b);
  f32_mul := fun a b => Qred (Qmult a b);
  f64_of_int := inject_Z;
  f64_add := fun a b => Qred (Qplus a b);
  f64_mul := fun a b => Qred (Qmult a b);
  py_float := float_;
  py_int := int_;
  int_of_float := trunc
|}.

End Exact.

(** ** Scripted instruments *)

Module Stub.

Local Open Scope string_scope.

Definition TransportError : exn := mkExn "TransportError" "device did not acknowledge the transfer".
Definition TimeoutError : exn := mkExn "TimeoutError" "Timeout waiting for the instrument".

Definition fail_on (k : nat) (e : exn) (j : nat) : option exn :=
  if (j =? k)%nat then Some e else None.

Definition never (j : nat) : option exn := None.

(** A Tektronix instrument that accepts every command, reports [nr_pt] as the
    record length and the remaining preamble of the scaling scenario, and
    returns [block] for every capture unless [fault] names that capture. *)
Definition tek (nr_pt : string) (fault : nat -> option exn) (block : bytes) : Session :=
  {| on_write := fun _ _ => Ok tt;
     on_ask := fun _ cmd =>
       Ok (if cmd =? "WFMPRE:NR_PT?" then nr_pt
           else if cmd =? "WFMPRE:XINCR?" then "1e-9"
           else if cmd =? "WFMPRE:YMULT?" then "0.01"
           else if cmd =? "*OPC?" then "1"
           else "0");
     on_read_raw := fun h =>
       match fault (count_call (Write "ACQUIRE:STATE ON") h) with
       | Some e => Raise e
       | None => Ok block
       end |}.

(** An Agilent instrument; [run_fault] is raised by the closing [:RUN]. *)
Definition ag (fault : nat -> option exn) (run_fault : option exn) (block : bytes)
  : Session :=
  {| on_write := fun _ cmd =>
       if cmd =? ":RUN" then
         match run_fault with Some e => Raise e | None => Ok tt end
       else Ok tt;
     on_ask := fun _ cmd =>
       Ok (if cmd =? ":WAVEFORM:PREAMBLE?" then "0,0,1000,1,1e-9,0,0,0.01,0,0"
           else "AGILENT TECHNOLOGIES,DSO9104A");
     on_read_raw := fun h =>
       match fault (count_call (Write ":DIGITIZE CHAN4") h) with
       | Some e => Raise e
       | None => Ok block
       end |}.

(** The four codes 10, -10, 0, 127 as bytes. *)
Definition codes_block : bytes := [x0a; xf6; x00; x7f].

Definition DiskError : exn := mkExn "OSError" "[Errno 28] No space left on device".

(** A directory in which every file can be written, and one in which the
    file of capture [k] cannot. *)
Definition disk_ok {num : Numeric} : Disk := fun _ _ => Ok tt.

Definition disk_fails_on {num : Numeric} (k : nat) : Disk :=
  fun j _ => if (j =? k)%nat then Raise DiskError else Ok tt.

End Stub.

(** ** Summaries used to state what a script does *)

(** [post m st Q]: running [m] from [st] ends in a result and a state that
    satisfy [Q]. *)
Definition post {num : Numeric} {V A : Type} (m : M V A) (st : St V)
           (Q : result A -> St V -> Prop) : Prop :=
  Q (fst (m st)) (snd (m st)).

(** The test of the Tektronix handlers on a caught exception
    ([acquire.py] 141, [acquire_pyvisa.py] 174). *)
Definition classified_timeout (e : exn) : bool := contains "Timeout" (str e).

Module TekSummary.
Section TekSummary.
Context {num : Numeric}.
Import Tek.
Local Open Scope list_scope.

(** What one capture body does before its handler runs; [saves] tells
    whether the script writes the CSV file.  A body that raises has written
    no file; in a script that saves, it may have updated the plot before
    the write failed. *)
Definition body_summary (saves : bool) (i : nat) (st : St Vars)
           (r : result unit) (st' : St Vars) : Prop :=
  (exists ext,
      trace (world st') = trace (world st) ++ TRIGGER :: ext /\
      Forall (fun c => In c fetch_calls) ext) /\
  errors (world st') = errors (world st) /\
  pre (vars st') = pre (vars st) /\
  match r with
  | Ok _ =>
      plotted (world st') = plotted (world st) ++ [(S i, current_capture (vars st'))] /\
      saved (world st') =
        saved (world st) ++ (if saves then [(S i, current_capture (vars st'))] else [])
  | Raise _ =>
      (plotted (world st') = plotted (world st) \/
       (saves = true /\
        plotted (world st')
        = plotted (world st) ++ [(S i, current_capture (vars st'))])) /\
      saved (world st') = saved (world st)
  end.

(** How many plots [k] attempts with [nerr] failures make: every attempt
    that did not fail made one, and only a script that saves can have made
    one in an attempt that failed. *)
Definition plot_count (saves : bool) (before after k nerr : nat) : Prop :=
  (before + k <= after + nerr)%nat /\
  (after + (if saves then 0 else nerr) <= before + k)%nat.

(** What a run of the loop over the captures [a+1 .. a+n] does: [k]
    captures are attempted, [errs] are the failures reported. *)
Definition loop_summary (saves : bool) (a n : nat) (st : St Vars) (c : ctl)
           (st' : St Vars) : Prop :=
  exists (k : nat) (ext : list call) (errs : list (nat * exn)),
    trace (world st') = trace (world st) ++ ext /\
    Forall (fun x => In x (TRIGGER :: fetch_calls)) ext /\
    count_call TRIGGER ext = k /\
    pre (vars st') = pre (vars st) /\
    errors (world st') = errors (world st) ++ errs /\
    plot_count saves (length (plotted (world st))) (length (plotted (world st')))
               k (length errs) /\
    (length (saved (world st')) + (if saves then length errs else k)
     = length (saved (world st)) + k)%nat /\
    (k <= n)%nat /\
    (0 < n -> 0 < k)%nat /\
    (c = Next -> k = n) /\
    (c = Break -> exists e, In ((a + k)%nat, e) errs /\ classified_timeout e = true) /\
    (forall j e, In (j, e) errs ->
       (a < j <= a + k)%nat /\
       (classified_timeout e = true -> j = (a + k)%nat /\ c = Break) /\
       (classified_timeout e = false -> c = Next \/ (j < a + k)%nat)).

(** The calls of a configuration that succeeds, in order. *)
Definition setup_calls : list call :=
  [Ask "*IDN?"; Write "DATA:SOURCE CH2"; Write "DATA:ENCDG RIBinary";
   Write "DATA:WIDTH 1"; Write "HEADER OFF"; Write "ACQUIRE:STOPAFTER SEQUENCE"]
  ++ preamble_queries.

(** What the configuration does: it makes an initial part of [setup_calls],
    all of it when it succeeds, and touches nothing else. *)
Definition configure_summary (st : St unit) (r : result Preamble) (st' : St unit)
  : Prop :=
  exists ext,
    trace (world st') = trace (world st) ++ ext /\
    errors (world st') = errors (world st) /\
    setup_errors (world st') = setup_errors (world st) /\
    plotted (world st') = plotted (world st) /\
    saved (world st') = saved (world st) /\
    match r with
    | Ok _ => ext = setup_calls
    | Raise _ => exists rest, setup_calls = ext ++ rest
    end.

End TekSummary.
End TekSummary.

Module AgSummary.
Section AgSummary.
Context {num : Numeric}.
Variable scope : Session.
Import AcquireAg.
Local Open Scope list_scope.

(** The calls of a setup that succeeds, in order. *)
Definition setup_calls : list call :=
  [Ask "*IDN?"; Write ":STOP"; Write ":WAVEFORM:SOURCE CHAN4";
   Write ":WAVEFORM:FORMAT BYTE"; Write ":WAVEFORM:UNSIGNED OFF";
   Write ":ACQUIRE:POINTS 1000"; Write ":ACQUIRE:TYPE NORMAL"; preamble_query].

Definition setup_summary (st : St unit) (r : result Preamble) (st' : St unit) : Prop :=
  exists ext,
    trace (world st') = trace (world st) ++ ext /\
    errors (world st') = errors (world st) /\
    saved (world st') = saved (world st) /\
    uncaught (world st') = uncaught (world st) /\
    match r with
    | Ok _ => ext = setup_calls
    | Raise _ => exists rest, setup_calls = ext ++ rest
    end.

(** What the [try] block of [update] does. *)
Definition capture_summary (st : St Vars) (r : result unit) (st' : St Vars) : Prop :=
  (exists ext,
      trace (world st') = trace (world st) ++ TRIGGER :: ext /\
      Forall (fun c => In c fetch_calls) ext) /\
  errors (world st') = errors (world st) /\
  timer_active (world st') = timer_active (world st) /\
  uncaught (world st') = uncaught (world st) /\
  i (vars st') = i (vars st) /\
  pre (vars st') = pre (vars st) /\
  match r with
  | Ok _ => saved (world st') = saved (world st) ++ [(S (i (vars st)), current_capture (vars st'))]
  | Raise _ => saved (world st') = saved (world st)
  end.

(** What the event loop does from a state in which the timer runs, [a]
    captures are done and [n - a] remain: either every remaining capture
    succeeds and the completion branch runs, or capture [a + k] fails and
    the handler stops the timer. *)
Definition exec_summary (n a : nat) (st st' : St Vars) : Prop :=
  timer_active (world st') = false /\
  pre (vars st') = pre (vars st) /\
  exists (k : nat) (ext : list call),
    trace (world st') = trace (world st) ++ ext /\
    count_call TRIGGER ext = k /\
    count_call preamble_query ext = 0%nat /\
    ((k = (n - a)%nat /\
      errors (world st') = errors (world st) /\
      length (saved (world st')) = (length (saved (world st)) + k)%nat /\
      ((count_call Close ext = 1%nat /\
        uncaught (world st') = uncaught (world st) /\
        exists h, on_write scope h ":RUN" = Ok tt) \/
       (count_call Close ext = 0%nat /\
        exists h e, on_write scope h ":RUN" = Raise e /\
                    uncaught (world st') = uncaught (world st) ++ [e])))
     \/
     ((1 <= k <= n - a)%nat /\
      count_call Close ext = 1%nat /\
      uncaught (world st') = uncaught (world st) /\
      (length (saved (world st')) + 1 = length (saved (world st)) + k)%nat /\
      exists e, errors (world st') = errors (world st) ++ [((a + k)%nat, e)])).

End AgSummary.
End AgSummary.

(** ** The scaling scenario *)

Module Scenario.

Definition codes : list Z := [10; -10; 0; 127].

(** An Agilent preamble and state in exact arithmetic. *)
Definition ag_preamble : @AcquireAg.Preamble Exact.numeric :=
  @AcquireAg.Build_Preamble Exact.numeric (Qred 1e-9) 0%Q (Qred 0.01) 1%Q 27.

Definition ag_vars : @AcquireAg.Vars Exact.numeric :=
  @AcquireAg.Build_Vars Exact.numeric ag_preamble 0 [] codes [] [].

(** The Tektronix scenario in the arithmetic of the scripts: the preamble
    4, 1e-9, 0, 0.01, 0, 0 as [float] reads it from the text of the numbers,
    and the two arrays the scaling statements compute from the codes. *)
Definition ieee_preamble : @Tek.Preamble IEEE.numeric :=
  @Tek.Build_Preamble IEEE.numeric 4
    (IEEE.of_decimal 53 1024 false 1 (-9)) (S754_zero false)
    (IEEE.of_decimal 53 1024 false 1 (-2)) (S754_zero false) (S754_zero false).

Definition ieee_vars : @Tek.Vars IEEE.numeric :=
  @Tek.Build_Vars IEEE.numeric ieee_preamble [] codes [] [].

(** 0.09999999403953552, -0.09999999403953552, 0 and 1.2699999809265137. *)
Definition ieee_voltages : list IEEE.binary32 :=
  [S754_finite false 13421772 (-27); S754_finite true 13421772 (-27);
   S754_zero false; S754_finite false 10653532 (-23)].

(** 0, 1e-9, 2e-9 and 3.0000000000000004e-9. *)
Definition ieee_times : list IEEE.binary64 :=
  [S754_zero false; S754_finite false 4835703278458517 (-82);
   S754_finite false 4835703278458517 (-81); S754_finite false 7253554917687776 (-81)].

(** The floats that the decimals of the scenario denote, in the element
    types of the two arrays. *)
Definition stated_voltages : list IEEE.binary32 :=
  map (fun d => IEEE.of_decimal 24 128 (fst d) (snd d) (-2))
      [(false, 10); (true, 10); (false, 0); (false, 127)].

Definition stated_times : list IEEE.binary64 :=
  map (fun m => IEEE.of_decimal 53 1024 false m (-9)) [0; 1; 2; 3].

End Scenario.

(** ** [acquire_pyvisa.py]: finding and opening the instrument (lines 35-64) *)

Module PyvisaConnect.

Definition SCOPE_VID : string := "0x0699".
Definition SCOPE_PID : string := "0x03B3".

(** Line 43: [SCOPE_VID in res and SCOPE_PID in res]. *)
Definition matches (res : string) : bool :=
  contains SCOPE_VID res && contains SCOPE_PID res.

(** Lines 41-45: the loop over the resources stops at the first match. *)
Fixpoint find_target (resources : list string) : option string :=
  match resources with
  | [] => None
  | res :: rest => if matches res then Some res else find_target rest
  end.

Definition not_found : exn :=
  ValueError "Device with VID 0x0699 and PID 0x03B3 not found.".

(** Lines 47-59: [if target_resource:] is false for [None] and for the empty
    string. *)
Definition select (resources : list string) : result string :=
  match find_target resources with
  | Some res => if (res =? "")%string then Raise not_found else Ok res
  | None => Raise not_found
  end.

Section Script.
Context {num : Numeric}.

(** The handler of lines 61-64 logs and exits: no session exists yet or it
    is left as it is. *)
Definition connection_failed (e : exn) : Final :=
  {| status := ABORTED InSetup; final := add_setup_error e init_world |}.

(** The whole script.  [list_resources] is the result of creating the
    resource manager and listing its resources, [open_resource] the result
    of opening a resource by name. *)
Definition script (list_resources : result (list string))
           (open_resource : string -> result Session) (n : nat) : Final :=
  match list_resources with
  | Raise e => connection_failed e
  | Ok resources =>
      match select resources with
      | Raise e => connection_failed e
      | Ok target =>
          match open_resource target with
          | Raise e => connection_failed e
          | Ok scope => AcquirePyvisa.main scope n
          end
      end
  end.

End Script.
End PyvisaConnect.

(** ** What the sinks receive *)

(** The two arrays of a capture have the same length. *)
Definition parallel {num : Numeric} (c : Capture) : Prop :=
  length (cap_times c) = length (cap_voltages c).

(** The captures of [l] whose number is not in [failed]. *)
Definition without {A : Type} (failed : list nat) (l : list (nat * A)) : list (nat * A) :=
  filter (fun kc => negb (existsb (Nat.eqb (fst kc)) failed)) l.

(** In [acquire.py], before capture number [a + 1]: the CSV files hold the
    plotted captures that have no logged failure, the arrays are parallel,
    and no number above [a] has been used. *)
Definition acquire_sinks {num : Numeric} (a : nat) (st : St Tek.Vars) : Prop :=
  saved (world st) = without (map fst (errors (world st))) (plotted (world st)) /\
  Forall (fun kc => parallel (snd kc) /\ (fst kc <= a)%nat) (plotted (world st)) /\
  Forall (fun ke => (fst ke <= a)%nat) (errors (world st)).

(** In [acquire.py], when every file can be written, the CSV files hold what
    was plotted. *)
Definition acquire_mirror {num : Numeric} (st : St Tek.Vars) : Prop :=
  saved (world st) = plotted (world st).

(** In [acquire_pyvisa.py] the arrays are parallel and, for a record length
    that is not negative, not longer than it. *)
Definition pyvisa_sinks {num : Numeric} (st : St Tek.Vars) : Prop :=
  Forall (fun kc =>
            parallel (snd kc) /\
            (0 <= Tek.num_points (Tek.pre (vars st)) ->
             Z.of_nat (List.length (cap_voltages (snd kc)))
             <= Tek.num_points (Tek.pre (vars st)))%Z)
         (plotted (world st)).

(** In [acquire_ag.py] the plotted captures are the saved ones whose number
    is a multiple of [PLOT_EVERY_N_FRAMES]. *)
Definition decimated {num : Numeric} (w : World) : Prop :=
  plotted w
  = filter (fun kc => (fst kc mod AcquireAg.PLOT_EVERY_N_FRAMES =? 0)%nat) (saved w).

(** ** Observations on results *)

Definition is_ok {A : Type} (r : result A) : bool :=
  match r with Ok _ => true | Raise _ => false end.

(** * Properties *)

Local Open Scope list_scope.
Local Open Scope Z_scope.

Ltac splits := repeat match goal with |- _ /\ _ => split end.

(** ** Slices and searches *)

Section SliceFacts.
Context {A : Type}.
Implicit Types l : list A.

Lemma clamp_inside (len i : Z) : 0 <= i <= len -> clamp len i = i.
Proof. unfold clamp. intros H. destruct (Z.ltb_spec i 0); lia. Qed.

Lemma clamp_above (len i : Z) : 0 <= len <= i -> clamp len i = len.
Proof. unfold clamp. intros H. destruct (Z.ltb_spec i 0); lia. Qed.

Lemma clamp_from_end (len i : Z) : i < 0 -> 0 <= len + i -> clamp len i = len + i.
Proof. unfold clamp. intros H1 H2. destruct (Z.ltb_spec i 0); lia. Qed.

Lemma clamp_below (len i : Z) : 0 <= len -> len + i <= 0 -> i < 0 -> clamp len i = 0.
Proof. unfold clamp. intros H0 H1 H2. destruct (Z.ltb_spec i 0); lia. Qed.

Lemma clamp_bounds (len i : Z) : 0 <= len -> 0 <= clamp len i <= len.
Proof. unfold clamp. lia. Qed.

Lemma slice_upto l (n : Z) :
  0 <= n -> slice None (Some n) l = firstn (Z.to_nat n) l.
Proof.
  intros Hn. unfold slice. cbn [skipn Z.to_nat]. rewrite Z.sub_0_r.
  destruct (Z.le_gt_cases n (Z.of_nat (length l))) as [Hle | Hgt].
  - rewrite clamp_inside by lia. reflexivity.
  - rewrite clamp_above by lia. rewrite Nat2Z.id.
    rewrite firstn_all. symmetry. apply firstn_all2. lia.
Qed.

Lemma slice_from l (k : Z) :
  0 <= k -> slice (Some k) None l = skipn (Z.to_nat k) l.
Proof.
  intros Hk. unfold slice.
  destruct (Z.le_gt_cases k (Z.of_nat (length l))) as [Hle | Hgt].
  - rewrite clamp_inside by lia. apply firstn_all2.
    rewrite length_skipn. lia.
  - rewrite clamp_above by lia. rewrite Z.sub_diag, Nat2Z.id. cbn [Z.to_nat firstn].
    symmetry. apply skipn_all2. lia.
Qed.

Lemma slice_is_prefix l (n : Z) : exists rest, l = slice None (Some n) l ++ rest.
Proof.
  unfold slice. cbn [skipn Z.to_nat].
  exists (skipn (Z.to_nat (clamp (Z.of_nat (length l)) n - 0)) l).
  symmetry. apply firstn_skipn.
Qed.

Lemma slice_envelope (hdr payload : list A) (t : A) :
  slice (Some (Z.of_nat (length hdr))) (Some (-1)) (hdr ++ payload ++ [t]) = payload.
Proof.
  unfold slice. rewrite !length_app. cbn [length].
  rewrite (clamp_inside _ (Z.of_nat (length hdr))) by lia.
  rewrite clamp_from_end by lia.
  rewrite Nat2Z.id, skipn_app, skipn_all, Nat.sub_diag. cbn [app skipn].
  replace (Z.to_nat _) with (length payload + 0)%nat by lia.
  rewrite firstn_app_2. cbn. apply app_nil_r.
Qed.

Lemma slice_span (hdr payload rest : list A) :
  slice (Some (Z.of_nat (length hdr)))
        (Some (Z.of_nat (length hdr) + Z.of_nat (length payload)))
        (hdr ++ payload ++ rest) = payload.
Proof.
  unfold slice. rewrite !length_app.
  rewrite !clamp_inside by lia.
  rewrite Nat2Z.id, skipn_app, skipn_all, Nat.sub_diag. cbn [app skipn].
  replace (Z.to_nat _) with (length payload + 0)%nat by lia.
  rewrite firstn_app_2. cbn. apply app_nil_r.
Qed.

End SliceFacts.

Lemma slice_head {A : Type} (x : A) (l : list A) :
  slice (Some 0) (Some 1) (x :: l) = [x].
Proof. exact (slice_span [] [x] l). Qed.

Lemma byte_eqb_refl (b : byte) : Byte.eqb b b = true.
Proof. apply Byte.byte_dec_lb. reflexivity. Qed.

Lemma byte_eqb_neq (a b : byte) : a <> b -> Byte.eqb a b = false.
Proof.
  intros H. destruct (Byte.eqb a b) eqn:E; [| reflexivity].
  apply Byte.byte_dec_bl in E. contradiction.
Qed.

Lemma find_from_absent (b : byte) (hay : bytes) (k : Z) :
  ~ In b hay -> find_from [b] hay k = -1.
Proof.
  revert k. induction hay as [| x hay IH]; intros k Hn; cbn.
  - reflexivity.
  - rewrite byte_eqb_neq by (intros ->; apply Hn; left; reflexivity).
    cbn. apply IH. intros Hin. apply Hn. right. exact Hin.
Qed.

Lemma find_from_first (b : byte) (hdr rest : bytes) (k : Z) :
  ~ In b hdr -> find_from [b] (hdr ++ b :: rest) k = k + Z.of_nat (length hdr).
Proof.
  revert k. induction hdr as [| x hdr IH]; intros k Hn; cbn [app find_from is_prefix].
  - rewrite byte_eqb_refl. cbn. lia.
  - rewrite byte_eqb_neq by (intros ->; apply Hn; left; reflexivity).
    cbn [andb]. rewrite IH by (intros Hin; apply Hn; right; exact Hin).
    cbn [length]. lia.
Qed.

Lemma in_first_split (b : byte) (l : bytes) :
  In b l -> exists hdr rest, l = hdr ++ b :: rest /\ ~ In b hdr.
Proof.
  induction l as [| x l IH]; intros Hin.
  - destruct Hin.
  - destruct (Byte.byte_eq_dec x b) as [-> | Hne].
    + exists [], l. split; [reflexivity | intros []].
    + destruct Hin as [-> | Hin]; [contradiction |].
      destruct (IH Hin) as (hdr & rest & -> & Hn).
      exists (x :: hdr), rest. split; [reflexivity |].
      intros [-> | H]; [apply Hne; reflexivity | exact (Hn H)].
Qed.

(** ** Frame decoder *)

(** C2. A block made of the marker, one ASCII digit [d], [d] bytes of length
    field, a payload of [L] bytes and one final byte [t] has header length
    [2 + d], and stripping it returns exactly the payload, which is the span
    [[2 + d, 2 + d + L)] of the block, whatever the final byte is.  The
    length field is not read by the decoder, so the statement holds for every
    content of the field, the digits of [L] among them. *)
Theorem tek_frame_round_trip :
  forall (d : Z) (c t : byte) (digits payload : bytes),
    0 <= d <= 9 ->
    ord c = 48 + d ->
    Z.of_nat (length digits) = d ->
    let L := Z.of_nat (length payload) in
    let buf := HASH :: c :: digits ++ payload ++ [t] in
    tek_header_len buf = Ok (2 + d) /\
    strip_tek_header buf = Ok payload /\
    slice (Some (2 + d)) (Some (2 + d + L)) buf = payload /\
    AcquirePyvisa.decode L buf = Ok (frombuffer_int8 payload).
Proof.
  intros d c t digits payload Hd Hc Hlen L buf.
  assert (Hh : tek_header_len buf = Ok (2 + d)).
  { unfold tek_header_len, buf, getitem, index. cbn [nth_error].
    unfold int_of_chr. rewrite Hc.
    replace (48 <=? 48 + d) with true by (symmetry; apply Z.leb_le; lia).
    replace (48 + d <=? 57) with true by (symmetry; apply Z.leb_le; lia).
    cbn [andb]. f_equal. lia. }
  assert (Hhdr : Z.of_nat (length (HASH :: c :: digits)) = 2 + d).
  { cbn [length]. lia. }
  assert (Hs : strip_tek_header buf = Ok payload).
  { unfold strip_tek_header. rewrite Hh. unfold buf at 1.
    rewrite slice_head. cbn [bytes_eqb]. rewrite byte_eqb_refl. cbn [andb].
    f_equal. rewrite <- Hhdr.
    exact (slice_envelope (HASH :: c :: digits) payload t). }
  repeat split.
  - exact Hh.
  - exact Hs.
  - rewrite <- Hhdr. exact (slice_span (HASH :: c :: digits) payload [t]).
  - unfold AcquirePyvisa.decode. rewrite Hs. f_equal.
    unfold reconcile, frombuffer_int8. rewrite length_map.
    fold L. rewrite Z.eqb_refl. reflexivity.
Qed.

(** The block [#14 01 02 03 04 0a]. *)
Lemma tek_frame_round_trip_witness :
  0 <= 1 <= 9 /\ ord x31 = 48 + 1 /\
  strip_tek_header [x23; x31; x34; x01; x02; x03; x04; x0a] = Ok [x01; x02; x03; x04] /\
  AcquirePyvisa.decode 4 [x23; x31; x34; x01; x02; x03; x04; x0a] = Ok [1; 2; 3; 4].
Proof.
  pose proof (tek_frame_round_trip 1 x31 x0a [x34] [x01; x02; x03; x04]
                ltac:(lia) eq_refl eq_refl) as H.
  cbv zeta in H. destruct H as (_ & Hs & _ & Hd).
  split; [lia |]. split; [reflexivity |]. split; [exact Hs | exact Hd].
Defined.

(** C3, as the code has it.  A payload longer than a record length [n] that
    is not negative is cut to exactly its first [n] samples; a payload
    shorter than [n] is returned as it is, and the decoding of a block whose
    header can be stripped never fails, whatever the lengths; for every [n]
    the result is an initial part of the payload, so nothing is ever
    appended. *)
Theorem reconcile_truncates_only :
  forall (A : Type) (raw : list A) (n : Z),
    (0 <= n < Z.of_nat (length raw) ->
       reconcile raw n = firstn (Z.to_nat n) raw /\
       Z.of_nat (length (reconcile raw n)) = n) /\
    (Z.of_nat (length raw) < n -> reconcile raw n = raw) /\
    (exists rest, raw = reconcile raw n ++ rest) /\
    (forall buf payload : bytes,
        strip_tek_header buf = Ok payload ->
        AcquirePyvisa.decode n buf = Ok (reconcile (frombuffer_int8 payload) n)).
Proof.
  intros A raw n. splits.
  - intros (Hn & Hlt). unfold reconcile.
    destruct (Z.eqb_spec (Z.of_nat (length raw)) n) as [E | E]; cbn [negb]; [lia |].
    rewrite slice_upto by exact Hn.
    split; [reflexivity |]. rewrite length_firstn. lia.
  - intros Hlt. unfold reconcile.
    destruct (Z.eqb_spec (Z.of_nat (length raw)) n) as [E | E]; cbn [negb]; [reflexivity |].
    rewrite slice_upto by lia. apply firstn_all2. lia.
  - unfold reconcile.
    destruct (Z.eqb_spec (Z.of_nat (length raw)) n) as [E | E]; cbn [negb].
    + exists []. symmetry. apply app_nil_r.
    + apply slice_is_prefix.
  - intros buf payload H. unfold AcquirePyvisa.decode. rewrite H. reflexivity.
Qed.

Lemma reconcile_truncates_only_witness :
  0 <= 2 < Z.of_nat (length [10; 20; 30]) /\ reconcile [10; 20; 30] 2 = [10; 20].
Proof.
  assert (H : 0 <= 2 < Z.of_nat (length [10; 20; 30])) by (cbn; lia).
  split; [exact H |].
  exact (proj1 (proj1 (reconcile_truncates_only Z [10; 20; 30] 2) H)).
Defined.

(** C3, counterexample: with a record length of 4, a block of two bytes is
    decoded to two samples; the decoder does not fail.  And with a record
    length of -1, which the configuration accepts, a payload of three
    samples, longer than the record length, is cut to two samples. *)
Lemma short_payload_is_accepted :
  AcquirePyvisa.decode 4 [x01; x02] = Ok [1; 2] /\
  ~ (exists e, AcquirePyvisa.decode 4 [x01; x02] = Raise e) /\
  AcquirePyvisa.decode (-1) [x01; x02; x03] = Ok [1; 2].
Proof.
  split; [reflexivity |]. split; [| reflexivity]. intros (e & H). discriminate H.
Qed.

(** C6. In a block that contains a newline, everything up to and including
    the first newline is header and the rest of the block is the payload; a
    block [header ++ newline :: payload] with no newline in [header] decodes
    to [payload]. *)
Theorem ag_frame_round_trip :
  forall buf : bytes,
    In NEWLINE buf ->
    (exists header payload,
        buf = header ++ NEWLINE :: payload /\
        ~ In NEWLINE header /\
        header_end_index buf = Z.of_nat (length header) + 1 /\
        ag_payload buf = payload) /\
    (forall header payload,
        ~ In NEWLINE header ->
        buf = header ++ NEWLINE :: payload ->
        ag_payload buf = payload).
Proof.
  intros buf Hin.
  assert (Hkey : forall header payload, ~ In NEWLINE header ->
            header_end_index (header ++ NEWLINE :: payload)
              = Z.of_nat (length header) + 1 /\
            ag_payload (header ++ NEWLINE :: payload) = payload).
  { intros header payload Hn.
    assert (Hi : header_end_index (header ++ NEWLINE :: payload)
                 = Z.of_nat (length header) + 1).
    { unfold header_end_index, find. rewrite find_from_first by exact Hn. lia. }
    split; [exact Hi |].
    unfold ag_payload. rewrite Hi, slice_from by lia.
    replace (Z.to_nat _) with (length (header ++ [NEWLINE])).
    - change (header ++ NEWLINE :: payload) with (header ++ [NEWLINE] ++ payload).
      rewrite app_assoc, skipn_app, skipn_all, Nat.sub_diag. reflexivity.
    - rewrite length_app. cbn [length]. lia. }
  split.
  - destruct (in_first_split NEWLINE buf Hin) as (header & payload & -> & Hn).
    exists header, payload. destruct (Hkey header payload Hn) as (Hi & Hp).
    repeat split; assumption.
  - intros header payload Hn ->. apply Hkey. exact Hn.
Qed.

(** The block [41 42 0a 01 02]. *)
Lemma ag_frame_round_trip_witness :
  In NEWLINE [x41; x42; x0a; x01; x02] /\
  ag_payload [x41; x42; x0a; x01; x02] = [x01; x02].
Proof.
  assert (Hin : In NEWLINE [x41; x42; x0a; x01; x02]).
  { right. right. left. reflexivity. }
  split; [exact Hin |].
  apply (proj2 (ag_frame_round_trip _ Hin) [x41; x42] [x01; x02]).
  - intros [H | [H | []]]; discriminate H.
  - reflexivity.
Defined.

(** C10. In a block without a newline the search returns -1, the header end
    index is 0 and the whole block is the payload: nothing is dropped, and
    the decoding step has no failing case. *)
Theorem ag_block_without_newline :
  forall buf : bytes,
    ~ In NEWLINE buf ->
    find buf [NEWLINE] = -1 /\
    header_end_index buf = 0 /\
    ag_payload buf = buf.
Proof.
  intros buf Hn.
  assert (Hf : find buf [NEWLINE] = -1) by (apply find_from_absent; exact Hn).
  assert (Hi : header_end_index buf = 0) by (unfold header_end_index; rewrite Hf; reflexivity).
  repeat split; [exact Hf | exact Hi |].
  unfold ag_payload. rewrite Hi, slice_from by lia. reflexivity.
Qed.

Lemma ag_block_without_newline_witness :
  ~ In NEWLINE [x01; x02; x03] /\ ag_payload [x01; x02; x03] = [x01; x02; x03].
Proof.
  assert (Hn : ~ In NEWLINE [x01; x02; x03]).
  { intros [H | [H | [H | []]]]; discriminate H. }
  split; [exact Hn |].
  exact (proj2 (proj2 (ag_block_without_newline _ Hn))).
Defined.

(** ** Scaling engine *)

Lemma nth_error_arange (n i : nat) :
  (i < n)%nat -> nth_error (arange n) i = Some (Z.of_nat i).
Proof.
  intros Hi. unfold arange. apply map_nth_error.
  rewrite (nth_error_nth' _ 0%nat) by (rewrite length_seq; exact Hi).
  rewrite seq_nth by exact Hi. reflexivity.
Qed.

Lemma scale_times_nth {num : Numeric} {A : Type} (raw : list A) (xi xo : F64) (i : nat) :
  (i < length raw)%nat ->
  nth_error (scale_times raw xi xo) i
  = Some (f64_add (f64_mul (f64_of_int (Z.of_nat i)) xi) xo).
Proof.
  intros Hi. unfold scale_times.
  apply (map_nth_error (fun k => f64_add (f64_mul (f64_of_int k) xi) xo)).
  apply nth_error_arange. exact Hi.
Qed.

Lemma nth_error_in_range {A : Type} (l : list A) (i : nat) (a : A) :
  nth_error l i = Some a -> (i < length l)%nat.
Proof. intros H. apply nth_error_Some. rewrite H. discriminate. Qed.

(** C4, as the code has it.  For every arithmetic, every preamble and every
    sample sequence, the scaling statements of the Tektronix scripts leave,
    at each index [i] holding code [c], the voltage
    [(c - y_zero + y_offset) * y_multiplier] and the time
    [i * x_increment + x_origin], in two arrays as long as the sample
    sequence; the voltage is computed in float32 and the time in float64,
    each operation rounding to nearest.  With the preamble 4, 1e-9, 0, 0.01,
    0, 0 as [float] reads it and the codes 10, -10, 0, 127, the voltages are
    the float32 numbers 0.09999999403953552, -0.09999999403953552, 0 and
    1.2699999809265137, within a relative distance of 2^-23 of 0.10, -0.10,
    0.00 and 1.27, and the times are the float64 numbers 0, 1e-9, 2e-9 and
    3.0000000000000004e-9, within a relative distance of 2^-52 of 0, 1e-9,
    2e-9 and 3e-9. *)
Theorem tek_scaling :
  (forall (num : Numeric) (w : World) (v : Tek.Vars) (i : nat) (c : Z),
      nth_error (Tek.raw_waveform v) i = Some c ->
      let p := Tek.pre v in
      let v' := vars (snd (Tek.process (mkSt v w))) in
      nth_error (Tek.voltages v') i
      = Some (f32_mul (f32_add (f32_sub (f32_of_int c) (f32_of_f64 (Tek.y_zero p)))
                               (f32_of_f64 (Tek.y_offset p)))
                      (f32_of_f64 (Tek.y_multiplier p))) /\
      nth_error (Tek.times v') i
      = Some (f64_add (f64_mul (f64_of_int (Z.of_nat i)) (Tek.x_increment p))
                      (Tek.x_origin p)) /\
      length (Tek.voltages v') = length (Tek.raw_waveform v) /\
      length (Tek.times v') = length (Tek.raw_waveform v)) /\
  (py_float (Numeric := IEEE.numeric) "1e-9" = Ok (Tek.x_increment Scenario.ieee_preamble) /\
   py_float (Numeric := IEEE.numeric) "0.01" = Ok (Tek.y_multiplier Scenario.ieee_preamble) /\
   py_float (Numeric := IEEE.numeric) "0" = Ok (S754_zero false)) /\
  (let v' := vars (snd (Tek.process (mkSt Scenario.ieee_vars init_world))) in
   Tek.voltages v' = Scenario.ieee_voltages /\
   Tek.times v' = Scenario.ieee_times) /\
  Forall2 (IEEE.near (1 # 2 ^ 23)) [0.10; -0.10; 0.00; 1.27]%Q Scenario.ieee_voltages /\
  Forall2 (IEEE.near (1 # 2 ^ 52)) [0; 1e-9; 2e-9; 3e-9]%Q Scenario.ieee_times.
Proof.
  split; [| split; [| split; [| split]]].
  - intros num w v i c Hc p v'. cbn in v'. subst v' p. cbn.
    repeat split.
    + unfold scale_voltages_tek.
      erewrite map_nth_error by exact Hc. reflexivity.
    + apply scale_times_nth. eapply nth_error_in_range. exact Hc.
    + unfold scale_voltages_tek. apply length_map.
    + unfold scale_times, arange. rewrite !length_map. apply length_seq.
  - repeat split; vm_compute; reflexivity.
  - cbv zeta. split; vm_compute; reflexivity.
  - repeat constructor; vm_compute; discriminate.
  - repeat constructor; vm_compute; discriminate.
Qed.

Lemma tek_scaling_witness :
  nth_error (Tek.raw_waveform Scenario.ieee_vars) 3 = Some 127 /\
  nth_error
    (Tek.voltages (vars (snd (Tek.process (mkSt Scenario.ieee_vars init_world))))) 3
  = Some (S754_finite false 10653532 (-23)).
Proof.
  split; [reflexivity |].
  exact (proj1 (proj1 tek_scaling IEEE.numeric init_world Scenario.ieee_vars
                  3%nat 127 eq_refl)).
Defined.

(** C4, counterexample: in the arithmetic of the scripts the scenario does
    not give the stated numbers.  The first voltage is the float32 number
    13421772 * 2^-27, which is neither 0.10 nor the float32 number nearest
    to 0.10; the last time is the float64 number 7253554917687776 * 2^-81,
    which is neither 3e-9 nor the float64 number nearest to 3e-9. *)
Lemma scenario_values_are_rounded :
  let v' := vars (snd (Tek.process (mkSt Scenario.ieee_vars init_world))) in
  nth_error (Tek.voltages v') 0 = Some (S754_finite false 13421772 (-27)) /\
  nth_error Scenario.stated_voltages 0 = Some (S754_finite false 13421773 (-27)) /\
  ~ Qeq (IEEE.to_Q (S754_finite false 13421772 (-27))) 0.10 /\
  nth_error (Tek.times v') 3 = Some (S754_finite false 7253554917687776 (-81)) /\
  nth_error Scenario.stated_times 3 = Some (S754_finite false 7253554917687775 (-81)) /\
  ~ Qeq (IEEE.to_Q (S754_finite false 7253554917687776 (-81))) 3e-9 /\
  Tek.voltages v' <> Scenario.stated_voltages /\
  Tek.times v' <> Scenario.stated_times.
Proof.
  cbv zeta. splits.
  - vm_compute. reflexivity.
  - vm_compute. reflexivity.
  - vm_compute. discriminate.
  - vm_compute. reflexivity.
  - vm_compute. reflexivity.
  - vm_compute. discriminate.
  - vm_compute. discriminate.
  - vm_compute. discriminate.
Qed.

(** C5. For every arithmetic and preamble, the Agilent scaling statements
    leave at each index [i] holding code [c] the voltage
    [(c - y_reference) * y_increment + y_origin]: the offset is added after
    the multiplication.  The two formulas are not interchangeable: with zero
    0, offset 1 and scale 2 the code 1 becomes 4 under the Tektronix formula
    and 3 under the Agilent one. *)
Theorem ag_scaling :
  (forall (num : Numeric) (w : World) (v : AcquireAg.Vars) (i : nat) (c : Z),
      nth_error (AcquireAg.raw_waveform v) i = Some c ->
      let p := AcquireAg.pre v in
      let v' := vars (snd (AcquireAg.process (mkSt v w))) in
      nth_error (AcquireAg.voltages v') i
      = Some (f32_add (f32_mul (f32_sub (f32_of_int c)
                                        (f32_of_int (AcquireAg.y_reference p)))
                               (f32_of_f64 (AcquireAg.y_increment p)))
                      (f32_of_f64 (AcquireAg.y_origin p))) /\
      nth_error (AcquireAg.times v') i
      = Some (f64_add (f64_mul (f64_of_int (Z.of_nat i)) (AcquireAg.x_increment p))
                      (AcquireAg.x_origin p)) /\
      length (AcquireAg.voltages v') = length (AcquireAg.raw_waveform v) /\
      length (AcquireAg.times v') = length (AcquireAg.raw_waveform v)) /\
  scale_voltages_tek (num := Exact.numeric) [1] 0%Q 1%Q 2%Q = [4%Q] /\
  scale_voltages_ag (num := Exact.numeric) [1] 0 2%Q 1%Q = [3%Q].
Proof.
  split; [| split; reflexivity].
  intros num w v i c Hc p v'. cbn in v'. subst v' p. cbn.
  repeat split.
  - unfold scale_voltages_ag. erewrite map_nth_error by exact Hc. reflexivity.
  - apply scale_times_nth. eapply nth_error_in_range. exact Hc.
  - unfold scale_voltages_ag. apply length_map.
  - unfold scale_times, arange. rewrite !length_map. apply length_seq.
Qed.

Lemma ag_scaling_witness :
  nth_error (AcquireAg.raw_waveform Scenario.ag_vars) 3 = Some 127 /\
  nth_error
    (AcquireAg.voltages
       (vars (snd (AcquireAg.process (mkSt Scenario.ag_vars init_world))))) 3
  = Some 2%Q.
Proof.
  split; [reflexivity |].
  exact (proj1 (proj1 ag_scaling Exact.numeric init_world Scenario.ag_vars
                  3%nat 127 eq_refl)).
Defined.

(** ** Reasoning about scripts *)

Section ScriptLogic.
Context {num : Numeric}.
Variable scope : Session.

Lemma post_bind {V A B : Type} (m : M V A) (k : A -> M V B) st Q :
  post m st (fun r st' =>
               match r with
               | Ok a => post (k a) st' Q
               | Raise e => Q (Raise e) st'
               end) ->
  post (bind m k) st Q.
Proof.
  unfold post, bind. destruct (m st) as [[a | e] st']; cbn; intros H; exact H.
Qed.

Lemma post_ret {V A : Type} (a : A) (st : St V) Q : Q (Ok a) st -> post (ret a) st Q.
Proof. intros H; exact H. Qed.

Lemma post_lift {V A : Type} (r : result A) (st : St V) Q : Q r st -> post (lift r) st Q.
Proof. intros H; exact H. Qed.

Lemma post_effect {V : Type} (f : World -> World) (st : St V) Q :
  Q (Ok tt) (mkSt (vars st) (f (world st))) -> post (effect f) st Q.
Proof. intros H; exact H. Qed.

Lemma post_assign {V : Type} (f : V -> V) (st : St V) Q :
  Q (Ok tt) (mkSt (f (vars st)) (world st)) -> post (assign f) st Q.
Proof. intros H; exact H. Qed.

Lemma post_read {V A : Type} (f : V -> A) (st : St V) Q :
  Q (Ok (f (vars st))) st -> post (read f) st Q.
Proof. intros H; exact H. Qed.

Lemma post_write {V : Type} (cmd : string) (st : St V) Q :
  (forall r, r = on_write scope (trace (world st)) cmd ->
             Q r (mkSt (vars st) (add_call (Write cmd) (world st)))) ->
  post (write scope cmd) st Q.
Proof. intros H. apply H. reflexivity. Qed.

Lemma post_ask {V : Type} (cmd : string) (st : St V) Q :
  (forall r, r = on_ask scope (trace (world st)) cmd ->
             Q r (mkSt (vars st) (add_call (Ask cmd) (world st)))) ->
  post (ask scope cmd) st Q.
Proof. intros H. apply H. reflexivity. Qed.

Lemma post_read_raw {V : Type} (st : St V) Q :
  (forall r, r = on_read_raw scope (trace (world st)) ->
             Q r (mkSt (vars st) (add_call ReadRaw (world st)))) ->
  post (read_raw scope) st Q.
Proof. intros H. apply H. reflexivity. Qed.

Lemma post_close {V : Type} (st : St V) Q :
  Q (Ok tt) (mkSt (vars st) (add_call Close (world st))) -> post (close) st Q.
Proof. intros H; exact H. Qed.

Lemma post_savetxt {V : Type} (disk : Disk) (k : nat) (c : Capture) (st : St V) Q :
  (disk k c = Ok tt -> Q (Ok tt) (mkSt (vars st) (add_file k c (world st)))) ->
  (forall e, disk k c = Raise e -> Q (Raise e) st) ->
  post (savetxt disk k c) st Q.
Proof.
  unfold post, savetxt. intros H1 H2.
  destruct (disk k c) as [[] | e]; cbn [fst snd]; [apply H1 | apply H2]; reflexivity.
Qed.

End ScriptLogic.

(** One step of symbolic execution of a script. *)
Ltac script_step :=
  lazymatch goal with
  | |- post (bind _ _) _ _ => apply post_bind
  | |- post (write _ _) _ _ => apply post_write; intros [[] | ?] ?
  | |- post (ask _ _) _ _ => apply post_ask; intros [? | ?] ?
  | |- post (read_raw _) _ _ => apply post_read_raw; intros [? | ?] ?
  | |- post close _ _ => apply post_close
  | |- post (savetxt _ _ _) _ _ => apply post_savetxt; [intros ? | intros ? ?]
  | |- post (effect _) _ _ => apply post_effect
  | |- post (assign _) _ _ => apply post_assign
  | |- post (read _) _ _ => apply post_read
  | |- post (ret _) _ _ => apply post_ret
  | |- post (lift ?r) _ _ => apply post_lift; destruct r eqn:?
  end;
  cbn [vars world].

Ltac script_run := repeat script_step.

(** *** Counting calls *)

Lemma count_call_app (c : call) (t u : list call) :
  count_call c (t ++ u) = (count_call c t + count_call c u)%nat.
Proof. unfold count_call. rewrite filter_app, length_app. reflexivity. Qed.

Lemma call_eqb_eq (a b : call) : call_eqb a b = true -> a = b.
Proof.
  destruct a, b; cbn; intros H; try discriminate H; try reflexivity;
    apply String.eqb_eq in H; subst; reflexivity.
Qed.

Lemma count_call_absent (c : call) (allowed t : list call) :
  Forall (fun x => In x allowed) t ->
  existsb (call_eqb c) allowed = false ->
  count_call c t = 0%nat.
Proof.
  intros Hall Hnot. unfold count_call.
  induction Hall as [| x t Hx _ IH]; cbn; [reflexivity |].
  destruct (call_eqb c x) eqn:E; [| exact IH].
  apply call_eqb_eq in E. subst x.
  assert (existsb (call_eqb c) allowed = true) as Hc.
  { apply existsb_exists. exists c. split; [exact Hx |].
    destruct c; cbn; try reflexivity; apply String.eqb_refl. }
  rewrite Hc in Hnot. discriminate Hnot.
Qed.

(** ** The loop of the Tektronix scripts *)

Section TekLoop.
Context {num : Numeric}.
Import Tek TekSummary.

Variable saves : bool.
Variable body : nat -> M Vars unit.
Hypothesis body_ok :
  forall i st, body_summary saves i st (fst (body i st)) (snd (body i st)).

Lemma guarded_reports (i : nat) (st : St Vars) (e : exn) (st1 : St Vars) :
  body i st = (Raise e, st1) ->
  guarded body i st
  = (if classified_timeout e then Break else Next,
     mkSt (vars st1)
          ((if classified_timeout e then add_warning else fun w => w)
             (add_error (S i) e (world st1)))).
Proof.
  intros H. unfold guarded, classified_timeout. rewrite H.
  destruct (contains "Timeout" (str e)); reflexivity.
Qed.

Lemma guarded_summary (a : nat) (st : St Vars) :
  loop_summary saves a 1 st (fst (guarded body a st)) (snd (guarded body a st)).
Proof.
  pose proof (body_ok a st) as Hb. unfold guarded.
  destruct (body a st) as [[[] | e] st1]; cbn [fst snd] in *;
    destruct Hb as ((ext & Hext & Hfetch) & Herr & Hpre & Hpub & Hsav).
  all: assert (count_call TRIGGER (TRIGGER :: ext) = 1%nat) as Hc
      by (change (TRIGGER :: ext) with ([TRIGGER] ++ ext); rewrite count_call_app;
          rewrite (count_call_absent TRIGGER fetch_calls ext Hfetch eq_refl);
          reflexivity).
  all: assert (Forall (fun x => In x (TRIGGER :: fetch_calls)) (TRIGGER :: ext)) as Hall
      by (constructor; [left; reflexivity |];
          eapply Forall_impl; [| exact Hfetch]; intros x Hx; right; exact Hx).
  - exists 1%nat, (TRIGGER :: ext), []. cbn [fst snd].
    splits; try assumption; try lia; try discriminate.
    + rewrite Herr. symmetry. apply app_nil_r.
    + unfold plot_count. rewrite Hpub, length_app. cbn. destruct saves; lia.
    + rewrite Hsav, length_app. destruct saves; cbn; lia.
    + intros j e [].
  - fold (classified_timeout e).
    assert (Hpc : plot_count saves (length (plotted (world st)))
                             (length (plotted (world st1))) 1 1).
    { unfold plot_count. destruct Hpub as [Hp | (Hs & Hp)]; rewrite Hp.
      - destruct saves; lia.
      - rewrite Hs, length_app. cbn. lia. }
    destruct (classified_timeout e) eqn:Et; cbn [fst snd world vars];
      exists 1%nat, (TRIGGER :: ext), [(S a, e)];
      cbn [errors add_error add_warning trace plotted saved length world vars];
      splits; try assumption; try lia; try discriminate;
      try (rewrite Herr; reflexivity);
      try (rewrite Hsav; destruct saves; lia).
    + intros _. exists e. split; [left; f_equal; lia | exact Et].
    + intros j e0 [H | []]. inversion H; subst j e0.
      splits; intros; splits; try lia; try reflexivity.
      rewrite Et in *. discriminate.
    + intros j e0 [H | []]. inversion H; subst j e0.
      splits; intros; splits; try lia; try (left; reflexivity).
      rewrite Et in *. discriminate.
Qed.

Lemma loop_summary_stop (a n : nat) (st st1 : St Vars) :
  loop_summary saves a 1 st Break st1 ->
  loop_summary saves a (S n) st Break st1.
Proof.
  intros (k & ext & errs & Ht & Hall & Hc & Hpre & Herr & Hpub & Hsav & Hle & Hpos
          & Hnext & Hbreak & Hin).
  assert (k = 1%nat) as Hk by lia. revert Hc. subst k. intros Hc.
  exists 1%nat, ext, errs.
  splits; try assumption; try lia; try discriminate.
Qed.

Lemma loop_summary_step (a n : nat) (st st1 st' : St Vars) (c : ctl) :
  loop_summary saves a 1 st Next st1 ->
  loop_summary saves (S a) n st1 c st' ->
  loop_summary saves a (S n) st c st'.
Proof.
  intros (k1 & ext1 & errs1 & Ht1 & Hall1 & Hc1 & Hpre1 & Herr1 & Hpub1 & Hsav1 & Hle1
          & Hpos1 & Hnext1 & Hbreak1 & Hin1).
  intros (k & ext & errs & Ht & Hall & Hc & Hpre & Herr & Hpub & Hsav & Hle & Hpos
          & Hnext & Hbreak & Hin).
  assert (k1 = 1%nat) as Hk by lia. revert Hc1. subst k1. intros Hc1.
  exists (S k), (ext1 ++ ext), (errs1 ++ errs).
  splits.
  - rewrite Ht, Ht1. symmetry. apply app_assoc.
  - apply Forall_app. split; assumption.
  - rewrite count_call_app, Hc1, Hc. reflexivity.
  - congruence.
  - rewrite Herr, Herr1. symmetry. apply app_assoc.
  - unfold plot_count in *. rewrite length_app. destruct saves; lia.
  - rewrite length_app. destruct saves; lia.
  - lia.
  - lia.
  - intros Hn. specialize (Hnext Hn). lia.
  - intros Hb. destruct (Hbreak Hb) as (e & He & Het). exists e. split; [| exact Het].
    apply in_or_app. right. replace (a + S k)%nat with (S a + k)%nat by lia. exact He.
  - intros j e Hj. apply in_app_or in Hj. destruct Hj as [Hj | Hj].
    + destruct (Hin1 j e Hj) as (Hr & Hy & Hn).
      splits.
      * lia.
      * lia.
      * intros Hy'. destruct (Hy Hy') as (_ & Habs). discriminate Habs.
      * intros _. destruct c; [left; reflexivity | right].
        destruct (Hbreak eq_refl) as (e' & He' & _).
        destruct (Hin _ _ He') as (Hr' & _). lia.
    + destruct (Hin j e Hj) as (Hr & Hy & Hn).
      splits.
      * lia.
      * lia.
      * intros Hy'. destruct (Hy Hy') as (Hj' & Hb). split; [lia | exact Hb].
      * intros Hf. destruct (Hn Hf) as [Hc' | Hlt]; [left; exact Hc' | right; lia].
Qed.

Lemma for_loop_summary (n a : nat) (st : St Vars) :
  loop_summary saves a n st
    (fst (for_loop (guarded body) (seq a n) st))
    (snd (for_loop (guarded body) (seq a n) st)).
Proof.
  revert a st. induction n as [| n IH]; intros a st.
  - cbn. exists 0%nat, [], []. cbn.
    splits; try reflexivity; try lia; try discriminate;
      try (symmetry; apply app_nil_r); try constructor;
      try (unfold plot_count; destruct saves; cbn; lia);
      try (destruct saves; lia); try (intros j e []).
  - cbn [seq for_loop]. pose proof (guarded_summary a st) as H1.
    destruct (guarded body a st) as [[|] st1]; cbn [fst snd] in H1.
    + eapply loop_summary_step; [exact H1 | apply IH].
    + cbn [fst snd]. apply loop_summary_stop. exact H1.
Qed.

End TekLoop.

(** *** What the scripts' bodies do *)

Ltac in_list := cbn; repeat first [left; reflexivity | right].

Ltac trace_shape :=
  eexists; split;
  [ cbn; rewrite <- ?app_assoc; cbn; reflexivity
  | repeat (constructor; [in_list |]); try constructor ].

Section Bodies.
Context {num : Numeric}.
Variable scope : Session.
Variable disk : Disk.

Lemma acquire_capture_ok (i : nat) (st : St Tek.Vars) :
  TekSummary.body_summary true i st
    (fst (Acquire.capture scope disk i st)) (snd (Acquire.capture scope disk i st)).
Proof.
  change (post (Acquire.capture scope disk i) st (TekSummary.body_summary true i st)).
  unfold Acquire.capture, Tek.process. script_run.
  all: unfold TekSummary.body_summary; splits; try reflexivity;
    try (left; reflexivity); try (right; split; reflexivity); trace_shape.
Qed.

Lemma pyvisa_capture_ok (i : nat) (st : St Tek.Vars) :
  TekSummary.body_summary false i st
    (fst (AcquirePyvisa.capture scope i st)) (snd (AcquirePyvisa.capture scope i st)).
Proof.
  change (post (AcquirePyvisa.capture scope i) st (TekSummary.body_summary false i st)).
  unfold AcquirePyvisa.capture, Tek.process. script_run.
  all: unfold TekSummary.body_summary; splits; try reflexivity;
    try (left; reflexivity); try (cbn; symmetry; apply app_nil_r); trace_shape.
Qed.

End Bodies.

Section TekConfigure.
Context {num : Numeric}.
Variable scope : Session.
Import Tek TekSummary.

Lemma configure_ok (st : St unit) :
  configure_summary st (fst (configure scope st)) (snd (configure scope st)).
Proof.
  change (post (configure scope) st (configure_summary st)).
  unfold configure. script_run.
  all: unfold configure_summary; eexists; splits;
    [ cbn; rewrite <- ?app_assoc; cbn; reflexivity
    | reflexivity | reflexivity | reflexivity | reflexivity
    | try reflexivity; try (eexists; reflexivity) ].
Qed.

End TekConfigure.

Lemma count_call_prefix (c : call) (ext rest all : list call) :
  all = ext ++ rest -> (count_call c ext <= count_call c all)%nat.
Proof. intros ->. rewrite count_call_app. lia. Qed.

Lemma count_call_snoc (c x : call) (t : list call) :
  count_call c (t ++ [x]) = (count_call c t + if call_eqb c x then 1 else 0)%nat.
Proof. rewrite count_call_app. unfold count_call. cbn. destruct (call_eqb c x); reflexivity. Qed.

Section TekRun.
Context {num : Numeric}.
Variable scope : Session.
Import Tek TekSummary.

Variable saves : bool.
Variable body : nat -> M Vars unit.
Hypothesis body_ok :
  forall i st, body_summary saves i st (fst (body i st)) (snd (body i st)).

(** The loop started from the state a successful configuration leaves. *)
Lemma tek_loop_from_config (n : nat) (p : Preamble) (st0 : St unit) :
  configure scope (mkSt tt init_world) = (Ok p, st0) ->
  let r := for_loop (guarded body) (seq 0 n) (mkSt (init_vars p) (world st0)) in
  let w := world (snd r) in
  (forall j e, In (j, e) (errors w) ->
     (classified_timeout e = false -> (j < n)%nat -> (j < attempts w)%nat) /\
     (classified_timeout e = true -> attempts w = j /\ fst r = Break)) /\
  (fst r = Next -> attempts w = n) /\
  (fst r = Break -> exists e, In (attempts w, e) (errors w) /\ classified_timeout e = true) /\
  (attempts w <= n)%nat /\
  plot_count saves 0 (length (plotted w)) (attempts w) (length (errors w)) /\
  (length (saved w) + (if saves then length (errors w) else attempts w) = attempts w)%nat /\
  closes w = 0%nat /\
  (forall q, In q preamble_queries -> count_call q (trace w) = 1%nat) /\
  (exists ext, trace w = trace (world st0) ++ ext /\
               (forall q, In q preamble_queries -> count_call q ext = 0%nat)) /\
  attempts (world st0) = 0%nat /\
  pre (vars (snd r)) = p.
Proof.
  intros Hcfg r w.
  pose proof (configure_ok scope (mkSt tt init_world)) as Hc. rewrite Hcfg in Hc.
  cbn [fst snd] in Hc.
  destruct Hc as (ext0 & Ht0 & He0 & Hs0 & Hp0 & Hv0 & ->). cbn in Ht0, He0, Hs0, Hp0, Hv0.
  pose proof (for_loop_summary saves body body_ok n 0 (mkSt (init_vars p) (world st0))) as Hl.
  fold r in Hl. destruct Hl as (k & ext & errs & Ht & Hall & Hk & Hpre & Herr & Hpub & Hsav
                                 & Hle & Hpos & Hnext & Hbreak & Hin).
  cbn [world vars] in Ht, Hpre, Herr, Hpub, Hsav. fold w in Ht, Herr, Hpub, Hsav.
  rewrite He0 in Herr. cbn [app] in Herr.
  rewrite Hp0 in Hpub. rewrite Hv0 in Hsav. cbn [length] in Hpub, Hsav.
  assert (Hatt : attempts w = k).
  { unfold attempts. rewrite Ht, Ht0, count_call_app, Hk. reflexivity. }
  assert (Hq0 : forall q, In q preamble_queries -> count_call q ext = 0%nat).
  { intros q Hq. apply (count_call_absent q (TRIGGER :: fetch_calls) ext Hall).
    repeat (destruct Hq as [<- | Hq]; [reflexivity |]). destruct Hq. }
  splits.
  - intros j e Hj. rewrite Herr in Hj. destruct (Hin j e Hj) as (Hr & Hy & Hn).
    rewrite Hatt. split.
    + intros Hf Hlt. destruct (Hn Hf) as [Hc | Hc]; [rewrite (Hnext Hc); exact Hlt | exact Hc].
    + intros Hy'. destruct (Hy Hy') as (-> & Hb). split; [reflexivity | exact Hb].
  - intros Hc. rewrite Hatt. exact (Hnext Hc).
  - intros Hc. rewrite Hatt, Herr. exact (Hbreak Hc).
  - lia.
  - rewrite Herr, Hatt. exact Hpub.
  - rewrite Herr, Hatt. exact Hsav.
  - unfold closes. rewrite Ht, Ht0, count_call_app.
    rewrite (count_call_absent Close (TRIGGER :: fetch_calls) ext Hall eq_refl).
    reflexivity.
  - intros q Hq. rewrite Ht, Ht0, count_call_app, (Hq0 q Hq).
    repeat (destruct Hq as [<- | Hq]; [reflexivity |]). destruct Hq.
  - exists ext. split; [exact Ht | exact Hq0].
  - unfold attempts. rewrite Ht0. reflexivity.
  - exact Hpre.
Qed.

End TekRun.

(** ** The callback of the Agilent script *)

Section AgRun.
Context {num : Numeric}.
Variable scope : Session.
Variable disk : Disk.
Import AcquireAg AgSummary.

Lemma ag_setup_ok (st : St unit) :
  setup_summary st (fst (setup scope st)) (snd (setup scope st)).
Proof.
  change (post (setup scope) st (setup_summary st)).
  unfold setup. script_run.
  all: unfold setup_summary; eexists; splits;
    [ cbn; rewrite <- ?app_assoc; cbn; reflexivity
    | reflexivity | reflexivity | reflexivity
    | try reflexivity; try (eexists; reflexivity) ].
Qed.

Lemma ag_capture_ok (st : St Vars) :
  capture_summary st (fst (capture scope disk st)) (snd (capture scope disk st)).
Proof.
  change (post (capture scope disk) st (capture_summary st)).
  unfold capture, process. script_run.
  all: try (destruct (S (i _) mod PLOT_EVERY_N_FRAMES =? 0)%nat; script_run).
  all: unfold capture_summary; splits; try reflexivity; trace_shape.
Qed.

Lemma update_done (n : nat) (st : St Vars) :
  (n <= i (vars st))%nat ->
  (on_write scope (trace (world st)) ":RUN" = Ok tt /\
   update scope disk n st
   = (Ok tt, mkSt (vars st)
                  (add_call Close (add_call (Write ":RUN") (set_timer false (world st))))))
  \/
  (exists e,
      on_write scope (trace (world st)) ":RUN" = Raise e /\
      update scope disk n st
      = (Raise e, mkSt (vars st) (add_call (Write ":RUN") (set_timer false (world st))))).
Proof.
  intros Hle. unfold update, bind, read, effect, write, close. cbn.
  destruct (Nat.leb_spec n (i (vars st))) as [_ | Hlt]; [| lia].
  destruct (on_write scope (trace (world st)) ":RUN") as [[] | e] eqn:E.
  - left. split; reflexivity.
  - right. exists e. split; reflexivity.
Qed.

Lemma update_capture (n : nat) (st : St Vars) :
  (i (vars st) < n)%nat ->
  update scope disk n st
  = match capture scope disk st with
    | (Ok _, st1) => (Ok tt, mkSt (set_i (S (i (vars st1))) (vars st1)) (world st1))
    | (Raise e, st1) =>
        (Ok tt, mkSt (set_i (S (i (vars st1))) (vars st1))
                     (add_call Close
                        (set_timer false (add_error (S (i (vars st1))) e (world st1)))))
    end.
Proof.
  intros Hlt. unfold update. unfold bind at 1. unfold read. cbn beta iota.
  destruct (Nat.leb_spec n (i (vars st))) as [Hle | _]; [lia |].
  unfold bind, assign.
  destruct (capture scope disk st) as [[[] | e] st1]; reflexivity.
Qed.

Lemma exec_idle (fuel n : nat) (st : St Vars) :
  timer_active (world st) = false -> exec_ scope disk fuel n st = st.
Proof. intros H. destruct fuel; cbn; [| rewrite H]; reflexivity. Qed.

Lemma count_fetch (c : call) (ext : list call) :
  Forall (fun x => In x fetch_calls) ext ->
  existsb (call_eqb c) fetch_calls = false ->
  count_call c ext = 0%nat.
Proof. apply count_call_absent. Qed.

Lemma exec_ok (fuel n a : nat) (st : St Vars) :
  timer_active (world st) = true ->
  i (vars st) = a ->
  (a <= n)%nat ->
  (n - a < fuel)%nat ->
  exec_summary scope n a st (exec_ scope disk fuel n st).
Proof.
  revert a st. induction fuel as [| fuel IH]; intros a st Ht Hi Hle Hfuel; [lia |].
  cbn [exec_]. rewrite Ht.
  destruct (Nat.eq_dec a n) as [-> | Hne].
  - (* every capture is done: the completion branch *)
    destruct (update_done n st ltac:(lia)) as [(Hw & ->) | (e & Hw & ->)].
    + rewrite exec_idle by reflexivity.
      split; [reflexivity |]. split; [reflexivity |].
      exists 0%nat, [Write ":RUN"; Close].
      cbn [world vars trace add_call set_timer add_uncaught add_error errors saved
           uncaught timer_active].
      splits; try reflexivity.
      * rewrite <- app_assoc. reflexivity.
      * left. splits; try reflexivity; try lia.
        left. splits; try reflexivity. eexists. exact Hw.
    + rewrite exec_idle by reflexivity.
      split; [reflexivity |]. split; [reflexivity |].
      exists 0%nat, [Write ":RUN"].
      cbn [world vars trace add_call set_timer add_uncaught add_error errors saved
           uncaught timer_active].
      splits; try reflexivity.
      left. splits; try reflexivity; try lia.
      right. split; [reflexivity |]. exists (trace (world st)), e. split; [exact Hw | reflexivity].
  - rewrite (update_capture n st ltac:(lia)).
    pose proof (ag_capture_ok st) as Hc.
    destruct (capture scope disk st) as [[[] | e] st1]; cbn [fst snd] in Hc;
      destruct Hc as ((ext1 & Ht1 & Hf1) & He1 & Htm1 & Hu1 & Hi1 & Hp1 & Hs1).
    + (* the capture succeeded: the timer fires again *)
      specialize (IH (S a) (mkSt (set_i (S (i (vars st1))) (vars st1)) (world st1))).
      cbn [world vars set_i i] in IH.
      destruct IH as (Htf & Hpf & k & ext & Htr & Hk & Hq & Hcases);
        [congruence | congruence | lia | lia |].
      set (st' := exec_ scope disk fuel n _) in *.
      cbn [world vars set_i pre i] in Hpf, Htr, Hcases.
      split; [exact Htf |]. split; [congruence |].
      exists (S k), ((TRIGGER :: ext1) ++ ext).
      splits.
      * rewrite Htr, Ht1, <- app_assoc. reflexivity.
      * rewrite count_call_app, Hk.
        change (TRIGGER :: ext1) with ([TRIGGER] ++ ext1).
        rewrite count_call_app, (count_fetch TRIGGER ext1 Hf1 eq_refl). reflexivity.
      * rewrite count_call_app, Hq.
        change (TRIGGER :: ext1) with ([TRIGGER] ++ ext1).
        rewrite count_call_app, (count_fetch preamble_query ext1 Hf1 eq_refl). reflexivity.
      * assert (Hcl : forall t, count_call Close ((TRIGGER :: ext1) ++ t) = count_call Close t).
        { intros t. rewrite count_call_app.
          change (TRIGGER :: ext1) with ([TRIGGER] ++ ext1).
          rewrite count_call_app, (count_fetch Close ext1 Hf1 eq_refl). reflexivity. }
        assert (Hsl : length (saved (world st1)) = (length (saved (world st)) + 1)%nat).
        { rewrite Hs1, length_app. reflexivity. }
        destruct Hcases as [(Hkn & Herr & Hsv & Hrun) | (Hkn & Hclose & Hun & Hsv & e & Herr)].
        -- left. splits; [lia | congruence | lia |].
           destruct Hrun as [(Hc1 & Hu & Hh) | (Hc0 & h & e & Hh & Hu)].
           ++ left. splits; [rewrite Hcl; exact Hc1 | congruence | exact Hh].
           ++ right. split; [rewrite (Hcl ext); exact Hc0 |].
              exists h, e. split; [exact Hh | congruence].
        -- right. split; [lia |]. split; [rewrite Hcl; exact Hclose |].
           split; [congruence |]. split; [lia |].
           exists e. rewrite Herr, He1. f_equal. f_equal. f_equal. lia.
    + (* the capture raised: the handler stops the timer *)
      rewrite exec_idle by reflexivity.
      split; [reflexivity |]. split; [exact Hp1 |].
      exists 1%nat, ((TRIGGER :: ext1) ++ [Close]).
      cbn [world vars trace add_call set_timer add_uncaught add_error errors saved
           uncaught timer_active].
      splits.
      * rewrite Ht1, <- app_assoc. reflexivity.
      * rewrite count_call_app.
        change (TRIGGER :: ext1) with ([TRIGGER] ++ ext1).
        rewrite count_call_app, (count_fetch TRIGGER ext1 Hf1 eq_refl). reflexivity.
      * rewrite count_call_app.
        change (TRIGGER :: ext1) with ([TRIGGER] ++ ext1).
        rewrite count_call_app, (count_fetch preamble_query ext1 Hf1 eq_refl). reflexivity.
      * right. split; [lia |]. split; [| split; [exact Hu1 | split; [rewrite Hs1; lia |]]].
        -- rewrite count_call_app.
           change (TRIGGER :: ext1) with ([TRIGGER] ++ ext1).
           rewrite count_call_app, (count_fetch Close ext1 Hf1 eq_refl). reflexivity.
        -- exists e. rewrite He1, Hi1, Hi. f_equal. f_equal. f_equal. lia.
Qed.

End AgRun.

(** ** Whole runs *)

Section Runs.
Context {num : Numeric}.
Variable scope : Session.
Variable disk : Disk.

Lemma count_after_call (c x : call) (w : World) :
  count_call c (trace (add_call x w))
  = (count_call c (trace w) + if call_eqb c x then 1 else 0)%nat.
Proof. cbn [trace add_call]. apply count_call_snoc. Qed.

Lemma acquire_main_ok (n : nat) (p : Tek.Preamble) (st0 : St unit) :
  Tek.configure scope (mkSt tt init_world) = (Ok p, st0) ->
  Acquire.main scope disk n
  = let r := for_loop (Tek.guarded (Acquire.capture scope disk)) (seq 0 n)
                      (mkSt (Tek.init_vars p) (world st0)) in
    {| status := match fst r with Break => ABORTED InLoop | Next => COMPLETE end;
       final := add_call Close (world (snd r)) |}.
Proof.
  intros H. unfold Acquire.main, Acquire.capture_loop. rewrite H. cbv zeta.
  destruct (for_loop _ _ _) as [c st']. reflexivity.
Qed.

Lemma pyvisa_main_ok (n : nat) (p : Tek.Preamble) (st0 : St unit) :
  Tek.configure scope (mkSt tt init_world) = (Ok p, st0) ->
  AcquirePyvisa.main scope n
  = let r := for_loop (Tek.guarded (AcquirePyvisa.capture scope)) (seq 0 n)
                      (mkSt (Tek.init_vars p) (world st0)) in
    {| status := match fst r with Break => ABORTED InLoop | Next => COMPLETE end;
       final := add_call RmClose (add_call Close (world (snd r))) |}.
Proof.
  intros H. unfold AcquirePyvisa.main, AcquirePyvisa.capture_loop. rewrite H. cbv zeta.
  destruct (for_loop _ _ _) as [c st']. reflexivity.
Qed.

Lemma acquire_main_failed (n : nat) (e : exn) (st0 : St unit) :
  Tek.configure scope (mkSt tt init_world) = (Raise e, st0) ->
  Acquire.main scope disk n
  = {| status := ABORTED InSetup;
       final := add_call Close (add_setup_error e (world st0)) |}.
Proof. intros H. unfold Acquire.main. rewrite H. reflexivity. Qed.

Lemma pyvisa_main_failed (n : nat) (e : exn) (st0 : St unit) :
  Tek.configure scope (mkSt tt init_world) = (Raise e, st0) ->
  AcquirePyvisa.main scope n
  = {| status := ABORTED InSetup;
       final := add_call Close (add_setup_error e (world st0)) |}.
Proof. intros H. unfold AcquirePyvisa.main. rewrite H. reflexivity. Qed.

(** A configuration that fails has made no capture, closed nothing and
    reported no capture failure. *)
Lemma tek_failed_config (e : exn) (st0 : St unit) :
  Tek.configure scope (mkSt tt init_world) = (Raise e, st0) ->
  Tek.attempts (world st0) = 0%nat /\ closes (world st0) = 0%nat /\
  errors (world st0) = [].
Proof.
  intros H. pose proof (configure_ok scope (mkSt tt init_world)) as Hc.
  rewrite H in Hc. cbn [fst snd] in Hc.
  destruct Hc as (ext & Ht & He & _ & _ & _ & rest & Hrest). cbn in Ht, He.
  unfold Tek.attempts, closes. rewrite Ht.
  pose proof (count_call_prefix Tek.TRIGGER ext rest _ Hrest) as H1.
  pose proof (count_call_prefix Close ext rest _ Hrest) as H2.
  cbn in H1, H2. splits; [lia | lia | exact He].
Qed.

Lemma ag_main_ok (n : nat) (p : AcquireAg.Preamble) (st0 : St unit) :
  AcquireAg.setup scope (mkSt tt init_world) = (Ok p, st0) ->
  let st' := AcquireAg.exec_ scope disk (S n) n
               (mkSt (AcquireAg.init_vars p) (set_timer true (world st0))) in
  AcquireAg.main scope disk n
  = {| status := match errors (world st') with
                 | [] => COMPLETE
                 | _ :: _ => ABORTED InLoop
                 end;
       final := world st' |} /\
  trace (world st0) = AgSummary.setup_calls /\
  errors (world st0) = [] /\
  saved (world st0) = [] /\
  uncaught (world st0) = [] /\
  AgSummary.exec_summary scope n 0
    (mkSt (AcquireAg.init_vars p) (set_timer true (world st0))) st'.
Proof.
  intros H st'. pose proof (ag_setup_ok scope (mkSt tt init_world)) as Hc.
  rewrite H in Hc. cbn [fst snd] in Hc.
  destruct Hc as (ext & Ht & He & Hs & Hu & ->). cbn in Ht, He, Hs, Hu.
  splits; try assumption.
  - unfold AcquireAg.main. rewrite H. reflexivity.
  - apply exec_ok; try reflexivity; lia.
Qed.

Lemma ag_main_failed (n : nat) (e : exn) (st0 : St unit) :
  AcquireAg.setup scope (mkSt tt init_world) = (Raise e, st0) ->
  AcquireAg.main scope disk n
  = {| status := ABORTED InSetup; final := add_setup_error e (world st0) |} /\
  AcquireAg.attempts (world st0) = 0%nat /\ closes (world st0) = 0%nat /\
  errors (world st0) = [].
Proof.
  intros H. pose proof (ag_setup_ok scope (mkSt tt init_world)) as Hc.
  rewrite H in Hc. cbn [fst snd] in Hc.
  destruct Hc as (ext & Ht & He & _ & _ & rest & Hrest). cbn in Ht, He.
  split; [unfold AcquireAg.main; rewrite H; reflexivity |].
  unfold AcquireAg.attempts, closes. rewrite Ht.
  pose proof (count_call_prefix AcquireAg.TRIGGER ext rest _ Hrest) as H1.
  pose proof (count_call_prefix Close ext rest _ Hrest) as H2.
  cbn in H1, H2. splits; [lia | lia | exact He].
Qed.

End Runs.

(** ** Failure policy of the loops *)

Section Policy.
Context {num : Numeric}.
Variable scope : Session.
Variable disk : Disk.

(** The facts about a run of [acquire_ag.py] whose setup succeeds. *)
Lemma ag_run_facts (n : nat) (p : AcquireAg.Preamble) (st0 : St unit) :
  AcquireAg.setup scope (mkSt tt init_world) = (Ok p, st0) ->
  let r := AcquireAg.main scope disk n in
  timer_active (final r) = false /\
  count_call AcquireAg.preamble_query (trace (final r)) = 1%nat /\
  (closes (final r) <= 1)%nat /\
  ((status r = COMPLETE /\ errors (final r) = [] /\
    AcquireAg.attempts (final r) = n /\ length (saved (final r)) = n /\
    ((closes (final r) = 1%nat /\ uncaught (final r) = [] /\
      exists h, on_write scope h ":RUN" = Ok tt) \/
     (closes (final r) = 0%nat /\
      exists h e, on_write scope h ":RUN" = Raise e /\ uncaught (final r) = [e])))
   \/
   (status r = ABORTED InLoop /\ closes (final r) = 1%nat /\
    (1 <= AcquireAg.attempts (final r) <= n)%nat /\
    (length (saved (final r)) + 1 = AcquireAg.attempts (final r))%nat /\
    exists e, errors (final r) = [(AcquireAg.attempts (final r), e)])).
Proof.
  intros Hs r. destruct (ag_main_ok scope disk n p st0 Hs) as (Hm & Ht0 & He0 & Hs0 & Hu0 & Hx).
  cbv zeta in Hm, Hx. subst r. rewrite Hm. cbn [final status].
  set (st' := AcquireAg.exec_ scope disk (S n) n _) in *.
  destruct Hx as (Htm & _ & k & ext & Htr & Hk & Hq & Hcases).
  cbn [world vars trace set_timer errors saved uncaught] in Htr, Hcases.
  rewrite Ht0 in Htr. rewrite He0, Hs0, Hu0 in Hcases. cbn [app length] in Hcases.
  assert (Hatt : AcquireAg.attempts (world st') = k).
  { unfold AcquireAg.attempts. rewrite Htr, count_call_app, Hk. reflexivity. }
  assert (Hcl : closes (world st') = count_call Close ext).
  { unfold closes. rewrite Htr, count_call_app. reflexivity. }
  rewrite Hatt, Hcl.
  split; [exact Htm |]. split; [rewrite Htr, count_call_app, Hq; reflexivity |].
  destruct Hcases as [(Hkn & Herr & Hsv & Hrun) | (Hkn & Hclose & Hun & Hsv & e & Herr)].
  - split; [destruct Hrun as [(-> & _) | (-> & _)]; lia |].
    left. rewrite Herr. splits; try reflexivity; try lia.
    destruct Hrun as [(Hc1 & Hu & Hh) | (Hc0 & h & e & Hh & Hu)].
    + left. splits; assumption.
    + right. split; [exact Hc0 |]. exists h, e. split; assumption.
  - split; [lia |]. right. rewrite Herr. cbn [app].
    split; [reflexivity |]. split; [exact Hclose |]. split; [lia |]. split; [lia |].
    exists e. reflexivity.
Qed.

End Policy.

(** X1. [acquire.py], loop handler.  In every run, for every failure logged
    with capture number [j] and exception [e]: when the message of [e] does
    not contain "Timeout" and [j] is not the last capture, a later capture is
    attempted; when it contains "Timeout", capture [j] is the last one
    attempted and the run ends ABORTED in the loop. *)
Theorem acquire_failure_policy :
  forall (num : Numeric) (scope : Session) (disk : Disk) (n j : nat) (e : exn),
    In (j, e) (errors (final (Acquire.main scope disk n))) ->
    (classified_timeout e = false -> (j < n)%nat ->
       (j < Tek.attempts (final (Acquire.main scope disk n)))%nat) /\
    (classified_timeout e = true ->
       Tek.attempts (final (Acquire.main scope disk n)) = j /\
       status (Acquire.main scope disk n) = ABORTED InLoop).
Proof.
  intros num scope disk n j e.
  destruct (Tek.configure scope (mkSt tt init_world)) as [[p | e0] st0] eqn:Hcfg.
  - rewrite (acquire_main_ok scope disk n p st0 Hcfg).
    destruct (tek_loop_from_config scope true (Acquire.capture scope disk)
                (acquire_capture_ok scope disk) n p st0 Hcfg) as (Hpol & _).
    cbv zeta in *. cbn [final status errors add_call].
    unfold Tek.attempts in *. rewrite count_after_call. cbn [call_eqb].
    rewrite Nat.add_0_r. intros Hin. destruct (Hpol j e Hin) as (H1 & H2).
    split; [exact H1 |]. intros Ht. destruct (H2 Ht) as (Ha & Hb).
    split; [exact Ha | rewrite Hb; reflexivity].
  - rewrite (acquire_main_failed scope disk n e0 st0 Hcfg).
    cbn [final errors add_call add_setup_error].
    destruct (tek_failed_config scope e0 st0 Hcfg) as (_ & _ & ->). intros [].
Qed.

(** A transport failure on capture 3 of 5. *)
Lemma acquire_failure_policy_witness :
  let r := Acquire.main (num := Exact.numeric)
             (Stub.tek "4" (Stub.fail_on 3 Stub.TransportError) Stub.codes_block) Stub.disk_ok 5 in
  In (3%nat, Stub.TransportError) (errors (final r)) /\
  classified_timeout Stub.TransportError = false /\
  (3 < 5)%nat /\
  (3 < Tek.attempts (final r))%nat.
Proof.
  cbv zeta.
  assert (Hin : In (3%nat, Stub.TransportError)
     (errors (final (Acquire.main (num := Exact.numeric)
                       (Stub.tek "4" (Stub.fail_on 3 Stub.TransportError)
                                 Stub.codes_block) Stub.disk_ok 5)))).
  { vm_compute. left. reflexivity. }
  split; [exact Hin |]. split; [reflexivity |]. split; [lia |].
  exact (proj1 (acquire_failure_policy Exact.numeric _ _ 5%nat 3%nat _ Hin)
               eq_refl ltac:(lia)).
Defined.

(** X2. [acquire_pyvisa.py], loop handler: the same policy as in
    [acquire.py]; here the failures include the exceptions of the header
    stripping. *)
Theorem pyvisa_failure_policy :
  forall (num : Numeric) (scope : Session) (n j : nat) (e : exn),
    In (j, e) (errors (final (AcquirePyvisa.main scope n))) ->
    (classified_timeout e = false -> (j < n)%nat ->
       (j < Tek.attempts (final (AcquirePyvisa.main scope n)))%nat) /\
    (classified_timeout e = true ->
       Tek.attempts (final (AcquirePyvisa.main scope n)) = j /\
       status (AcquirePyvisa.main scope n) = ABORTED InLoop).
Proof.
  intros num scope n j e.
  destruct (Tek.configure scope (mkSt tt init_world)) as [[p | e0] st0] eqn:Hcfg.
  - rewrite (pyvisa_main_ok scope n p st0 Hcfg).
    destruct (tek_loop_from_config scope false (AcquirePyvisa.capture scope)
                (pyvisa_capture_ok scope) n p st0 Hcfg) as (Hpol & _).
    cbv zeta in *. cbn [final status errors add_call].
    unfold Tek.attempts in *. rewrite !count_after_call. cbn [call_eqb].
    rewrite !Nat.add_0_r. intros Hin. destruct (Hpol j e Hin) as (H1 & H2).
    split; [exact H1 |]. intros Ht. destruct (H2 Ht) as (Ha & Hb).
    split; [exact Ha | rewrite Hb; reflexivity].
  - rewrite (pyvisa_main_failed scope n e0 st0 Hcfg). cbn [final errors add_call add_setup_error].
    destruct (tek_failed_config scope e0 st0 Hcfg) as (_ & _ & ->). intros [].
Qed.

(** A timeout on capture 2 of 5. *)
Lemma pyvisa_failure_policy_witness :
  let r := AcquirePyvisa.main (num := Exact.numeric)
             (Stub.tek "4" (Stub.fail_on 2 Stub.TimeoutError) Stub.codes_block) 5 in
  In (2%nat, Stub.TimeoutError) (errors (final r)) /\
  classified_timeout Stub.TimeoutError = true /\
  Tek.attempts (final r) = 2%nat /\
  status r = ABORTED InLoop.
Proof.
  cbv zeta.
  assert (Hin : In (2%nat, Stub.TimeoutError)
     (errors (final (AcquirePyvisa.main (num := Exact.numeric)
                       (Stub.tek "4" (Stub.fail_on 2 Stub.TimeoutError)
                                 Stub.codes_block) 5)))).
  { vm_compute. left. reflexivity. }
  split; [exact Hin |]. split; [reflexivity |].
  exact (proj2 (pyvisa_failure_policy Exact.numeric _ 5%nat 2%nat _ Hin) eq_refl).
Defined.



(** ** Accounting and cleanup of the Tektronix scripts *)

Section TekWorld.
Context {num : Numeric}.
Variable scope : Session.
Import Tek TekSummary.

(** Whatever its outcome, the configuration publishes nothing, reports no
    capture failure and makes an initial part of [setup_calls]. *)
Lemma tek_config_world (r : result Preamble) (st0 : St unit) :
  configure scope (mkSt tt init_world) = (r, st0) ->
  plotted (world st0) = [] /\ saved (world st0) = [] /\
  errors (world st0) = [] /\ setup_errors (world st0) = [] /\
  exists rest, setup_calls = trace (world st0) ++ rest /\
               match r with Ok _ => rest = [] | Raise _ => True end.
Proof.
  intros H. pose proof (configure_ok scope (mkSt tt init_world)) as Hc.
  rewrite H in Hc. cbn [fst snd] in Hc.
  destruct Hc as (ext & Ht & He & Hs & Hp & Hv & Hr). cbn in Ht, He, Hs, Hp, Hv.
  splits; try assumption. rewrite Ht.
  destruct r as [p | e].
  - exists []. rewrite Hr. split; [symmetry; apply app_nil_r | reflexivity].
  - destruct Hr as (rest & Hrest). exists rest. split; [exact Hrest | exact I].
Qed.

Variable saves : bool.
Variable body : nat -> M Vars unit.
Hypothesis body_ok :
  forall i st, body_summary saves i st (fst (body i st)) (snd (body i st)).

(** After a successful configuration the loop only sends the four capture
    commands. *)
Lemma tek_loop_trace (n : nat) (p : Preamble) (st0 : St unit) :
  configure scope (mkSt tt init_world) = (Ok p, st0) ->
  exists ext,
    trace (world (snd (for_loop (guarded body) (seq 0 n)
                                (mkSt (init_vars p) (world st0)))))
    = setup_calls ++ ext /\
    Forall (fun x => In x (TRIGGER :: fetch_calls)) ext.
Proof.
  intros Hcfg.
  destruct (tek_config_world (Ok p) st0 Hcfg) as (_ & _ & _ & _ & rest & Hrest & ->).
  rewrite app_nil_r in Hrest.
  pose proof (for_loop_summary saves body body_ok n 0 (mkSt (init_vars p) (world st0))) as Hl.
  destruct Hl as (k & ext & errs & Ht & Hall & _).
  exists ext. cbn [world] in Ht. rewrite Ht, <- Hrest. split; [reflexivity | exact Hall].
Qed.

End TekWorld.

(** X4. [acquire.py], whole run.  At most [n] captures are attempted; every
    attempted capture ends either with its CSV file written or with a logged
    failure, never both and never neither; there are at least as many plot
    updates as files and at most one per attempted capture; a run that ends
    COMPLETE attempted all [n] captures, and a run ABORTED in the loop ends
    on a failure whose message contains "Timeout". *)
Theorem acquire_accounting :
  forall (num : Numeric) (scope : Session) (disk : Disk) (n : nat),
    let r := Acquire.main scope disk n in
    (Tek.attempts (final r) <= n)%nat /\
    (length (saved (final r)) + length (errors (final r))
     = Tek.attempts (final r))%nat /\
    (length (saved (final r)) <= length (plotted (final r)))%nat /\
    (length (plotted (final r)) <= Tek.attempts (final r))%nat /\
    (status r = COMPLETE -> Tek.attempts (final r) = n) /\
    (status r = ABORTED InLoop ->
     exists e, In (Tek.attempts (final r), e) (errors (final r)) /\
               classified_timeout e = true).
Proof.
  intros num scope disk n r. subst r.
  destruct (Tek.configure scope (mkSt tt init_world)) as [[p | e0] st0] eqn:Hcfg.
  - rewrite (acquire_main_ok scope disk n p st0 Hcfg).
    destruct (tek_loop_from_config scope true (Acquire.capture scope disk)
                (acquire_capture_ok scope disk) n p st0 Hcfg)
      as (_ & Hnext & Hbreak & Hle & Hpub & Hsav & _).
    cbv zeta in *. cbn [final status errors plotted saved add_call].
    unfold Tek.attempts in *. rewrite count_after_call. cbn [call_eqb].
    rewrite Nat.add_0_r. unfold TekSummary.plot_count in Hpub.
    splits; try assumption; try lia.
    + destruct (fst (for_loop _ _ _)); [intros _; apply Hnext; reflexivity | discriminate].
    + destruct (fst (for_loop _ _ _)); [discriminate | intros _; apply Hbreak; reflexivity].
  - rewrite (acquire_main_failed scope disk n e0 st0 Hcfg).
    destruct (tek_failed_config scope e0 st0 Hcfg) as (Ha & _ & He).
    destruct (tek_config_world scope (Raise e0) st0 Hcfg) as (Hp & Hs & _).
    cbn [final status errors plotted saved add_call add_setup_error].
    unfold Tek.attempts in *. rewrite count_after_call. cbn [call_eqb trace add_setup_error].
    rewrite Ha, He, Hp, Hs. cbn. splits; try lia; try reflexivity; discriminate.
Qed.

(** X5. [acquire_pyvisa.py], whole run: the same accounting, and no CSV file
    is ever written. *)
Theorem pyvisa_accounting :
  forall (num : Numeric) (scope : Session) (n : nat),
    let r := AcquirePyvisa.main scope n in
    (Tek.attempts (final r) <= n)%nat /\
    (length (plotted (final r)) + length (errors (final r))
     = Tek.attempts (final r))%nat /\
    saved (final r) = [] /\
    (status r = COMPLETE -> Tek.attempts (final r) = n) /\
    (status r = ABORTED InLoop ->
     exists e, In (Tek.attempts (final r), e) (errors (final r)) /\
               classified_timeout e = true).
Proof.
  intros num scope n r. subst r.
  destruct (Tek.configure scope (mkSt tt init_world)) as [[p | e0] st0] eqn:Hcfg.
  - rewrite (pyvisa_main_ok scope n p st0 Hcfg).
    destruct (tek_loop_from_config scope false (AcquirePyvisa.capture scope)
                (pyvisa_capture_ok scope) n p st0 Hcfg)
      as (_ & Hnext & Hbreak & Hle & Hpub & Hsav & _).
    cbv zeta in *. cbn [final status errors plotted saved add_call].
    unfold Tek.attempts in *. rewrite !count_after_call. cbn [call_eqb].
    rewrite !Nat.add_0_r. unfold TekSummary.plot_count in Hpub.
    splits; try assumption; try lia.
    + apply length_zero_iff_nil. lia.
    + destruct (fst (for_loop _ _ _)); [intros _; apply Hnext; reflexivity | discriminate].
    + destruct (fst (for_loop _ _ _)); [discriminate | intros _; apply Hbreak; reflexivity].
  - rewrite (pyvisa_main_failed scope n e0 st0 Hcfg).
    destruct (tek_failed_config scope e0 st0 Hcfg) as (Ha & _ & He).
    destruct (tek_config_world scope (Raise e0) st0 Hcfg) as (Hp & Hs & _).
    cbn [final status errors plotted saved add_call add_setup_error].
    unfold Tek.attempts in *. rewrite count_after_call. cbn [call_eqb trace add_setup_error].
    rewrite Ha, He, Hp, Hs. cbn. splits; try lia; try reflexivity; discriminate.
Qed.

(** X6. [acquire.py], cleanup.  In every run the session is closed exactly
    once, and [close()] is the last call made on it: after a failed
    configuration (lines 83-86) as well as after the loop, whether it ran to
    the end or was left on a timeout (lines 146-148). *)
Theorem acquire_closes_once :
  forall (num : Numeric) (scope : Session) (disk : Disk) (n : nat),
    closes (final (Acquire.main scope disk n)) = 1%nat /\
    exists t, trace (final (Acquire.main scope disk n)) = t ++ [Close] /\
              count_call Close t = 0%nat.
Proof.
  intros num scope disk n.
  destruct (Tek.configure scope (mkSt tt init_world)) as [[p | e0] st0] eqn:Hcfg.
  - rewrite (acquire_main_ok scope disk n p st0 Hcfg).
    destruct (tek_loop_from_config scope true (Acquire.capture scope disk)
                (acquire_capture_ok scope disk) n p st0 Hcfg)
      as (_ & _ & _ & _ & _ & _ & Hcl & _).
    cbv zeta in *. cbn [final]. unfold closes in *. rewrite count_after_call, Hcl.
    split; [reflexivity |]. eexists. split; [reflexivity | exact Hcl].
  - rewrite (acquire_main_failed scope disk n e0 st0 Hcfg).
    destruct (tek_failed_config scope e0 st0 Hcfg) as (_ & Hcl & _).
    cbn [final]. unfold closes in *. rewrite count_after_call.
    cbn [trace add_setup_error]. rewrite Hcl.
    split; [reflexivity |]. eexists. split; [reflexivity | exact Hcl].
Qed.

(** X7. [acquire_pyvisa.py], cleanup.  In every run the session is closed
    exactly once.  The resource manager is closed once, after the session,
    when the configuration succeeded (lines 179-182), and is not closed when
    the configuration failed (lines 103-106). *)
Theorem pyvisa_closes_once :
  forall (num : Numeric) (scope : Session) (n : nat),
    let r := AcquirePyvisa.main scope n in
    closes (final r) = 1%nat /\
    count_call RmClose (trace (final r))
    = (match status r with ABORTED InSetup => 0 | _ => 1 end)%nat /\
    exists t, count_call Close t = 0%nat /\ count_call RmClose t = 0%nat /\
              trace (final r)
              = t ++ Close :: (match status r with
                               | ABORTED InSetup => []
                               | _ => [RmClose]
                               end).
Proof.
  intros num scope n r. subst r.
  destruct (Tek.configure scope (mkSt tt init_world)) as [[p | e0] st0] eqn:Hcfg.
  - rewrite (pyvisa_main_ok scope n p st0 Hcfg).
    destruct (tek_loop_trace scope false (AcquirePyvisa.capture scope)
                (pyvisa_capture_ok scope) n p st0 Hcfg) as (ext & Ht & Hall).
    cbv zeta. cbn [final status]. set (w := world (snd _)) in *.
    assert (Hc : forall c, existsb (call_eqb c) (Tek.TRIGGER :: Tek.fetch_calls) = false ->
                           existsb (call_eqb c) TekSummary.setup_calls = false ->
                           count_call c (trace w) = 0%nat).
    { intros c H1 H2. rewrite Ht, count_call_app.
      rewrite (count_call_absent c _ ext Hall H1).
      assert (Forall (fun x => In x TekSummary.setup_calls) TekSummary.setup_calls) as Hs.
      { apply Forall_forall. intros x Hx. exact Hx. }
      rewrite (count_call_absent c _ _ Hs H2). reflexivity. }
    unfold closes. rewrite !count_after_call. cbn [call_eqb].
    rewrite (Hc Close eq_refl eq_refl), (Hc RmClose eq_refl eq_refl).
    assert (Hst : match (match fst (for_loop (Tek.guarded (AcquirePyvisa.capture scope))
                                    (seq 0 n) (mkSt (Tek.init_vars p) (world st0))) with
                         | Break => ABORTED InLoop
                         | Next => COMPLETE
                         end) with ABORTED InSetup => False | _ => True end).
    { destruct (fst _); exact I. }
    destruct (match fst _ with Break => ABORTED InLoop | Next => COMPLETE end)
      as [| [|]]; try contradiction.
    + splits; try reflexivity. exists (trace w).
      splits; [apply Hc; reflexivity | apply Hc; reflexivity |].
      cbn [trace add_call]. rewrite <- app_assoc. reflexivity.
    + splits; try reflexivity. exists (trace w).
      splits; [apply Hc; reflexivity | apply Hc; reflexivity |].
      cbn [trace add_call]. rewrite <- app_assoc. reflexivity.
  - rewrite (pyvisa_main_failed scope n e0 st0 Hcfg).
    destruct (tek_config_world scope (Raise e0) st0 Hcfg)
      as (_ & _ & _ & _ & rest & Hrest & _).
    cbn [final status].
    assert (Hc : forall c, existsb (call_eqb c) TekSummary.setup_calls = false ->
                           count_call c (trace (world st0)) = 0%nat).
    { intros c H2.
      apply (count_call_absent c TekSummary.setup_calls); [| exact H2].
      apply Forall_forall. intros x Hx. rewrite Hrest. apply in_or_app. left. exact Hx. }
    unfold closes. rewrite !count_after_call. cbn [call_eqb trace add_setup_error add_call].
    rewrite (Hc Close eq_refl), (Hc RmClose eq_refl).
    splits; try reflexivity. exists (trace (world st0)).
    splits; [apply Hc; reflexivity | apply Hc; reflexivity | reflexivity].
Qed.


(** X9. [acquire.py] and [acquire_pyvisa.py], order of the calls.  When the
    configuration succeeds, the session receives the twelve configuration
    calls in the order of the source, then only the four commands of the
    captures, then [close()]. *)
Theorem tek_call_order :
  forall (num : Numeric) (scope : Session) (disk : Disk) (n : nat) (p : Tek.Preamble)
         (st0 : St unit),
    Tek.configure scope (mkSt tt init_world) = (Ok p, st0) ->
    (exists ext,
        trace (final (Acquire.main scope disk n)) = TekSummary.setup_calls ++ ext ++ [Close] /\
        Forall (fun x => In x (Tek.TRIGGER :: Tek.fetch_calls)) ext) /\
    (exists ext,
        trace (final (AcquirePyvisa.main scope n))
        = TekSummary.setup_calls ++ ext ++ [Close; RmClose] /\
        Forall (fun x => In x (Tek.TRIGGER :: Tek.fetch_calls)) ext).
Proof.
  intros num scope disk n p st0 Hcfg. split.
  - rewrite (acquire_main_ok scope disk n p st0 Hcfg).
    destruct (tek_loop_trace scope true (Acquire.capture scope disk)
                (acquire_capture_ok scope disk) n p st0 Hcfg) as (ext & Ht & Hall).
    exists ext. cbv zeta. cbn [final trace add_call]. rewrite Ht, <- app_assoc.
    split; [reflexivity | exact Hall].
  - rewrite (pyvisa_main_ok scope n p st0 Hcfg).
    destruct (tek_loop_trace scope false (AcquirePyvisa.capture scope)
                (pyvisa_capture_ok scope) n p st0 Hcfg) as (ext & Ht & Hall).
    exists ext. cbv zeta. cbn [final trace add_call]. rewrite Ht, <- !app_assoc.
    split; [reflexivity | exact Hall].
Qed.

Lemma tek_call_order_witness :
  exists p st0,
    Tek.configure (num := Exact.numeric)
      (Stub.tek "4" Stub.never Stub.codes_block) (mkSt tt init_world) = (Ok p, st0) /\
    exists ext,
      trace (final (Acquire.main (num := Exact.numeric)
                      (Stub.tek "4" Stub.never Stub.codes_block) Stub.disk_ok 2))
      = TekSummary.setup_calls ++ ext ++ [Close].
Proof.
  destruct (Tek.configure (num := Exact.numeric)
              (Stub.tek "4" Stub.never Stub.codes_block) (mkSt tt init_world))
    as [[p | e] st0] eqn:H.
  - exists p, st0. split; [reflexivity |].
    destruct (tek_call_order Exact.numeric _ Stub.disk_ok 2 p st0 H) as ((ext & Ht & _) & _).
    exists ext. exact Ht.
  - exfalso.
    assert (Hok : is_ok (fst (Tek.configure (num := Exact.numeric)
                                (Stub.tek "4" Stub.never Stub.codes_block)
                                (mkSt tt init_world))) = true)
      by (vm_compute; reflexivity).
    rewrite H in Hok. discriminate Hok.
Defined.

(** ** The preamble *)

Section TekPreamble.
Context {num : Numeric}.
Variable scope : Session.
Import Tek TekSummary.

Variable saves : bool.
Variable body : nat -> M Vars unit.
Hypothesis body_ok :
  forall i st, body_summary saves i st (fst (body i st)) (snd (body i st)).

Lemma guarded_keeps_preamble (i : nat) (st : St Vars) :
  pre (vars (snd (guarded body i st))) = pre (vars st).
Proof.
  destruct (guarded_summary saves body body_ok i st)
    as (k & ext & errs & _ & _ & _ & Hpre & _).
  exact Hpre.
Qed.

Lemma tek_loop_starts (n : nat) (p : Preamble) (st0 : St unit) :
  configure scope (mkSt tt init_world) = (Ok p, st0) ->
  (0 < n)%nat ->
  (0 < attempts (world (snd (for_loop (guarded body) (seq 0 n)
                                      (mkSt (init_vars p) (world st0))))))%nat.
Proof.
  intros Hcfg Hn.
  pose proof (for_loop_summary saves body body_ok n 0 (mkSt (init_vars p) (world st0))) as Hl.
  destruct Hl as (k & ext & errs & Ht & _ & Hk & _ & _ & _ & _ & _ & Hpos & _).
  unfold attempts. rewrite Ht, count_call_app, Hk. specialize (Hpos Hn). lia.
Qed.

Lemma preamble_query_not_close (q x : call) :
  In q preamble_queries -> x = Close \/ x = RmClose -> call_eqb q x = false.
Proof.
  intros Hq [-> | ->];
    repeat (destruct Hq as [<- | Hq]; [reflexivity |]); destruct Hq.
Qed.

End TekPreamble.

(** X10. [acquire.py] and [acquire_pyvisa.py], preamble.  When the
    configuration succeeds, each of the six preamble queries is sent exactly
    once in the whole run, all of them before the first capture is
    triggered; every pass of the loop, failed or not, leaves the six preamble
    variables as they were, so the loop ends with the values the
    configuration read. *)
Theorem tek_preamble_read_once :
  forall (num : Numeric) (scope : Session) (disk : Disk) (n : nat) (p : Tek.Preamble)
         (st0 : St unit),
    Tek.configure scope (mkSt tt init_world) = (Ok p, st0) ->
    (forall q, In q Tek.preamble_queries ->
       count_call q (trace (final (Acquire.main scope disk n))) = 1%nat /\
       count_call q (trace (final (AcquirePyvisa.main scope n))) = 1%nat /\
       count_call q (trace (world st0)) = 1%nat) /\
    Tek.attempts (world st0) = 0%nat /\
    (forall i st,
       Tek.pre (vars (snd (Tek.guarded (Acquire.capture scope disk) i st))) = Tek.pre (vars st) /\
       Tek.pre (vars (snd (Tek.guarded (AcquirePyvisa.capture scope) i st)))
       = Tek.pre (vars st)) /\
    Tek.pre (vars (snd (Acquire.capture_loop scope disk n
                          (mkSt (Tek.init_vars p) (world st0))))) = p /\
    Tek.pre (vars (snd (AcquirePyvisa.capture_loop scope n
                          (mkSt (Tek.init_vars p) (world st0))))) = p.
Proof.
  intros num scope disk n p st0 Hcfg.
  destruct (tek_loop_from_config scope true (Acquire.capture scope disk)
              (acquire_capture_ok scope disk) n p st0 Hcfg)
    as (_ & _ & _ & _ & _ & _ & _ & Hq1 & _ & Ha & Hp1).
  destruct (tek_loop_from_config scope false (AcquirePyvisa.capture scope)
              (pyvisa_capture_ok scope) n p st0 Hcfg)
    as (_ & _ & _ & _ & _ & _ & _ & Hq2 & _ & _ & Hp2).
  cbv zeta in *.
  splits.
  - intros q Hq. splits.
    + rewrite (acquire_main_ok scope disk n p st0 Hcfg). cbv zeta. cbn [final].
      rewrite count_after_call, (preamble_query_not_close q Close Hq (or_introl eq_refl)).
      rewrite Nat.add_0_r. exact (Hq1 q Hq).
    + rewrite (pyvisa_main_ok scope n p st0 Hcfg). cbv zeta. cbn [final].
      rewrite !count_after_call,
        (preamble_query_not_close q Close Hq (or_introl eq_refl)),
        (preamble_query_not_close q RmClose Hq (or_intror eq_refl)).
      rewrite !Nat.add_0_r. exact (Hq2 q Hq).
    + destruct (tek_config_world scope (Ok p) st0 Hcfg) as (_ & _ & _ & _ & rest & Hr & ->).
      rewrite app_nil_r in Hr. rewrite <- Hr.
      repeat (destruct Hq as [<- | Hq]; [reflexivity |]). destruct Hq.
  - exact Ha.
  - intros i st. split.
    + apply (guarded_keeps_preamble true _ (acquire_capture_ok scope disk)).
    + apply (guarded_keeps_preamble false _ (pyvisa_capture_ok scope)).
  - exact Hp1.
  - exact Hp2.
Qed.

Lemma tek_preamble_read_once_witness :
  exists p st0,
    Tek.configure (num := Exact.numeric)
      (Stub.tek "4" Stub.never Stub.codes_block) (mkSt tt init_world) = (Ok p, st0) /\
    count_call (Ask "WFMPRE:YMULT?")
      (trace (final (Acquire.main (num := Exact.numeric)
                       (Stub.tek "4" Stub.never Stub.codes_block) Stub.disk_ok 3))) = 1%nat.
Proof.
  destruct (Tek.configure (num := Exact.numeric)
              (Stub.tek "4" Stub.never Stub.codes_block) (mkSt tt init_world))
    as [[p | e] st0] eqn:H.
  - exists p, st0. split; [reflexivity |].
    destruct (tek_preamble_read_once Exact.numeric _ Stub.disk_ok 3 p st0 H) as (Hq & _).
    apply (Hq (Ask "WFMPRE:YMULT?")). cbn. tauto.
  - exfalso.
    assert (Hok : is_ok (fst (Tek.configure (num := Exact.numeric)
                                (Stub.tek "4" Stub.never Stub.codes_block)
                                (mkSt tt init_world))) = true)
      by (vm_compute; reflexivity).
    rewrite H in Hok. discriminate Hok.
Defined.

Section TekValues.
Context {num : Numeric}.
Variable scope : Session.
Variable replies : string -> string.
Hypothesis writes_ok : forall h c, on_write scope h c = Ok tt.
Hypothesis asks_ok : forall h c, on_ask scope h c = Ok (replies c).

Lemma configure_takes_values (st : St unit) (np : Z) (xi xo ym yo yz : F64) :
  py_int (replies "WFMPRE:NR_PT?") = Ok np ->
  py_float (replies "WFMPRE:XINCR?") = Ok xi ->
  py_float (replies "WFMPRE:XZERO?") = Ok xo ->
  py_float (replies "WFMPRE:YMULT?") = Ok ym ->
  py_float (replies "WFMPRE:YOFF?") = Ok yo ->
  py_float (replies "WFMPRE:YZERO?") = Ok yz ->
  fst (Tek.configure scope st)
  = Ok {| Tek.num_points := np; Tek.x_increment := xi; Tek.x_origin := xo;
          Tek.y_multiplier := ym; Tek.y_offset := yo; Tek.y_zero := yz |}.
Proof.
  intros H1 H2 H3 H4 H5 H6.
  change (post (Tek.configure scope) st
            (fun r _ => r = Ok {| Tek.num_points := np; Tek.x_increment := xi;
                                  Tek.x_origin := xo; Tek.y_multiplier := ym;
                                  Tek.y_offset := yo; Tek.y_zero := yz |})).
  unfold Tek.configure. script_run.
  all: repeat match goal with
         | H : _ = on_write scope _ _ |- _ => rewrite writes_ok in H
         | H : _ = on_ask scope _ _ |- _ => rewrite asks_ok in H; inversion H; subst; clear H
         end; try discriminate; try congruence.
Qed.

End TekValues.

(** X11. [acquire.py] and [acquire_pyvisa.py], lines 61-66 and 83-88: the
    preamble is not validated.  With an instrument that accepts every write
    and answers every query, whenever [int] and [float] convert the six
    replies, the configuration succeeds with exactly the converted values in
    the six variables, whatever they are (a record length of zero or below, a
    non-finite float), the run is not aborted in setup, and with at least one
    capture requested a capture is attempted. *)
Theorem tek_preamble_taken_as_is :
  forall (num : Numeric) (scope : Session) (disk : Disk) (replies : string -> string) (n : nat)
         (np : Z) (xi xo ym yo yz : F64),
    (forall h c, on_write scope h c = Ok tt) ->
    (forall h c, on_ask scope h c = Ok (replies c)) ->
    py_int (replies "WFMPRE:NR_PT?") = Ok np ->
    py_float (replies "WFMPRE:XINCR?") = Ok xi ->
    py_float (replies "WFMPRE:XZERO?") = Ok xo ->
    py_float (replies "WFMPRE:YMULT?") = Ok ym ->
    py_float (replies "WFMPRE:YOFF?") = Ok yo ->
    py_float (replies "WFMPRE:YZERO?") = Ok yz ->
    fst (Tek.configure scope (mkSt tt init_world))
    = Ok {| Tek.num_points := np; Tek.x_increment := xi; Tek.x_origin := xo;
            Tek.y_multiplier := ym; Tek.y_offset := yo; Tek.y_zero := yz |} /\
    status (Acquire.main scope disk n) <> ABORTED InSetup /\
    status (AcquirePyvisa.main scope n) <> ABORTED InSetup /\
    ((0 < n)%nat ->
     (0 < Tek.attempts (final (Acquire.main scope disk n)))%nat /\
     (0 < Tek.attempts (final (AcquirePyvisa.main scope n)))%nat).
Proof.
  intros num scope disk replies n np xi xo ym yo yz Hw Ha H1 H2 H3 H4 H5 H6.
  pose proof (configure_takes_values scope replies Hw Ha (mkSt tt init_world)
                np xi xo ym yo yz H1 H2 H3 H4 H5 H6) as Hc.
  destruct (Tek.configure scope (mkSt tt init_world)) as [r st0] eqn:Hcfg.
  cbn [fst] in Hc. subst r.
  split; [reflexivity |].
  rewrite (acquire_main_ok scope disk n _ st0 Hcfg), (pyvisa_main_ok scope n _ st0 Hcfg).
  cbv zeta. cbn [status final].
  splits.
  - destruct (fst _); discriminate.
  - destruct (fst _); discriminate.
  - intros Hn. unfold Tek.attempts. rewrite !count_after_call. cbn [call_eqb].
    rewrite !Nat.add_0_r. split.
    + apply (tek_loop_starts scope true _ (acquire_capture_ok scope disk) n _ st0 Hcfg Hn).
    + apply (tek_loop_starts scope false _ (pyvisa_capture_ok scope) n _ st0 Hcfg Hn).
Qed.

(** A record length of 0 and a negative time increment. *)
Lemma tek_preamble_taken_as_is_witness :
  let replies := fun cmd : string =>
                   if (cmd =? "WFMPRE:NR_PT?")%string then "0"%string
                   else if (cmd =? "WFMPRE:XINCR?")%string then "-1e-9"%string
                   else "1"%string in
  let scope := {| on_write := fun _ _ => Ok tt;
                  on_ask := fun _ cmd => Ok (replies cmd);
                  on_read_raw := fun _ => Ok Stub.codes_block |} in
  py_int (Numeric := Exact.numeric) (replies "WFMPRE:NR_PT?"%string) = Ok 0 /\
  py_float (Numeric := Exact.numeric) (replies "WFMPRE:XINCR?"%string)
  = Ok (Qred (-1e-9)%Q) /\
  status (Acquire.main (num := Exact.numeric) scope Stub.disk_ok 5) <> ABORTED InSetup /\
  (0 < Tek.attempts (final (Acquire.main (num := Exact.numeric) scope Stub.disk_ok 5)))%nat.
Proof.
  intros replies scope.
  assert (H1 : py_int (Numeric := Exact.numeric) (replies "WFMPRE:NR_PT?"%string) = Ok 0)
    by (vm_compute; reflexivity).
  assert (H2 : py_float (Numeric := Exact.numeric) (replies "WFMPRE:XINCR?"%string)
               = Ok (Qred (-1e-9)%Q)) by (vm_compute; reflexivity).
  assert (H3 : forall c, c <> "WFMPRE:NR_PT?"%string -> c <> "WFMPRE:XINCR?"%string ->
                         py_float (Numeric := Exact.numeric) (replies c) = Ok 1%Q).
  { intros c Ha Hb. unfold replies.
    apply String.eqb_neq in Ha. apply String.eqb_neq in Hb. rewrite Ha, Hb.
    vm_compute. reflexivity. }
  destruct (tek_preamble_taken_as_is Exact.numeric scope Stub.disk_ok replies 5 0
              (Qred (-1e-9)%Q) 1%Q 1%Q 1%Q 1%Q
              (fun _ _ => eq_refl) (fun _ _ => eq_refl) H1 H2
              (H3 "WFMPRE:XZERO?"%string ltac:(discriminate) ltac:(discriminate))
              (H3 "WFMPRE:YMULT?"%string ltac:(discriminate) ltac:(discriminate))
              (H3 "WFMPRE:YOFF?"%string ltac:(discriminate) ltac:(discriminate))
              (H3 "WFMPRE:YZERO?"%string ltac:(discriminate) ltac:(discriminate)))
    as (_ & Hs & _ & Hn).
  split; [exact H1 |]. split; [exact H2 |]. split; [exact Hs |].
  exact (proj1 (Hn ltac:(lia))).
Defined.

(** ** Runs of the Agilent script *)

Section AgWorld.
Context {num : Numeric}.
Variable scope : Session.
Variable disk : Disk.
Import AcquireAg AgSummary.

(** The setup touches neither the timer nor the sinks nor the setup log. *)
Lemma ag_setup_quiet (st : St unit) :
  post (setup scope) st
       (fun _ st' => timer_active (world st') = timer_active (world st) /\
                     setup_errors (world st') = setup_errors (world st) /\
                     plotted (world st') = plotted (world st) /\
                     saved (world st') = saved (world st)).
Proof. unfold setup. script_run. all: splits; reflexivity. Qed.

Lemma ag_capture_decimated (st : St Vars) :
  post (capture scope disk) st
       (fun _ st' => decimated (world st) -> decimated (world st')).
Proof.
  unfold capture, process. script_run.
  all: try (destruct (S (i _) mod PLOT_EVERY_N_FRAMES =? 0)%nat eqn:E; script_run).
  all: unfold decimated;
    cbn [world plotted saved add_call add_file add_plot vars]; intros Hd; try exact Hd.
  - rewrite filter_app, Hd. cbn [filter fst]. cbn [set_times set_voltages set_raw_waveform
      set_waveform_bytes i] in E |- *. rewrite E. reflexivity.
  - rewrite filter_app, Hd. cbn [filter fst]. cbn [set_times set_voltages set_raw_waveform
      set_waveform_bytes i] in E |- *. rewrite E. symmetry. apply app_nil_r.
Qed.

Lemma ag_update_decimated (n : nat) (st : St Vars) :
  decimated (world st) -> decimated (world (snd (update scope disk n st))).
Proof.
  intros H. destruct (Nat.le_gt_cases n (i (vars st))) as [Hle | Hgt].
  - destruct (update_done scope disk n st Hle) as [(_ & ->) | (e & _ & ->)]; exact H.
  - rewrite (update_capture scope disk n st Hgt).
    pose proof (ag_capture_decimated st) as Hc. unfold post in Hc.
    destruct (capture scope disk st) as [[[] | e] st1]; cbn [fst snd] in *.
    + exact (Hc H).
    + exact (Hc H).
Qed.

Lemma ag_exec_decimated (fuel n : nat) (st : St Vars) :
  decimated (world st) -> decimated (world (exec_ scope disk fuel n st)).
Proof.
  revert st. induction fuel as [| fuel IH]; intros st H; [exact H |].
  cbn [exec_]. destruct (timer_active (world st)); [| exact H].
  pose proof (ag_update_decimated n st H) as Hu.
  destruct (update scope disk n st) as [[[] | e] st1]; cbn [snd] in Hu; apply IH; exact Hu.
Qed.

(** Once the timer is stopped more timeouts change nothing. *)
Lemma exec_more (fuel extra n : nat) (st : St Vars) :
  timer_active (world (exec_ scope disk fuel n st)) = false ->
  exec_ scope disk (fuel + extra) n st = exec_ scope disk fuel n st.
Proof.
  revert st. induction fuel as [| fuel IH]; intros st H.
  - cbn in H |- *. apply exec_idle. exact H.
  - cbn [exec_ Nat.add] in H |- *. destruct (timer_active (world st)); [| reflexivity].
    destruct (update scope disk n st) as [[[] | e] st1]; apply IH; exact H.
Qed.

End AgWorld.

(** X12. [acquire_ag.py], whole run after a successful setup.  The timer ends
    stopped and the session is closed at most once.  Either no capture
    failed: then all [n] captures were attempted and saved and the run is
    COMPLETE; or exactly one capture failed: it is the last one attempted,
    the captures before it were saved, the session was closed once and the
    run is ABORTED in the loop. *)
Theorem ag_run_outcome :
  forall (num : Numeric) (scope : Session) (disk : Disk) (n : nat) (p : AcquireAg.Preamble)
         (st0 : St unit),
    AcquireAg.setup scope (mkSt tt init_world) = (Ok p, st0) ->
    let r := AcquireAg.main scope disk n in
    timer_active (final r) = false /\
    (closes (final r) <= 1)%nat /\
    ((status r = COMPLETE /\ errors (final r) = [] /\
      AcquireAg.attempts (final r) = n /\ length (saved (final r)) = n)
     \/
     (status r = ABORTED InLoop /\ closes (final r) = 1%nat /\
      (1 <= AcquireAg.attempts (final r) <= n)%nat /\
      (length (saved (final r)) + 1 = AcquireAg.attempts (final r))%nat /\
      exists e, errors (final r) = [(AcquireAg.attempts (final r), e)])).
Proof.
  intros num scope disk n p st0 Hs r.
  destruct (ag_run_facts scope disk n p st0 Hs) as (Htm & _ & Hcl & Hcases).
  fold r in Htm, Hcl, Hcases.
  split; [exact Htm |]. split; [exact Hcl |].
  destruct Hcases as [(H1 & H2 & H3 & H4 & _) | H]; [left | right; exact H].
  splits; assumption.
Qed.

Lemma ag_run_outcome_witness :
  exists p st0,
    AcquireAg.setup (num := Exact.numeric)
      (Stub.ag Stub.never None Stub.codes_block) (mkSt tt init_world) = (Ok p, st0) /\
    timer_active (final (AcquireAg.main (num := Exact.numeric)
                           (Stub.ag Stub.never None Stub.codes_block) Stub.disk_ok 7)) = false.
Proof.
  destruct (AcquireAg.setup (num := Exact.numeric)
              (Stub.ag Stub.never None Stub.codes_block) (mkSt tt init_world))
    as [[p | e] st0] eqn:H.
  - exists p, st0. split; [reflexivity |].
    exact (proj1 (ag_run_outcome Exact.numeric _ Stub.disk_ok 7 p st0 H)).
  - exfalso.
    assert (Hok : is_ok (fst (AcquireAg.setup (num := Exact.numeric)
                                (Stub.ag Stub.never None Stub.codes_block)
                                (mkSt tt init_world))) = true)
      by (vm_compute; reflexivity).
    rewrite H in Hok. discriminate Hok.
Defined.

(** X13. [acquire_ag.py], completion branch of [update] (lines 94-101).
    After a successful setup: when the closing [:RUN] command is accepted the
    session is closed exactly once, however the run ends; when that command
    raises and no capture failed, [update] is left before [scope.close()]:
    the session is never closed and the exception leaves the callback. *)
Theorem ag_close_depends_on_run_command :
  forall (num : Numeric) (scope : Session) (disk : Disk) (n : nat) (p : AcquireAg.Preamble)
         (st0 : St unit),
    AcquireAg.setup scope (mkSt tt init_world) = (Ok p, st0) ->
    let r := AcquireAg.main scope disk n in
    ((forall h, on_write scope h ":RUN" = Ok tt) -> closes (final r) = 1%nat) /\
    ((forall h, on_write scope h ":RUN" <> Ok tt) -> status r = COMPLETE ->
     closes (final r) = 0%nat /\ exists e, uncaught (final r) = [e]).
Proof.
  intros num scope disk n p st0 Hs r.
  destruct (ag_run_facts scope disk n p st0 Hs) as (_ & _ & _ & Hcases).
  fold r in Hcases. split.
  - intros Hrun.
    destruct Hcases as [(_ & _ & _ & _ & [(Hc & _) | (_ & h & e & Hh & _)])
                       | (_ & Hc & _)].
    + exact Hc.
    + rewrite Hrun in Hh. discriminate Hh.
    + exact Hc.
  - intros Hrun Hst.
    destruct Hcases as [(_ & _ & _ & _ & [(_ & _ & h & Hh) | (Hc & h & e & _ & Hu)])
                       | (Hab & _)].
    + destruct (Hrun h Hh).
    + split; [exact Hc | exists e; exact Hu].
    + rewrite Hst in Hab. discriminate Hab.
Qed.

(** Five good captures, then [:RUN] is refused. *)
Lemma ag_close_depends_on_run_command_witness :
  let scope := Stub.ag Stub.never (Some Stub.TransportError) Stub.codes_block in
  (forall h, on_write scope h ":RUN" <> Ok tt) /\
  status (AcquireAg.main (num := Exact.numeric) scope Stub.disk_ok 5) = COMPLETE /\
  closes (final (AcquireAg.main (num := Exact.numeric) scope Stub.disk_ok 5)) = 0%nat.
Proof.
  intros scope.
  assert (Hrun : forall h, on_write scope h ":RUN" <> Ok tt) by (intros h; discriminate).
  assert (Hst : status (AcquireAg.main (num := Exact.numeric) scope Stub.disk_ok 5) = COMPLETE)
    by (vm_compute; reflexivity).
  split; [exact Hrun |]. split; [exact Hst |].
  destruct (AcquireAg.setup (num := Exact.numeric) scope (mkSt tt init_world))
    as [[p | e] st0] eqn:H.
  - exact (proj1 (proj2 (ag_close_depends_on_run_command Exact.numeric scope Stub.disk_ok 5 p st0 H)
                        Hrun Hst)).
  - exfalso.
    assert (Hok : is_ok (fst (AcquireAg.setup (num := Exact.numeric) scope
                                (mkSt tt init_world))) = true)
      by (vm_compute; reflexivity).
    rewrite H in Hok. discriminate Hok.
Defined.

Lemma ag_setup_failed_status {num : Numeric} (scope : Session) (disk : Disk) (n : nat)
      (e : exn) (st0 : St unit) :
  AcquireAg.setup scope (mkSt tt init_world) = (Raise e, st0) ->
  status (AcquireAg.main scope disk n) = ABORTED InSetup /\
  setup_errors (final (AcquireAg.main scope disk n)) = [e] /\
  closes (final (AcquireAg.main scope disk n)) = 0%nat /\
  AcquireAg.attempts (final (AcquireAg.main scope disk n)) = 0%nat.
Proof.
  intros Hs. destruct (ag_main_failed scope disk n e st0 Hs) as (-> & Ha & Hc & _).
  pose proof (ag_setup_quiet scope (mkSt tt init_world)) as Hq. unfold post in Hq.
  rewrite Hs in Hq. cbn [fst snd world] in Hq. destruct Hq as (_ & Hse & _).
  cbn [status final]. unfold closes, AcquireAg.attempts in *.
  cbn [trace setup_errors add_setup_error]. rewrite Hse.
  splits; try reflexivity; assumption.
Qed.

(** X14. [acquire_ag.py], setup handler (lines 82-84).  When a call or a
    conversion of the setup raises, the exception is logged and the script
    exits: the run is ABORTED in setup, the timer is never started, no
    capture is attempted, nothing is published, and the session is not
    closed. *)
Theorem ag_setup_failure :
  forall (num : Numeric) (scope : Session) (disk : Disk) (n : nat) (e : exn) (st0 : St unit),
    AcquireAg.setup scope (mkSt tt init_world) = (Raise e, st0) ->
    let r := AcquireAg.main scope disk n in
    status r = ABORTED InSetup /\
    setup_errors (final r) = [e] /\
    closes (final r) = 0%nat /\
    AcquireAg.attempts (final r) = 0%nat /\
    timer_active (final r) = false /\
    plotted (final r) = [] /\ saved (final r) = [] /\
    exists rest, AgSummary.setup_calls = trace (final r) ++ rest.
Proof.
  intros num scope disk n e st0 Hs r. subst r.
  destruct (ag_main_failed scope disk n e st0 Hs) as (-> & Ha & Hc & _).
  pose proof (ag_setup_quiet scope (mkSt tt init_world)) as Hq. unfold post in Hq.
  pose proof (ag_setup_ok scope (mkSt tt init_world)) as Hsum.
  rewrite Hs in Hq, Hsum. cbn [fst snd world] in Hq, Hsum.
  destruct Hq as (Ht & Hse & Hp & Hsv).
  destruct Hsum as (ext & Htr & _ & _ & _ & rest & Hrest). cbn in Htr.
  cbn [status final]. unfold closes, AcquireAg.attempts in *.
  cbn [trace setup_errors timer_active plotted saved add_setup_error].
  rewrite Hse, Ht, Hp, Hsv.
  splits; try reflexivity; try assumption.
  exists rest. rewrite Htr. exact Hrest.
Qed.

(** The instrument does not answer the identification query. *)
Lemma ag_setup_failure_witness :
  let scope := {| on_write := fun _ _ => Ok tt;
                  on_ask := fun _ _ => Raise Stub.TimeoutError;
                  on_read_raw := fun _ => Ok Stub.codes_block |} in
  exists st0,
    AcquireAg.setup (num := Exact.numeric) scope (mkSt tt init_world)
    = (Raise Stub.TimeoutError, st0) /\
    closes (final (AcquireAg.main (num := Exact.numeric) scope Stub.disk_ok 5)) = 0%nat.
Proof.
  intros scope. eexists. split; [reflexivity |].
  exact (proj1 (proj2 (proj2 (ag_setup_failure Exact.numeric scope Stub.disk_ok 5 _ _ eq_refl)))).
Defined.

(** X15. [acquire_ag.py], the timer.  From any state in which the timer runs
    and at most [n] captures are counted, the callback stops the timer after
    at most [n - i + 1] timeouts, and timeouts beyond that number find the
    timer stopped and change nothing. *)
Theorem ag_timer_stops :
  forall (num : Numeric) (scope : Session) (disk : Disk) (n extra : nat) (st : St AcquireAg.Vars),
    timer_active (world st) = true ->
    (AcquireAg.i (vars st) <= n)%nat ->
    let fuel := S (n - AcquireAg.i (vars st)) in
    timer_active (world (AcquireAg.exec_ scope disk fuel n st)) = false /\
    AcquireAg.exec_ scope disk (fuel + extra) n st = AcquireAg.exec_ scope disk fuel n st.
Proof.
  intros num scope disk n extra st Ht Hi fuel.
  assert (Hstop : timer_active (world (AcquireAg.exec_ scope disk fuel n st)) = false).
  { destruct (exec_ok scope disk fuel n (AcquireAg.i (vars st)) st Ht eq_refl Hi)
      as (H & _); [unfold fuel; lia | exact H]. }
  split; [exact Hstop | apply exec_more; exact Hstop].
Qed.

Lemma ag_timer_stops_witness :
  let st := mkSt (AcquireAg.init_vars Scenario.ag_preamble) (set_timer true init_world) in
  timer_active (world st) = true /\
  (AcquireAg.i (vars st) <= 3)%nat /\
  timer_active (world (AcquireAg.exec_ (Stub.ag Stub.never None Stub.codes_block) Stub.disk_ok
                         4 3 st)) = false.
Proof.
  intros st. split; [reflexivity |]. split; [cbn; lia |].
  exact (proj1 (ag_timer_stops Exact.numeric (Stub.ag Stub.never None Stub.codes_block)
                  Stub.disk_ok
                  3 0 st eq_refl ltac:(cbn; lia))).
Defined.

(** X16. [acquire_ag.py], lines 122-129.  In every run the plotted captures
    are exactly the saved captures whose number is a multiple of
    [PLOT_EVERY_N_FRAMES], in the same order and with the same arrays. *)
Theorem ag_plots_every_fifth_capture :
  forall (num : Numeric) (scope : Session) (disk : Disk) (n : nat),
    plotted (final (AcquireAg.main scope disk n))
    = filter (fun kc => (fst kc mod AcquireAg.PLOT_EVERY_N_FRAMES =? 0)%nat)
             (saved (final (AcquireAg.main scope disk n))).
Proof.
  intros num scope disk n.
  pose proof (ag_setup_quiet scope (mkSt tt init_world)) as Hq. unfold post in Hq.
  unfold AcquireAg.main.
  destruct (AcquireAg.setup scope (mkSt tt init_world)) as [[p | e] st0];
    cbn [fst snd world] in Hq; destruct Hq as (_ & _ & Hp & Hsv);
    cbn [plotted saved init_world] in Hp, Hsv; cbn [final].
  - apply (ag_exec_decimated scope disk). unfold decimated. cbn [world plotted saved set_timer].
    rewrite Hp, Hsv. reflexivity.
  - cbn [plotted saved add_setup_error]. rewrite Hp, Hsv. reflexivity.
Qed.

(** ** The preamble of the Agilent script *)

Section AgValues.
Context {num : Numeric}.
Variable scope : Session.
Variable replies : string -> string.
Hypothesis writes_ok : forall h c, on_write scope h c = Ok tt.
Hypothesis asks_ok : forall h c, on_ask scope h c = Ok (replies c).

Lemma ag_setup_takes_values (st : St unit) (s4 s5 s7 s8 s9 : string)
      (xi xo yi yo f9 : F64) :
  let fields := split_on "," (replies ":WAVEFORM:PREAMBLE?") in
  nth_error fields 4 = Some s4 -> nth_error fields 5 = Some s5 ->
  nth_error fields 7 = Some s7 -> nth_error fields 8 = Some s8 ->
  nth_error fields 9 = Some s9 ->
  py_float s4 = Ok xi -> py_float s5 = Ok xo -> py_float s7 = Ok yi ->
  py_float s8 = Ok yo -> py_float s9 = Ok f9 ->
  fst (AcquireAg.setup scope st)
  = match int_of_float f9 with
    | Ok yr => Ok {| AcquireAg.x_increment := xi; AcquireAg.x_origin := xo;
                     AcquireAg.y_increment := yi; AcquireAg.y_origin := yo;
                     AcquireAg.y_reference := yr |}
    | Raise e => Raise e
    end.
Proof.
  intros fields. subst fields. intros N4 N5 N7 N8 N9 H4 H5 H7 H8 H9.
  change (post (AcquireAg.setup scope) st
            (fun r _ => r = match int_of_float f9 with
                            | Ok yr => Ok {| AcquireAg.x_increment := xi;
                                             AcquireAg.x_origin := xo;
                                             AcquireAg.y_increment := yi;
                                             AcquireAg.y_origin := yo;
                                             AcquireAg.y_reference := yr |}
                            | Raise e => Raise e
                            end)).
  unfold AcquireAg.setup. script_run.
  all: repeat match goal with
         | H : _ = on_write scope _ _ |- _ => rewrite writes_ok in H
         | H : _ = on_ask scope _ _ |- _ =>
             rewrite asks_ok in H; inversion H; subst; clear H
         end; try discriminate.
  all: unfold list_getitem, index in *.
  all: rewrite ?N4, ?N5, ?N7, ?N8, ?N9 in *.
  all: repeat match goal with
         | H : Ok _ = Ok _ |- _ => inversion H; subst; clear H
         | H : Raise _ = Ok _ |- _ => discriminate H
         | H : Ok _ = Raise _ |- _ => discriminate H
         end.
  all: try congruence.
  all: repeat match goal with
         | H : py_float ?s = _, H' : py_float ?s = _ |- _ =>
             rewrite H in H'; inversion H'; subst; clear H'
         end; try congruence.
  all: match goal with H : int_of_float _ = _ |- _ => rewrite H end; reflexivity.
Qed.

End AgValues.

(** X17. [acquire_ag.py], lines 71-79: which fields are read, and what is
    checked.  With an instrument that accepts every write and answers every
    query, when fields 4, 5, 7, 8 and 9 of the comma-separated preamble reply
    exist and [float] converts them, fields 4, 5, 7 and 8 become
    [x_increment], [x_origin], [y_increment] and [y_origin] whatever their
    values, and the setup succeeds exactly when [int] accepts the float of
    field 9, which becomes [y_reference]; when [int] raises (a non-finite
    value), the run is ABORTED in setup with that exception. *)
Theorem ag_preamble_fields :
  forall (num : Numeric) (scope : Session) (disk : Disk) (replies : string -> string) (n : nat)
         (s4 s5 s7 s8 s9 : string) (xi xo yi yo f9 : F64),
    (forall h c, on_write scope h c = Ok tt) ->
    (forall h c, on_ask scope h c = Ok (replies c)) ->
    let fields := split_on "," (replies ":WAVEFORM:PREAMBLE?") in
    nth_error fields 4 = Some s4 -> nth_error fields 5 = Some s5 ->
    nth_error fields 7 = Some s7 -> nth_error fields 8 = Some s8 ->
    nth_error fields 9 = Some s9 ->
    py_float s4 = Ok xi -> py_float s5 = Ok xo -> py_float s7 = Ok yi ->
    py_float s8 = Ok yo -> py_float s9 = Ok f9 ->
    (forall yr, int_of_float f9 = Ok yr ->
       fst (AcquireAg.setup scope (mkSt tt init_world))
       = Ok {| AcquireAg.x_increment := xi; AcquireAg.x_origin := xo;
               AcquireAg.y_increment := yi; AcquireAg.y_origin := yo;
               AcquireAg.y_reference := yr |} /\
       status (AcquireAg.main scope disk n) <> ABORTED InSetup) /\
    (forall e, int_of_float f9 = Raise e ->
       fst (AcquireAg.setup scope (mkSt tt init_world)) = Raise e /\
       status (AcquireAg.main scope disk n) = ABORTED InSetup /\
       setup_errors (final (AcquireAg.main scope disk n)) = [e]).
Proof.
  intros num scope disk replies n s4 s5 s7 s8 s9 xi xo yi yo f9 Hw Ha fields
         N4 N5 N7 N8 N9 H4 H5 H7 H8 H9.
  pose proof (ag_setup_takes_values scope replies Hw Ha (mkSt tt init_world)
                s4 s5 s7 s8 s9 xi xo yi yo f9 N4 N5 N7 N8 N9 H4 H5 H7 H8 H9) as Hs.
  split.
  - intros yr Hyr. rewrite Hyr in Hs. split; [exact Hs |].
    destruct (AcquireAg.setup scope (mkSt tt init_world)) as [r st0] eqn:E.
    cbn [fst] in Hs. subst r.
    destruct (ag_main_ok scope disk n _ st0 E) as (-> & _). cbn [status].
    destruct (errors _); discriminate.
  - intros e He. rewrite He in Hs. split; [exact Hs |].
    destruct (AcquireAg.setup scope (mkSt tt init_world)) as [r st0] eqn:E.
    cbn [fst] in Hs. subst r.
    destruct (ag_setup_failed_status scope disk n e st0 E) as (H1 & H2 & _).
    split; assumption.
Qed.

Lemma ag_preamble_fields_witness :
  let replies := fun cmd : string =>
                   if (cmd =? ":WAVEFORM:PREAMBLE?")%string
                   then "0,0,1000,1,-2e-9,0,0,0.01,0.5,-3.7"%string
                   else "x"%string in
  let scope := {| on_write := fun _ _ => Ok tt;
                  on_ask := fun _ cmd => Ok (replies cmd);
                  on_read_raw := fun _ => Ok Stub.codes_block |} in
  nth_error (split_on "," (replies ":WAVEFORM:PREAMBLE?")) 9 = Some "-3.7"%string /\
  int_of_float (Numeric := Exact.numeric) (Qred (-3.7)%Q) = Ok (-3) /\
  fst (AcquireAg.setup (num := Exact.numeric) scope (mkSt tt init_world))
  = Ok (@AcquireAg.Build_Preamble Exact.numeric (Qred (-2e-9)%Q) 0%Q (Qred 0.01%Q)
          (Qred 0.5%Q) (-3)).
Proof.
  intros replies scope.
  split; [vm_compute; reflexivity |]. split; [vm_compute; reflexivity |].
  refine (proj1 (proj1 (ag_preamble_fields Exact.numeric scope Stub.disk_ok replies 1
                          "-2e-9"%string "0"%string "0.01"%string "0.5"%string
                          "-3.7"%string
                          (Qred (-2e-9)%Q) 0%Q (Qred 0.01%Q) (Qred 0.5%Q) (Qred (-3.7)%Q)
                          (fun _ _ => eq_refl) (fun _ _ => eq_refl)
                          _ _ _ _ _ _ _ _ _ _) (-3) _));
    vm_compute; reflexivity.
Defined.

(** X18. [acquire_ag.py], lines 71-79: a short preamble.  When every reply to
    the preamble query has fewer than ten comma-separated fields, the setup
    raises, the run is ABORTED in setup and no capture is attempted. *)
Theorem ag_short_preamble :
  forall (num : Numeric) (scope : Session) (disk : Disk) (n : nat),
    (forall h reply, on_ask scope h ":WAVEFORM:PREAMBLE?" = Ok reply ->
                     (length (split_on "," reply) < 10)%nat) ->
    status (AcquireAg.main scope disk n) = ABORTED InSetup /\
    AcquireAg.attempts (final (AcquireAg.main scope disk n)) = 0%nat /\
    closes (final (AcquireAg.main scope disk n)) = 0%nat.
Proof.
  intros num scope disk n Hshort.
  assert (Hfail : post (AcquireAg.setup scope) (mkSt tt init_world)
                       (fun r _ => is_ok r = false)).
  { unfold AcquireAg.setup. script_run. all: try reflexivity.
    exfalso.
    match goal with
    | H : Ok ?a = on_ask scope _ ":WAVEFORM:PREAMBLE?" |- _ =>
        symmetry in H; apply Hshort in H;
        match goal with
        | G : list_getitem (split_on "," a) 9 = Ok _ |- _ =>
            unfold list_getitem, index in G;
            destruct (nth_error (split_on "," a) 9) eqn:En; [| discriminate G];
            apply nth_error_in_range in En; lia
        end
    end. }
  unfold post in Hfail.
  destruct (AcquireAg.setup scope (mkSt tt init_world)) as [[p | e] st0] eqn:E;
    cbn [fst is_ok] in Hfail; [discriminate Hfail |].
  destruct (ag_setup_failed_status scope disk n e st0 E) as (H1 & _ & H3 & H4).
  splits; assumption.
Qed.

Lemma ag_short_preamble_witness :
  let scope := {| on_write := fun _ _ => Ok tt;
                  on_ask := fun _ _ => Ok "1,2,3"%string;
                  on_read_raw := fun _ => Ok Stub.codes_block |} in
  (forall h reply, on_ask scope h ":WAVEFORM:PREAMBLE?" = Ok reply ->
                   (length (split_on "," reply) < 10)%nat) /\
  status (AcquireAg.main (num := Exact.numeric) scope Stub.disk_ok 5) = ABORTED InSetup.
Proof.
  intros scope.
  assert (H : forall h reply, on_ask scope h ":WAVEFORM:PREAMBLE?" = Ok reply ->
                              (length (split_on "," reply) < 10)%nat).
  { intros h reply E. inversion E. cbn. lia. }
  split; [exact H |].
  exact (proj1 (ag_short_preamble Exact.numeric scope Stub.disk_ok 5 H)).
Defined.

(** ** Edge cases of the decoders *)

Lemma bytes_eqb_eq (a b : bytes) : bytes_eqb a b = true <-> a = b.
Proof.
  revert b. induction a as [| x a IH]; intros [| y b]; cbn; split; intros H;
    try reflexivity; try discriminate.
  - apply andb_true_iff in H. destruct H as (H1 & H2).
    apply Byte.byte_dec_bl in H1. apply IH in H2. subst. reflexivity.
  - inversion H; subst. rewrite byte_eqb_refl. cbn. apply IH. reflexivity.
Qed.

Lemma slice_head_nil {A : Type} : slice (Some 0) (Some 1) (@nil A) = [].
Proof. reflexivity. Qed.

Lemma slice_drop_ends {A : Type} (l : list A) (h : Z) :
  0 <= h ->
  slice (Some h) (Some (-1)) l
  = firstn (length l - 1 - Z.to_nat h) (skipn (Z.to_nat h) l).
Proof.
  intros Hh. unfold slice.
  destruct l as [| x l].
  - rewrite !skipn_nil, !firstn_nil. reflexivity.
  - set (n := length (x :: l)). assert (1 <= n)%nat by (subst n; cbn; lia).
    rewrite (clamp_from_end (Z.of_nat n) (-1)) by lia.
    destruct (Z.le_gt_cases h (Z.of_nat n)) as [Hle | Hgt].
    + rewrite clamp_inside by lia. f_equal. lia.
    + rewrite clamp_above by lia. rewrite Nat2Z.id.
      rewrite !skipn_all2 by lia. rewrite !firstn_nil. reflexivity.
Qed.

(** X19. [acquire_pyvisa.py], lines 134-139: a block that does not start
    with the marker is left as it is, the empty block included, and its bytes
    are all taken as samples. *)
Theorem strip_without_marker :
  forall b : bytes,
    (forall rest, b <> HASH :: rest) ->
    strip_tek_header b = Ok b /\
    AcquirePyvisa.decode (Z.of_nat (length b)) b = Ok (frombuffer_int8 b).
Proof.
  intros b Hb.
  assert (Hs : strip_tek_header b = Ok b).
  { unfold strip_tek_header.
    destruct (bytes_eqb (slice (Some 0) (Some 1) b) [HASH]) eqn:E; [| reflexivity].
    exfalso. apply bytes_eqb_eq in E. destruct b as [| x rest].
    - discriminate E.
    - rewrite slice_head in E. inversion E. subst x. exact (Hb rest eq_refl). }
  split; [exact Hs |].
  unfold AcquirePyvisa.decode. rewrite Hs. f_equal. unfold reconcile, frombuffer_int8.
  rewrite length_map, Z.eqb_refl. reflexivity.
Qed.

Lemma strip_without_marker_witness :
  (forall rest, [x01; x23; x02] <> HASH :: rest) /\
  strip_tek_header [x01; x23; x02] = Ok [x01; x23; x02].
Proof.
  assert (H : forall rest, [x01; x23; x02] <> HASH :: rest)
    by (intros rest E; discriminate E).
  split; [exact H | exact (proj1 (strip_without_marker _ H))].
Defined.

(** The message of [int(chr(c))] never has the word the handler looks
    for, whatever the byte. *)
Lemma int_of_chr_message (c : byte) :
  classified_timeout
    (ValueError ("invalid literal for int() with base 10: " ++ repr (chr c))%string)
  = false.
Proof. destruct c; vm_compute; reflexivity. Qed.

(** X20. [acquire_pyvisa.py], lines 134-139: malformed headers.  A block made
    of the marker alone raises the [IndexError] of [bytes]; a marker followed
    by a byte [c] that is not an ASCII digit raises the [ValueError] of
    [int], whose message ends with the [repr] of the character (['A'] for
    the byte 0x41, ['\x00'] for the byte 0); these are the only failures of
    the header stripping, and none of them has a message containing
    "Timeout", so the handler of the loop logs them and goes on with the next
    capture. *)
Theorem strip_failures :
  strip_tek_header [HASH] = Raise IndexError /\
  (forall (c : byte) (rest : bytes),
      (ord c < 48 \/ 57 < ord c) ->
      strip_tek_header (HASH :: c :: rest)
      = Raise (ValueError
                 ("invalid literal for int() with base 10: " ++ repr (chr c))%string)) /\
  strip_tek_header [HASH; x41; x01]
  = Raise (ValueError "invalid literal for int() with base 10: 'A'") /\
  strip_tek_header [HASH; x00; x01]
  = Raise (ValueError "invalid literal for int() with base 10: '\x00'") /\
  (forall (b : bytes) (e : exn),
      strip_tek_header b = Raise e ->
      classified_timeout e = false /\
      exists rest, b = HASH :: rest /\
                   (rest = [] \/ exists c rest', rest = c :: rest' /\
                                                 (ord c < 48 \/ 57 < ord c))).
Proof.
  splits.
  - reflexivity.
  - intros c rest Hc. unfold strip_tek_header. rewrite slice_head.
    cbn [bytes_eqb]. rewrite byte_eqb_refl. cbn [andb].
    unfold tek_header_len, getitem, index. cbn [nth_error]. unfold int_of_chr.
    destruct Hc as [Hc | Hc].
    + replace (48 <=? ord c) with false by (symmetry; apply Z.leb_gt; lia). reflexivity.
    + replace (ord c <=? 57) with false by (symmetry; apply Z.leb_gt; lia).
      rewrite andb_false_r. reflexivity.
  - vm_compute. reflexivity.
  - vm_compute. reflexivity.
  - intros b e H. unfold strip_tek_header in H.
    destruct (bytes_eqb (slice (Some 0) (Some 1) b) [HASH]) eqn:E; [| discriminate H].
    apply bytes_eqb_eq in E. destruct b as [| x rest]; [discriminate E |].
    rewrite slice_head in E. inversion E. subst x.
    unfold tek_header_len, getitem, index in H.
    destruct rest as [| c rest']; cbn [nth_error] in H.
    + inversion H. split; [reflexivity |]. exists []. split; [reflexivity | left; reflexivity].
    + unfold int_of_chr in H.
      destruct ((48 <=? ord c) && (ord c <=? 57)) eqn:Ed; [discriminate H |].
      inversion H. split; [apply int_of_chr_message |].
      exists (c :: rest'). split; [reflexivity |]. right. exists c, rest'.
      split; [reflexivity |].
      apply andb_false_iff in Ed. destruct Ed as [Ed | Ed]; apply Z.leb_gt in Ed; lia.
Qed.

(** X21. [acquire_pyvisa.py], line 139: what the slice keeps.  For a block
    that starts with the marker and a digit [d], the stripping never fails:
    it drops the first [2 + d] bytes and the last byte and keeps what is in
    between, which is nothing when the block is not longer than its header;
    the declared length is not compared with the number of bytes kept. *)
Theorem strip_keeps_the_middle :
  forall (d : Z) (c : byte) (rest : bytes),
    0 <= d <= 9 ->
    ord c = 48 + d ->
    strip_tek_header (HASH :: c :: rest)
    = Ok (firstn (length rest - 1 - Z.to_nat d) (skipn (Z.to_nat d) rest)) /\
    ((length rest <= Z.to_nat d + 1)%nat ->
     strip_tek_header (HASH :: c :: rest) = Ok []).
Proof.
  intros d c rest Hd Hc.
  assert (Hs : strip_tek_header (HASH :: c :: rest)
               = Ok (firstn (length rest - 1 - Z.to_nat d) (skipn (Z.to_nat d) rest))).
  { unfold strip_tek_header. rewrite slice_head.
    cbn [bytes_eqb]. rewrite byte_eqb_refl. cbn [andb].
    unfold tek_header_len, getitem, index. cbn [nth_error]. unfold int_of_chr. rewrite Hc.
    replace (48 <=? 48 + d) with true by (symmetry; apply Z.leb_le; lia).
    replace (48 + d <=? 57) with true by (symmetry; apply Z.leb_le; lia).
    cbn [andb]. f_equal. rewrite slice_drop_ends by lia.
    replace (Z.to_nat (2 + (48 + d - 48))) with (S (S (Z.to_nat d))) by lia.
    cbn [skipn length]. f_equal. lia. }
  split; [exact Hs |].
  intros Hshort. rewrite Hs. f_equal.
  replace (length rest - 1 - Z.to_nat d)%nat with 0%nat by lia. reflexivity.
Qed.

(** The block [#9 01 02]: a header that announces nine digits. *)
Lemma strip_keeps_the_middle_witness :
  0 <= 9 <= 9 /\ ord x39 = 48 + 9 /\
  strip_tek_header [x23; x39; x01; x02] = Ok [].
Proof.
  split; [lia |]. split; [reflexivity |].
  exact (proj2 (strip_keeps_the_middle 9 x39 [x01; x02] ltac:(lia) eq_refl)
               ltac:(cbn; lia)).
Defined.

(** X22. [acquire_pyvisa.py], lines 150-152, with a record length that is
    not positive: a negative [num_points] makes the slice drop that many
    samples from the end, and zero drops them all. *)
Theorem reconcile_with_nonpositive_length :
  forall (A : Type) (raw : list A) (n : Z),
    (n < 0 -> reconcile raw n = firstn (length raw - Z.to_nat (- n)) raw) /\
    (n = 0 -> reconcile raw n = []).
Proof.
  intros A raw n. split.
  - intros Hn. unfold reconcile.
    destruct (Z.eqb_spec (Z.of_nat (length raw)) n) as [E | E]; cbn [negb]; [lia |].
    unfold slice. cbn [skipn Z.to_nat]. rewrite Z.sub_0_r. f_equal.
    destruct (Z.le_gt_cases 0 (Z.of_nat (length raw) + n)) as [Hle | Hgt].
    + rewrite clamp_from_end by lia. lia.
    + rewrite clamp_below by lia. lia.
  - intros ->. unfold reconcile.
    destruct (Z.eqb_spec (Z.of_nat (length raw)) 0) as [E | E]; cbn [negb].
    + destruct raw; [reflexivity | discriminate E].
    + rewrite slice_upto by lia. reflexivity.
Qed.

Lemma reconcile_with_nonpositive_length_witness :
  -2 < 0 /\ reconcile [10; 20; 30; 40; 50] (-2) = [10; 20; 30].
Proof.
  split; [lia |].
  exact (proj1 (reconcile_with_nonpositive_length Z [10; 20; 30; 40; 50] (-2))
               ltac:(lia)).
Defined.

Lemma ord_range (b : byte) : 0 <= ord b < 256.
Proof.
  unfold ord. pose proof (Byte.to_N_bounded b) as H. lia.
Qed.

(** X23. [np.frombuffer(..., dtype=np.int8)] as the scripts use it: one code
    per byte, in order; every code lies in [-128, 127]; and the byte is
    recovered from the code modulo 256. *)
Theorem int8_codes :
  forall buf : bytes,
    length (frombuffer_int8 buf) = length buf /\
    Forall (fun c => -128 <= c <= 127) (frombuffer_int8 buf) /\
    map (fun c => c mod 256) (frombuffer_int8 buf) = map ord buf.
Proof.
  intros buf. unfold frombuffer_int8. splits.
  - apply length_map.
  - apply Forall_forall. intros c Hc. apply in_map_iff in Hc.
    destruct Hc as (b & <- & _). unfold int8_of_byte.
    pose proof (ord_range b). destruct (Z.ltb_spec (ord b) 128); lia.
  - rewrite map_map. apply map_ext. intros b. unfold int8_of_byte.
    pose proof (ord_range b). destruct (Z.ltb_spec (ord b) 128).
    + apply Z.mod_small. lia.
    + replace (ord b - 256) with (ord b + (-1) * 256) by lia.
      rewrite Z.mod_add by lia. apply Z.mod_small. lia.
Qed.

(** ** The substring test *)

Lemma prefix_spec (p s : string) :
  String.prefix p s = true <-> exists b, s = (p ++ b)%string.
Proof.
  revert s. induction p as [| a p IH]; intros s.
  - split; [intros _; exists s; reflexivity | intros _; destruct s; reflexivity].
  - destruct s as [| c s]; cbn.
    + split; [discriminate | intros (b & H); discriminate H].
    + destruct (ascii_dec a c) as [-> | Hne].
      * rewrite IH. split; intros (b & H); exists b; [rewrite H; reflexivity |].
        inversion H. reflexivity.
      * split; [discriminate |]. intros (b & H). inversion H. subst. contradiction.
Qed.

(** X24. The test of the Tektronix handlers ([acquire.py] 141,
    [acquire_pyvisa.py] 174): a caught exception leaves the loop exactly when
    its message has the word "Timeout", spelt this way, somewhere inside
    it. *)
Theorem timeout_test_is_a_substring_test :
  forall e : exn,
    classified_timeout e = true <->
    exists a b, str e = (a ++ "Timeout" ++ b)%string.
Proof.
  intros e. unfold classified_timeout. generalize (str e) as s.
  generalize "Timeout"%string as needle. intros needle s.
  split.
  - induction s as [| c s IH]; cbn [contains]; intros H.
    + rewrite orb_false_r in H. apply prefix_spec in H. destruct H as (b & H).
      exists ""%string, b. exact H.
    + apply orb_true_iff in H. destruct H as [H | H].
      * apply prefix_spec in H. destruct H as (b & H). exists ""%string, b. exact H.
      * destruct (IH H) as (a & b & ->). exists (String c a), b. reflexivity.
  - intros (a & b & ->). induction a as [| c a IH].
    + assert (String.prefix needle (needle ++ b) = true) as Hp
          by (apply prefix_spec; exists b; reflexivity).
      change ("" ++ needle ++ b)%string with (needle ++ b)%string.
      destruct (needle ++ b)%string; cbn [contains]; rewrite Hp; reflexivity.
    + change (String c a ++ needle ++ b)%string with (String c (a ++ needle ++ b)).
      cbn [contains]. rewrite IH. apply orb_true_r.
Qed.

(** ** Finding the instrument *)

Lemma find_target_some (resources : list string) (res : string) :
  PyvisaConnect.find_target resources = Some res <->
  exists before after,
    resources = before ++ res :: after /\
    PyvisaConnect.matches res = true /\
    Forall (fun r => PyvisaConnect.matches r = false) before.
Proof.
  split.
  - induction resources as [| r rest IH]; cbn; intros H; [discriminate H |].
    destruct (PyvisaConnect.matches r) eqn:E.
    + inversion H. subst r. exists [], rest. splits; [reflexivity | exact E | constructor].
    + destruct (IH H) as (before & after & -> & Hm & Hb).
      exists (r :: before), after. splits; [reflexivity | exact Hm |].
      constructor; assumption.
  - intros (before & after & -> & Hm & Hb).
    induction Hb as [| r before Hr _ IH]; cbn.
    + rewrite Hm. reflexivity.
    + rewrite Hr. exact IH.
Qed.

Lemma find_target_none (resources : list string) :
  PyvisaConnect.find_target resources = None <->
  Forall (fun r => PyvisaConnect.matches r = false) resources.
Proof.
  induction resources as [| r rest IH]; cbn.
  - split; [constructor | reflexivity].
  - destruct (PyvisaConnect.matches r) eqn:E.
    + split; [discriminate |]. intros H. inversion H. congruence.
    + rewrite IH. split; [intros H; constructor; assumption | intros H; inversion H; assumption].
Qed.

Lemma matches_nonempty (res : string) :
  PyvisaConnect.matches res = true -> (res =? "")%string = false.
Proof. destruct res; [discriminate | reflexivity]. Qed.

(** X25. [acquire_pyvisa.py], lines 41-59.  The resource selected is the
    first one in the list whose name contains both "0x0699" and "0x03B3";
    the selection fails with [ValueError] exactly when no resource contains
    both. *)
Theorem select_takes_the_first_match :
  forall resources : list string,
    (forall res,
        PyvisaConnect.select resources = Ok res <->
        exists before after,
          resources = before ++ res :: after /\
          PyvisaConnect.matches res = true /\
          Forall (fun r => PyvisaConnect.matches r = false) before) /\
    (PyvisaConnect.select resources = Raise PyvisaConnect.not_found <->
     Forall (fun r => PyvisaConnect.matches r = false) resources) /\
    (forall e, PyvisaConnect.select resources = Raise e -> e = PyvisaConnect.not_found).
Proof.
  intros resources. unfold PyvisaConnect.select. splits.
  - intros res. rewrite <- find_target_some.
    destruct (PyvisaConnect.find_target resources) as [r |] eqn:E.
    + assert (Hm : PyvisaConnect.matches r = true).
      { apply find_target_some in E. destruct E as (_ & _ & _ & Hm & _). exact Hm. }
      rewrite (matches_nonempty r Hm). split; intros H; inversion H; reflexivity.
    + split; discriminate.
  - rewrite <- find_target_none.
    destruct (PyvisaConnect.find_target resources) as [r |] eqn:E.
    + assert (Hm : PyvisaConnect.matches r = true).
      { apply find_target_some in E. destruct E as (_ & _ & _ & Hm & _). exact Hm. }
      rewrite (matches_nonempty r Hm). split; discriminate.
    + split; reflexivity.
  - intros e. destruct (PyvisaConnect.find_target resources) as [r |].
    + destruct (r =? "")%string; intros H; inversion H; reflexivity.
    + intros H; inversion H; reflexivity.
Qed.

(** X26. [acquire_pyvisa.py], lines 35-64 and what follows.  When the first
    resource matching both identifiers is [res], only [res] is opened: the
    run is the run of the script on the session it yields, or is ABORTED in
    setup when opening fails.  When no resource matches, nothing is opened
    and no call is made on any session. *)
Theorem script_opens_the_first_match :
  forall (num : Numeric) (open_resource : string -> result Session) (n : nat)
         (resources : list string),
    (forall before res after,
        resources = before ++ res :: after ->
        PyvisaConnect.matches res = true ->
        Forall (fun r => PyvisaConnect.matches r = false) before ->
        PyvisaConnect.script (Ok resources) open_resource n
        = match open_resource res with
          | Ok scope => AcquirePyvisa.main scope n
          | Raise e => PyvisaConnect.connection_failed e
          end) /\
    (Forall (fun r => PyvisaConnect.matches r = false) resources ->
     PyvisaConnect.script (Ok resources) open_resource n
     = PyvisaConnect.connection_failed PyvisaConnect.not_found /\
     trace (final (PyvisaConnect.script (Ok resources) open_resource n)) = []).
Proof.
  intros num open_resource n resources.
  split.
  - intros before res after Hr Hm Hb.
    assert (Hf : PyvisaConnect.find_target resources = Some res).
    { apply find_target_some. exists before, after. splits; assumption. }
    unfold PyvisaConnect.script, PyvisaConnect.select.
    rewrite Hf, (matches_nonempty res Hm). reflexivity.
  - intros Hall. apply find_target_none in Hall.
    unfold PyvisaConnect.script, PyvisaConnect.select. rewrite Hall.
    split; reflexivity.
Qed.

Lemma script_opens_the_first_match_witness :
  let target := "USB0::0x0699::0x03B3::C012345::INSTR"%string in
  let resources := ["ASRL1::INSTR"%string; target;
                    "USB0::0x0699::0x03B3::C999999::INSTR"%string] in
  let open_resource := fun _ : string => Raise Stub.TransportError in
  PyvisaConnect.matches target = true /\
  Forall (fun r => PyvisaConnect.matches r = false) ["ASRL1::INSTR"%string] /\
  PyvisaConnect.script (num := Exact.numeric) (Ok resources) open_resource 2
  = match open_resource target with
    | Ok scope => AcquirePyvisa.main scope 2
    | Raise e => PyvisaConnect.connection_failed e
    end.
Proof.
  intros target resources open_resource.
  assert (Hm : PyvisaConnect.matches target = true) by reflexivity.
  assert (Hb : Forall (fun r => PyvisaConnect.matches r = false) ["ASRL1::INSTR"%string])
    by (repeat constructor).
  split; [exact Hm |]. split; [exact Hb |].
  exact (proj1 (script_opens_the_first_match Exact.numeric open_resource 2 resources)
               ["ASRL1::INSTR"%string] target
               ["USB0::0x0699::0x03B3::C999999::INSTR"%string]
               eq_refl Hm Hb).
Defined.

(** ** What the sinks receive *)

Section Published.
Context {num : Numeric}.
Variable scope : Session.
Variable disk : Disk.
Import Tek.

Lemma for_loop_guarded_invariant (I : St Vars -> Prop) (body : nat -> M Vars unit) :
  (forall i st, I st -> I (snd (body i st))) ->
  (forall st k e, I st -> I (mkSt (vars st) (add_error k e (world st)))) ->
  (forall st, I st -> I (mkSt (vars st) (add_warning (world st)))) ->
  forall rng st, I st -> I (snd (for_loop (guarded body) rng st)).
Proof.
  intros Hbody Herr Hwarn rng. induction rng as [| i rng IH]; intros st Hst; [exact Hst |].
  cbn [for_loop]. unfold guarded at 1.
  specialize (Hbody i st Hst).
  destruct (body i st) as [[[] | e] st1]; cbn [snd] in Hbody.
  - apply IH. exact Hbody.
  - destruct (contains "Timeout" (str e)).
    + cbn [snd vars world]. apply (Hwarn (mkSt (vars st1) (add_error (S i) e (world st1)))).
      apply Herr. exact Hbody.
    + apply IH. apply Herr. exact Hbody.
Qed.

Lemma scale_lengths (raw : list Z) (yz yo ym xi xo : F64) :
  length (scale_times raw xi xo) = length (scale_voltages_tek raw yz yo ym) /\
  length (scale_voltages_tek raw yz yo ym) = length raw.
Proof.
  unfold scale_times, scale_voltages_tek, arange. rewrite !length_map, length_seq.
  split; reflexivity.
Qed.

Lemma reconcile_bound {A : Type} (raw : list A) (n : Z) :
  0 <= n -> Z.of_nat (length (reconcile raw n)) <= n.
Proof.
  intros Hn. unfold reconcile.
  destruct (Z.eqb_spec (Z.of_nat (length raw)) n) as [E | E]; cbn [negb]; [lia |].
  rewrite slice_upto by exact Hn. rewrite length_firstn. lia.
Qed.

(** The loop with an invariant that follows the capture number. *)
Lemma for_loop_guarded_indexed (J : nat -> St Vars -> Prop) (body : nat -> M Vars unit) :
  (forall i st, J i st -> J (S i) (snd (guarded body i st))) ->
  (forall i st, J i st -> J (S i) st) ->
  forall n a st, J a st -> J (a + n)%nat (snd (for_loop (guarded body) (seq a n) st)).
Proof.
  intros Hstep Hmono.
  assert (Hmore : forall k i st, J i st -> J (i + k)%nat st).
  { induction k as [| k IH]; intros i st H.
    - rewrite Nat.add_0_r. exact H.
    - replace (i + S k)%nat with (S i + k)%nat by lia. apply IH, Hmono, H. }
  induction n as [| n IH]; intros a st Hst.
  - rewrite Nat.add_0_r. exact Hst.
  - cbn [seq for_loop]. specialize (Hstep a st Hst).
    destruct (guarded body a st) as [[|] st1]; cbn [snd] in Hstep |- *;
      replace (a + S n)%nat with (S a + n)%nat by lia.
    + apply IH. exact Hstep.
    + apply Hmore. exact Hstep.
Qed.

Lemma without_new_failure {A : Type} (failed : list nat) (k : nat) (l : list (nat * A)) :
  Forall (fun kc => (fst kc < k)%nat) l ->
  without (failed ++ [k]) l = without failed l.
Proof.
  intros H. unfold without. apply filter_ext_in. intros kc Hin.
  rewrite Forall_forall in H. specialize (H kc Hin).
  rewrite existsb_app. cbn [existsb].
  replace (fst kc =? k)%nat with false by (symmetry; apply Nat.eqb_neq; lia).
  rewrite !orb_false_r. reflexivity.
Qed.

Lemma without_new_capture {A : Type} (failed : list nat) (k : nat) (c : A)
      (l : list (nat * A)) :
  without failed (l ++ [(k, c)])
  = without failed l ++ (if existsb (Nat.eqb k) failed then [] else [(k, c)]).
Proof.
  unfold without. rewrite filter_app. cbn [filter fst].
  destruct (existsb (Nat.eqb k) failed); reflexivity.
Qed.

Lemma not_among {A : Type} (k : nat) (l : list (nat * A)) :
  Forall (fun ke => (fst ke < k)%nat) l -> existsb (Nat.eqb k) (map fst l) = false.
Proof.
  intros H. induction H as [| x l Hx _ IH]; cbn; [reflexivity |].
  rewrite IH. replace (k =? fst x)%nat with false by (symmetry; apply Nat.eqb_neq; lia).
  reflexivity.
Qed.

(** What one pass of the body of [acquire.py] does to the sinks. *)
Lemma acquire_capture_effect (i : nat) (st : St Vars) :
  post (Acquire.capture scope disk i) st
       (fun r st' =>
          errors (world st') = errors (world st) /\
          match r with
          | Ok _ =>
              exists c, parallel c /\
                        plotted (world st') = plotted (world st) ++ [(S i, c)] /\
                        saved (world st') = saved (world st) ++ [(S i, c)]
          | Raise e =>
              saved (world st') = saved (world st) /\
              (plotted (world st') = plotted (world st) \/
               exists c, parallel c /\ disk (S i) c = Raise e /\
                         plotted (world st') = plotted (world st) ++ [(S i, c)])
          end).
Proof.
  unfold Acquire.capture, process. script_run.
  all: cbn [world errors plotted saved add_call add_plot add_file];
    split; [reflexivity |]; try (split; [reflexivity | left; reflexivity]).
  - eexists. split; [| split; reflexivity].
    unfold parallel, current_capture. cbn. apply scale_lengths.
  - split; [reflexivity |]. right. eexists. split; [| split; [eassumption | reflexivity]].
    unfold parallel, current_capture. cbn. apply scale_lengths.
Qed.

Lemma acquire_guarded_sinks (i : nat) (st : St Vars) :
  acquire_sinks i st -> acquire_sinks (S i) (snd (guarded (Acquire.capture scope disk) i st)).
Proof.
  intros (Hs & Hp & He).
  assert (Hp' : Forall (fun kc => parallel (snd kc) /\ (fst kc <= S i)%nat)
                       (plotted (world st))).
  { eapply Forall_impl; [| exact Hp]. cbn. intros kc (H1 & H2). split; [exact H1 | lia]. }
  assert (He' : Forall (fun ke => (fst ke <= S i)%nat) (errors (world st))).
  { eapply Forall_impl; [| exact He]. cbn. intros ke H. lia. }
  assert (Hlt : Forall (fun kc => (fst kc < S i)%nat) (plotted (world st))).
  { eapply Forall_impl; [| exact Hp]. cbn. intros kc (_ & H2). lia. }
  assert (Hnot : existsb (Nat.eqb (S i)) (map fst (errors (world st))) = false).
  { apply not_among. eapply Forall_impl; [| exact He]. cbn. intros ke H. lia. }
  pose proof (acquire_capture_effect i st) as Hb. unfold post in Hb. unfold guarded.
  destruct (Acquire.capture scope disk i st) as [[[] | e] st1]; cbn [fst snd] in Hb |- *;
    destruct Hb as (Herr & Hb).
  - destruct Hb as (c & Hc & Hpl & Hsv). unfold acquire_sinks.
    rewrite Herr, Hpl, Hsv, without_new_capture, Hnot, Hs.
    splits; [reflexivity | | exact He'].
    apply Forall_app. split; [exact Hp' |]. constructor; [| constructor].
    cbn. split; [exact Hc | lia].
  - destruct Hb as (Hsv & Hpl).
    assert (Hgoal : acquire_sinks (S i)
                      (mkSt (vars st1) (add_error (S i) e (world st1)))).
    { unfold acquire_sinks. cbn [world errors plotted saved add_error].
      rewrite Herr, Hsv, map_app. cbn [map fst].
      destruct Hpl as [Hpl | (c & Hc & _ & Hpl)]; rewrite Hpl.
      - rewrite without_new_failure by exact Hlt.
        splits; [exact Hs | exact Hp' |].
        apply Forall_app. split; [exact He' |]. constructor; [cbn; lia | constructor].
      - rewrite without_new_capture, without_new_failure by exact Hlt.
        rewrite existsb_app. cbn [existsb]. rewrite Nat.eqb_refl, orb_true_r, app_nil_r.
        splits; [exact Hs | |].
        + apply Forall_app. split; [exact Hp' |]. constructor; [| constructor].
          cbn. split; [exact Hc | lia].
        + apply Forall_app. split; [exact He' |]. constructor; [cbn; lia | constructor]. }
    destruct (contains "Timeout" (str e)); exact Hgoal.
Qed.

Lemma acquire_sinks_later (i : nat) (st : St Vars) :
  acquire_sinks i st -> acquire_sinks (S i) st.
Proof.
  intros (H1 & H2 & H3). unfold acquire_sinks. splits; [exact H1 | |].
  - eapply Forall_impl; [| exact H2]. cbn. intros kc (H & Hle). split; [exact H | lia].
  - eapply Forall_impl; [| exact H3]. cbn. intros ke Hle. lia.
Qed.

Lemma acquire_capture_mirror (i : nat) (st : St Vars) :
  (forall k c, disk k c = Ok tt) ->
  acquire_mirror st -> acquire_mirror (snd (Acquire.capture scope disk i st)).
Proof.
  intros Hdisk.
  change (post (Acquire.capture scope disk i) st
               (fun _ st' => acquire_mirror st -> acquire_mirror st')).
  unfold Acquire.capture, process. script_run.
  all: unfold acquire_mirror; cbn [world plotted saved add_call add_plot add_file];
    intros Hs; try exact Hs.
  - rewrite Hs. reflexivity.
  - match goal with H : disk _ _ = Raise _ |- _ => rewrite Hdisk in H; discriminate H end.
Qed.

Lemma pyvisa_capture_sinks (i : nat) (st : St Vars) :
  pyvisa_sinks st -> pyvisa_sinks (snd (AcquirePyvisa.capture scope i st)).
Proof.
  change (post (AcquirePyvisa.capture scope i) st
               (fun _ st' => pyvisa_sinks st -> pyvisa_sinks st')).
  unfold AcquirePyvisa.capture, process. script_run.
  all: unfold pyvisa_sinks;
    cbn [world vars plotted add_call add_plot pre set_waveform_bytes set_raw_waveform
         set_voltages set_times];
    intros Hp; try exact Hp.
  apply Forall_app. split; [exact Hp |]. constructor; [| constructor].
  cbn [snd current_capture cap_times cap_voltages times voltages raw_waveform
       set_waveform_bytes set_raw_waveform set_voltages set_times pre waveform_bytes].
  unfold parallel. cbn [cap_times cap_voltages].
  split; [apply scale_lengths |].
  intros Hn. rewrite (proj2 (scale_lengths _ _ _ _ (x_increment (pre (vars st)))
                                           (x_origin (pre (vars st))))).
  apply reconcile_bound. exact Hn.
Qed.

End Published.

(** X27. [acquire.py], lines 113-128.  In every run the CSV files written
    hold exactly the plotted captures for which no failure is logged, in the
    same order and with the same arrays: a plotted capture has no file only
    when its number is among the logged failures.  In each plotted capture
    the time array and the voltage array have the same length.  When every
    file can be written, the files hold exactly the plotted captures. *)
Theorem acquire_saves_what_it_plots :
  forall (num : Numeric) (scope : Session) (disk : Disk) (n : nat),
    let w := final (Acquire.main scope disk n) in
    saved w = without (map fst (errors w)) (plotted w) /\
    Forall (fun kc => parallel (snd kc)) (plotted w) /\
    ((forall k c, disk k c = Ok tt) -> saved w = plotted w).
Proof.
  intros num scope disk n.
  destruct (Tek.configure scope (mkSt tt init_world)) as [[p | e0] st0] eqn:Hcfg.
  - rewrite (acquire_main_ok scope disk n p st0 Hcfg). cbv zeta.
    cbn [final saved plotted errors add_call].
    destruct (tek_config_world scope (Ok p) st0 Hcfg) as (Hp & Hs & He & _).
    pose proof (for_loop_guarded_indexed acquire_sinks (Acquire.capture scope disk)
                  (acquire_guarded_sinks scope disk)) as Hinv.
    destruct (Hinv acquire_sinks_later n 0%nat (mkSt (Tek.init_vars p) (world st0)))
      as (H1 & H2 & _).
    { unfold acquire_sinks. cbn [world]. rewrite Hp, Hs, He.
      splits; [reflexivity | constructor | constructor]. }
    splits.
    + exact H1.
    + eapply Forall_impl; [| exact H2]. cbn. intros kc (H & _). exact H.
    + intros Hdisk.
      apply (for_loop_guarded_invariant acquire_mirror (Acquire.capture scope disk)).
      * intros i st. apply acquire_capture_mirror. exact Hdisk.
      * intros st k e H. exact H.
      * intros st H. exact H.
      * unfold acquire_mirror. cbn [world]. rewrite Hp, Hs. reflexivity.
  - rewrite (acquire_main_failed scope disk n e0 st0 Hcfg). cbv zeta.
    cbn [final saved plotted errors add_call add_setup_error].
    destruct (tek_config_world scope (Raise e0) st0 Hcfg) as (Hp & Hs & He & _).
    rewrite Hp, Hs, He. splits; [reflexivity | constructor | reflexivity].
Qed.

(** The file of capture 2 of 3 cannot be written: three captures are
    plotted, two files exist; with a directory that takes every file, three
    files exist. *)
Lemma acquire_saves_what_it_plots_witness :
  let scope := Stub.tek "4" Stub.never Stub.codes_block in
  (forall k c, Stub.disk_ok (num := Exact.numeric) k c = Ok tt) /\
  saved (final (Acquire.main (num := Exact.numeric) scope Stub.disk_ok 3))
  = plotted (final (Acquire.main (num := Exact.numeric) scope Stub.disk_ok 3)) /\
  map fst (plotted (final (Acquire.main (num := Exact.numeric) scope
                             (Stub.disk_fails_on 2) 3))) = [1; 2; 3]%nat /\
  map fst (saved (final (Acquire.main (num := Exact.numeric) scope
                           (Stub.disk_fails_on 2) 3))) = [1; 3]%nat.
Proof.
  intros scope.
  assert (H : forall k c, Stub.disk_ok (num := Exact.numeric) k c = Ok tt)
    by (intros k c; reflexivity).
  split; [exact H |]. split.
  - exact (proj2 (proj2 (acquire_saves_what_it_plots Exact.numeric scope Stub.disk_ok 3)) H).
  - split; vm_compute; reflexivity.
Defined.

(** X28. [acquire_pyvisa.py], lines 134-155.  When the configuration reads a
    record length [num_points] that is not negative, every capture plotted
    in the run has a time array and a voltage array of the same length, and
    that length is at most [num_points]. *)
Theorem pyvisa_plots_at_most_num_points :
  forall (num : Numeric) (scope : Session) (n : nat) (p : Tek.Preamble) (st0 : St unit),
    Tek.configure scope (mkSt tt init_world) = (Ok p, st0) ->
    0 <= Tek.num_points p ->
    Forall (fun kc =>
              parallel (snd kc) /\
              Z.of_nat (length (cap_voltages (snd kc))) <= Tek.num_points p)
           (plotted (final (AcquirePyvisa.main scope n))).
Proof.
  intros num scope n p st0 Hcfg Hn.
  rewrite (pyvisa_main_ok scope n p st0 Hcfg). cbv zeta. cbn [final plotted add_call].
  destruct (tek_loop_from_config scope false (AcquirePyvisa.capture scope)
              (pyvisa_capture_ok scope) n p st0 Hcfg)
    as (_ & _ & _ & _ & _ & _ & _ & _ & _ & _ & Hpre).
  cbv zeta in Hpre.
  assert (Hinv : pyvisa_sinks (snd (for_loop (Tek.guarded (AcquirePyvisa.capture scope))
                                      (seq 0 n) (mkSt (Tek.init_vars p) (world st0))))).
  { apply (for_loop_guarded_invariant pyvisa_sinks (AcquirePyvisa.capture scope)).
    - intros i st. apply pyvisa_capture_sinks.
    - intros st k e H. exact H.
    - intros st H. exact H.
    - destruct (tek_config_world scope (Ok p) st0 Hcfg) as (Hp & _).
      unfold pyvisa_sinks. cbn [world]. rewrite Hp. constructor. }
  unfold pyvisa_sinks in Hinv. rewrite Hpre in Hinv.
  eapply Forall_impl; [| exact Hinv]. cbn beta.
  intros kc (H1 & H2). split; [exact H1 | exact (H2 Hn)].
Qed.

Lemma pyvisa_plots_at_most_num_points_witness :
  let scope := Stub.tek "3" Stub.never Stub.codes_block in
  exists p st0,
    Tek.configure (num := Exact.numeric) scope (mkSt tt init_world) = (Ok p, st0) /\
    0 <= Tek.num_points p /\
    Forall (fun kc => parallel (snd kc) /\
                      Z.of_nat (length (cap_voltages (snd kc))) <= Tek.num_points p)
           (plotted (final (AcquirePyvisa.main (num := Exact.numeric) scope 2))).
Proof.
  intros scope.
  destruct (Tek.configure (num := Exact.numeric) scope (mkSt tt init_world))
    as [[p | e] st0] eqn:H.
  - assert (Hn : Tek.num_points p = 3).
    { assert (Hq : match fst (Tek.configure (num := Exact.numeric) scope
                                (mkSt tt init_world)) with
                   | Ok q => Tek.num_points q
                   | Raise _ => 0
                   end = 3) by (vm_compute; reflexivity).
      rewrite H in Hq. exact Hq. }
    exists p, st0. split; [reflexivity |]. split; [lia |].
    apply (pyvisa_plots_at_most_num_points Exact.numeric scope 2 p st0 H). lia.
  - exfalso.
    assert (Hok : is_ok (fst (Tek.configure (num := Exact.numeric) scope
                                (mkSt tt init_world))) = true)
      by (vm_compute; reflexivity).
    rewrite H in Hok. discriminate Hok.
Defined.

(** ** Capture numbers *)

(** The captures a script has completed: those whose file is written in
    [acquire.py], those plotted in [acquire_pyvisa.py], which writes no
    file. *)
Definition completed {num : Numeric} (saves : bool) (w : World) : list (nat * Capture) :=
  if saves then saved w else plotted w.

Section TekNumbers.
Context {num : Numeric}.
Variable scope : Session.
Import Tek TekSummary.

Variable saves : bool.
Variable body : nat -> M Vars unit.
Hypothesis body_ok :
  forall i st, body_summary saves i st (fst (body i st)) (snd (body i st)).

(** One guarded pass adds the capture number [S i] either to the completed
    captures or to the failures, and triggers once. *)
Lemma guarded_numbers (i : nat) (st : St Vars) :
  let st' := snd (guarded body i st) in
  attempts (world st') = S (attempts (world st)) /\
  ((map fst (completed saves (world st')) = map fst (completed saves (world st)) ++ [S i] /\
    map fst (errors (world st')) = map fst (errors (world st)))
   \/
   (map fst (completed saves (world st')) = map fst (completed saves (world st)) /\
    map fst (errors (world st')) = map fst (errors (world st)) ++ [S i])).
Proof.
  pose proof (body_ok i st) as Hb. unfold guarded.
  destruct (body i st) as [[[] | e] st1]; cbn [fst snd] in *;
    destruct Hb as ((ext & Hext & Hfetch) & Herr & _ & Hpub & Hsav).
  all: assert (Ha : attempts (world st1) = S (attempts (world st)))
      by (unfold attempts; rewrite Hext;
          change (TRIGGER :: ext) with ([TRIGGER] ++ ext);
          rewrite !count_call_app,
            (count_call_absent TRIGGER fetch_calls ext Hfetch eq_refl);
          cbn; lia).
  - split; [exact Ha |]. left. unfold completed. rewrite Herr.
    split; [| reflexivity].
    destruct saves; [rewrite Hsav | rewrite Hpub]; rewrite map_app; reflexivity.
  - assert (Hsame : completed saves (world st1) = completed saves (world st)).
    { unfold completed. destruct saves eqn:Es; [exact Hsav |].
      destruct Hpub as [H | (H & _)]; [exact H | discriminate H]. }
    destruct (contains "Timeout" (str e));
      cbn [snd world vars];
      (split; [exact Ha |]); right; unfold completed in *;
      cbn [saved plotted errors add_error add_warning];
      rewrite Hsame, Herr, map_app; split; reflexivity.
Qed.

Lemma for_loop_numbers (n a : nat) (st : St Vars) :
  let st' := snd (for_loop (guarded body) (seq a n) st) in
  exists k lp le,
    attempts (world st') = (attempts (world st) + k)%nat /\
    map fst (completed saves (world st')) = map fst (completed saves (world st)) ++ lp /\
    map fst (errors (world st')) = map fst (errors (world st)) ++ le /\
    Permutation (lp ++ le) (seq (S a) k) /\
    StronglySorted lt lp /\ StronglySorted lt le /\
    Forall (fun j => a < j)%nat lp /\ Forall (fun j => a < j)%nat le.
Proof.
  revert a st. induction n as [| n IH]; intros a st; cbn zeta.
  - exists 0%nat, [], []. cbn. rewrite !app_nil_r.
    splits; try reflexivity; try constructor. lia.
  - cbn [seq for_loop]. pose proof (guarded_numbers a st) as H1. cbv zeta in H1.
    destruct (guarded body a st) as [c st1]; cbn [snd] in H1.
    destruct H1 as (Ha & Hcase).
    assert (Hone : exists lp le,
               map fst (completed saves (world st1))
               = map fst (completed saves (world st)) ++ lp /\
               map fst (errors (world st1)) = map fst (errors (world st)) ++ le /\
               Permutation (lp ++ le) [S a] /\
               StronglySorted lt lp /\ StronglySorted lt le /\
               Forall (fun j => a < j)%nat lp /\ Forall (fun j => a < j)%nat le /\
               Forall (fun j => j <= S a)%nat lp /\ Forall (fun j => j <= S a)%nat le).
    { destruct Hcase as [(Hp & He) | (Hp & He)].
      - exists [S a], []. rewrite Hp, He, app_nil_r.
        splits; try reflexivity; repeat constructor; lia.
      - exists [], [S a]. rewrite Hp, He, app_nil_r.
        splits; try reflexivity; repeat constructor; lia. }
    destruct Hone as (lp1 & le1 & Hp1 & He1 & Hperm1 & Hsp1 & Hse1 & Hlp1 & Hle1 & Hup1 & Hue1).
    destruct c.
    + specialize (IH (S a) st1). cbv zeta in IH.
      destruct IH as (k & lp & le & Hk & Hp & He & Hperm & Hsp & Hse & Hlp & Hle).
      exists (S k), (lp1 ++ lp), (le1 ++ le).
      splits.
      * rewrite Hk, Ha. lia.
      * rewrite Hp, Hp1, app_assoc. reflexivity.
      * rewrite He, He1, app_assoc. reflexivity.
      * cbn [seq]. change (S a :: seq (S (S a)) k) with ([S a] ++ seq (S (S a)) k).
        rewrite <- Hperm1, <- Hperm.
        rewrite <- !app_assoc. apply Permutation_app_head.
        rewrite !app_assoc. apply Permutation_app_tail. apply Permutation_app_comm.
      * clear - Hsp1 Hsp Hup1 Hlp.
        induction lp1 as [| x lp1 IHl]; [exact Hsp |].
        cbn. inversion Hsp1; subst. inversion Hup1; subst. constructor.
        -- apply IHl; assumption.
        -- apply Forall_app. split; [assumption |].
           eapply Forall_impl; [| exact Hlp]. cbn. intros j Hj. lia.
      * clear - Hse1 Hse Hue1 Hle.
        induction le1 as [| x le1 IHl]; [exact Hse |].
        cbn. inversion Hse1; subst. inversion Hue1; subst. constructor.
        -- apply IHl; assumption.
        -- apply Forall_app. split; [assumption |].
           eapply Forall_impl; [| exact Hle]. cbn. intros j Hj. lia.
      * apply Forall_app. split; [exact Hlp1 |].
        eapply Forall_impl; [| exact Hlp]. cbn. intros j Hj. lia.
      * apply Forall_app. split; [exact Hle1 |].
        eapply Forall_impl; [| exact Hle]. cbn. intros j Hj. lia.
    + exists 1%nat, lp1, le1. cbn [snd seq].
      splits; try assumption. lia.
Qed.

End TekNumbers.

(** X29. [acquire.py] and [acquire_pyvisa.py], capture numbers.  In every
    run the numbers of the completed captures (those whose CSV file is
    written in [acquire.py], those plotted in [acquire_pyvisa.py]) and the
    numbers of the logged failures are each strictly increasing, and taken
    together they are exactly the numbers 1 to the number of captures
    attempted, each once: no capture is both completed and reported, and
    none disappears. *)
Theorem tek_every_capture_is_accounted_for :
  forall (num : Numeric) (scope : Session) (disk : Disk) (n : nat),
    (let w := final (Acquire.main scope disk n) in
     Permutation (map fst (saved w) ++ map fst (errors w)) (seq 1 (Tek.attempts w)) /\
     StronglySorted lt (map fst (saved w)) /\
     StronglySorted lt (map fst (errors w))) /\
    (let w := final (AcquirePyvisa.main scope n) in
     Permutation (map fst (plotted w) ++ map fst (errors w)) (seq 1 (Tek.attempts w)) /\
     StronglySorted lt (map fst (plotted w)) /\
     StronglySorted lt (map fst (errors w))).
Proof.
  intros num scope disk n.
  destruct (Tek.configure scope (mkSt tt init_world)) as [[p | e0] st0] eqn:Hcfg.
  - destruct (tek_config_world scope (Ok p) st0 Hcfg) as (Hp0 & Hs0 & He0 & _).
    assert (Ha0 : Tek.attempts (world st0) = 0%nat).
    { destruct (tek_loop_from_config scope false (AcquirePyvisa.capture scope)
                  (pyvisa_capture_ok scope) 0 p st0 Hcfg)
        as (_ & _ & _ & _ & _ & _ & _ & _ & _ & Ha & _). exact Ha. }
    split.
    + rewrite (acquire_main_ok scope disk n p st0 Hcfg). cbv zeta.
      cbn [final saved errors add_call]. unfold Tek.attempts. rewrite count_after_call.
      cbn [call_eqb]. rewrite Nat.add_0_r.
      destruct (for_loop_numbers true (Acquire.capture scope disk)
                  (acquire_capture_ok scope disk) n 0 (mkSt (Tek.init_vars p) (world st0)))
        as (k & lp & le & Hk & Hp & He & Hperm & Hsp & Hse & _).
      unfold completed in Hp. cbn [world] in Hk, Hp, He. rewrite Hs0 in Hp. rewrite He0 in He.
      fold (Tek.attempts (world (snd (for_loop (Tek.guarded (Acquire.capture scope disk))
              (seq 0 n) (mkSt (Tek.init_vars p) (world st0)))))).
      rewrite Hk, Ha0, Hp, He. cbn [map app Nat.add].
      splits; assumption.
    + rewrite (pyvisa_main_ok scope n p st0 Hcfg). cbv zeta.
      cbn [final plotted errors add_call]. unfold Tek.attempts. rewrite !count_after_call.
      cbn [call_eqb]. rewrite !Nat.add_0_r.
      destruct (for_loop_numbers false (AcquirePyvisa.capture scope)
                  (pyvisa_capture_ok scope) n 0 (mkSt (Tek.init_vars p) (world st0)))
        as (k & lp & le & Hk & Hp & He & Hperm & Hsp & Hse & _).
      unfold completed in Hp. cbn [world] in Hk, Hp, He. rewrite Hp0 in Hp. rewrite He0 in He.
      fold (Tek.attempts (world (snd (for_loop (Tek.guarded (AcquirePyvisa.capture scope))
              (seq 0 n) (mkSt (Tek.init_vars p) (world st0)))))).
      rewrite Hk, Ha0, Hp, He. cbn [map app Nat.add].
      splits; assumption.
  - destruct (tek_config_world scope (Raise e0) st0 Hcfg) as (Hp0 & Hs0 & He0 & _).
    destruct (tek_failed_config scope e0 st0 Hcfg) as (Ha0 & _).
    rewrite (acquire_main_failed scope disk n e0 st0 Hcfg),
      (pyvisa_main_failed scope n e0 st0 Hcfg).
    cbv zeta. cbn [final plotted saved errors add_call add_setup_error].
    unfold Tek.attempts in *. rewrite count_after_call.
    cbn [call_eqb trace add_setup_error]. rewrite Ha0, Hp0, Hs0, He0. cbn.
    split; splits; constructor.
Qed.

(** ** Failure policy, cleanup and preamble across the scripts *)

Section AgPreamble.
Context {num : Numeric}.
Variable scope : Session.
Variable disk : Disk.
Import AcquireAg AgSummary.

Lemma update_keeps_preamble (n : nat) (st : St Vars) :
  pre (vars (snd (update scope disk n st))) = pre (vars st).
Proof.
  destruct (Nat.le_gt_cases n (i (vars st))) as [Hle | Hgt].
  - destruct (update_done scope disk n st Hle) as [(_ & ->) | (e & _ & ->)]; reflexivity.
  - rewrite (update_capture scope disk n st Hgt).
    pose proof (ag_capture_ok scope disk st) as Hc.
    destruct (capture scope disk st) as [[[] | e] st1]; cbn [fst snd] in Hc |- *;
      destruct Hc as (_ & _ & _ & _ & _ & Hp & _); exact Hp.
Qed.

Lemma exec_keeps_preamble (fuel n : nat) (st : St Vars) :
  pre (vars (exec_ scope disk fuel n st)) = pre (vars st).
Proof.
  revert st. induction fuel as [| fuel IH]; intros st; [reflexivity |].
  cbn [exec_]. destruct (timer_active (world st)); [| reflexivity].
  pose proof (update_keeps_preamble n st) as Hu.
  destruct (update scope disk n st) as [[[] | e] st1]; cbn [snd] in Hu;
    rewrite IH; exact Hu.
Qed.

End AgPreamble.




(** C7.  In [acquire.py] the session is closed exactly once in every run.
    In [acquire_ag.py] it is not: when the instrument refuses the closing
    [:RUN] command after 5 good captures, [update] is left before
    [scope.close()] and the session is never closed; and when the setup
    fails, the script exits without closing the session. *)
Theorem close_at_termination :
  (forall (num : Numeric) (scope : Session) (disk : Disk) (n : nat),
      closes (final (Acquire.main scope disk n)) = 1%nat) /\
  (let r := AcquireAg.main (num := Exact.numeric)
              (Stub.ag Stub.never (Some Stub.TransportError) Stub.codes_block)
              Stub.disk_ok 5 in
   status r = COMPLETE /\ AcquireAg.attempts (final r) = 5%nat /\
   timer_active (final r) = false /\ closes (final r) = 0%nat /\
   uncaught (final r) = [Stub.TransportError]) /\
  (let r := AcquireAg.main (num := Exact.numeric)
              {| on_write := fun _ _ => Ok tt;
                 on_ask := fun _ _ => Raise Stub.TimeoutError;
                 on_read_raw := fun _ => Ok Stub.codes_block |}
              Stub.disk_ok 5 in
   status r = ABORTED InSetup /\ closes (final r) = 0%nat).
Proof.
  splits.
  - intros num scope disk n.
    destruct (Tek.configure scope (mkSt tt init_world)) as [[p | e0] st0] eqn:Hcfg.
    + rewrite (acquire_main_ok scope disk n p st0 Hcfg).
      destruct (tek_loop_from_config scope true (Acquire.capture scope disk)
                  (acquire_capture_ok scope disk) n p st0 Hcfg)
        as (_ & _ & _ & _ & _ & _ & Hcl & _).
      cbv zeta in *. cbn [final]. unfold closes in *. rewrite count_after_call, Hcl.
      reflexivity.
    + rewrite (acquire_main_failed scope disk n e0 st0 Hcfg).
      destruct (tek_failed_config scope e0 st0 Hcfg) as (_ & Hcl & _).
      cbn [final]. unfold closes in *. rewrite count_after_call.
      cbn [trace add_setup_error]. rewrite Hcl. reflexivity.
  - cbv zeta. splits; vm_compute; reflexivity.
  - cbv zeta. splits; vm_compute; reflexivity.
Qed.




(** C9.  In a run of [acquire.py] whose configuration succeeds, each of the
    six preamble queries is sent exactly once, all of them before the first
    capture is triggered, and every pass of the loop, failed or not, leaves
    the six preamble variables as they were.  In a run of [acquire_ag.py]
    whose setup succeeds, the preamble query is sent exactly once, before
    the first capture, and every call of [update] leaves the five preamble
    variables as they were, so the run ends with the values the setup
    read. *)
Theorem preamble_is_read_once :
  (forall (num : Numeric) (scope : Session) (disk : Disk) (n : nat)
          (p : Tek.Preamble) (st0 : St unit),
      Tek.configure scope (mkSt tt init_world) = (Ok p, st0) ->
      (forall q, In q Tek.preamble_queries ->
         count_call q (trace (final (Acquire.main scope disk n))) = 1%nat /\
         count_call q (trace (world st0)) = 1%nat) /\
      Tek.attempts (world st0) = 0%nat /\
      (forall i st,
         Tek.pre (vars (snd (Tek.guarded (Acquire.capture scope disk) i st)))
         = Tek.pre (vars st)) /\
      Tek.pre (vars (snd (Acquire.capture_loop scope disk n
                            (mkSt (Tek.init_vars p) (world st0))))) = p) /\
  (forall (num : Numeric) (scope : Session) (disk : Disk) (n : nat)
          (p : AcquireAg.Preamble) (st0 : St unit),
      AcquireAg.setup scope (mkSt tt init_world) = (Ok p, st0) ->
      count_call AcquireAg.preamble_query (trace (final (AcquireAg.main scope disk n)))
      = 1%nat /\
      count_call AcquireAg.preamble_query (trace (world st0)) = 1%nat /\
      AcquireAg.attempts (world st0) = 0%nat /\
      (forall st,
         AcquireAg.pre (vars (snd (AcquireAg.update scope disk n st)))
         = AcquireAg.pre (vars st)) /\
      (forall fuel,
         AcquireAg.pre
           (vars (AcquireAg.exec_ scope disk fuel n
                    (mkSt (AcquireAg.init_vars p) (set_timer true (world st0))))) = p)).
Proof.
  split.
  - intros num scope disk n p st0 Hcfg.
    destruct (tek_loop_from_config scope true (Acquire.capture scope disk)
                (acquire_capture_ok scope disk) n p st0 Hcfg)
      as (_ & _ & _ & _ & _ & _ & _ & Hq1 & _ & Ha & Hp1).
    cbv zeta in *. splits.
    + intros q Hq. split.
      * rewrite (acquire_main_ok scope disk n p st0 Hcfg). cbv zeta. cbn [final].
        rewrite count_after_call,
          (preamble_query_not_close q Close Hq (or_introl eq_refl)).
        rewrite Nat.add_0_r. exact (Hq1 q Hq).
      * destruct (tek_config_world scope (Ok p) st0 Hcfg)
          as (_ & _ & _ & _ & rest & Hr & ->).
        rewrite app_nil_r in Hr. rewrite <- Hr.
        repeat (destruct Hq as [<- | Hq]; [reflexivity |]). destruct Hq.
    + exact Ha.
    + intros i st. apply (guarded_keeps_preamble true _ (acquire_capture_ok scope disk)).
    + exact Hp1.
  - intros num scope disk n p st0 Hs.
    destruct (ag_run_facts scope disk n p st0 Hs) as (_ & Hq & _). cbv zeta in Hq.
    destruct (ag_main_ok scope disk n p st0 Hs) as (_ & Ht0 & _).
    splits.
    + exact Hq.
    + rewrite Ht0. reflexivity.
    + unfold AcquireAg.attempts. rewrite Ht0. reflexivity.
    + intros st. apply update_keeps_preamble.
    + intros fuel. rewrite exec_keeps_preamble. reflexivity.
Qed.

Lemma preamble_is_read_once_witness :
  (exists p st0,
      Tek.configure (num := Exact.numeric)
        (Stub.tek "4" Stub.never Stub.codes_block) (mkSt tt init_world) = (Ok p, st0) /\
      count_call (Ask "WFMPRE:YMULT?")
        (trace (final (Acquire.main (num := Exact.numeric)
                         (Stub.tek "4" Stub.never Stub.codes_block) Stub.disk_ok 3)))
      = 1%nat) /\
  (exists p st0,
      AcquireAg.setup (num := Exact.numeric)
        (Stub.ag Stub.never None Stub.codes_block) (mkSt tt init_world) = (Ok p, st0) /\
      count_call AcquireAg.preamble_query
        (trace (final (AcquireAg.main (num := Exact.numeric)
                         (Stub.ag Stub.never None Stub.codes_block) Stub.disk_ok 3)))
      = 1%nat).
Proof.
  split.
  - destruct (Tek.configure (num := Exact.numeric)
                (Stub.tek "4" Stub.never Stub.codes_block) (mkSt tt init_world))
      as [[p | e] st0] eqn:H.
    + exists p, st0. split; [reflexivity |].
      destruct (proj1 preamble_is_read_once Exact.numeric _ Stub.disk_ok 3%nat p st0 H)
        as (Hq & _).
      apply (Hq (Ask "WFMPRE:YMULT?")). cbn. tauto.
    + exfalso.
      assert (Hok : is_ok (fst (Tek.configure (num := Exact.numeric)
                                  (Stub.tek "4" Stub.never Stub.codes_block)
                                  (mkSt tt init_world))) = true)
        by (vm_compute; reflexivity).
      rewrite H in Hok. discriminate Hok.
  - destruct (AcquireAg.setup (num := Exact.numeric)
                (Stub.ag Stub.never None Stub.codes_block) (mkSt tt init_world))
      as [[p | e] st0] eqn:H.
    + exists p, st0. split; [reflexivity |].
      exact (proj1 (proj2 preamble_is_read_once Exact.numeric _ Stub.disk_ok 3%nat p st0 H)).
    + exfalso.
      assert (Hok : is_ok (fst (AcquireAg.setup (num := Exact.numeric)
                                  (Stub.ag Stub.never None Stub.codes_block)
                                  (mkSt tt init_world))) = true)
        by (vm_compute; reflexivity).
      rewrite H in Hok. discriminate Hok.
Defined.
